(** * FrozenList: a list that can be frozen

    A shallow embedding of [frozenlist/_frozenlist.pyx] (the Cython
    extension class [FrozenList]) together with the parts of the Python
    runtime that the class delegates to: the built-in [list] type, rich
    comparison of objects and [copy.deepcopy].

    Objects live in a heap and are referred to by address, because the
    class stores arbitrary objects, among them other containers and
    itself. *)

From stdpp Require Import base numbers option list gmap strings.

Open Scope Z_scope.

(** ** Values, objects and the heap *)

(** [id(obj)] of a heap object. *)
Abbreviation addr := nat.

(** The Python values the development ranges over: [None], integers,
    references to mutable containers, and tuples of integers.  Two
    integer values with the same number behave alike under every
    operation used here, so an integer object is identified with its
    number; so do two tuples of the same integers, which nothing can
    change, and a tuple is identified with its items. *)
Inductive value : Type :=
  | VNone
  | VInt (z : Z)
  | VRef (a : addr)
  | VTuple (items : list Z).

#[global] Instance value_eq_dec : EqDecision value.
Proof. solve_decision. Defined.

(** [cdef class FrozenList]: the two C-level fields of an instance.  The
    field [_items] is a list object that the instance creates for itself
    in [__init__] and that no method hands out, so it is kept by value
    inside the instance.  (That the list is the instance's own is what
    the module [by_reference] below is there to show: it models
    [__init__] with the list as an object that the heap holds.) *)
Record FrozenList : Type := mkFrozenList {
  _frozen : bool;
  _items : list value
}.

(** A heap object is a plain [list] or a [FrozenList]. *)
Inductive object : Type :=
  | ListObject (items : list value)
  | FrozenListObject (fl : FrozenList).

(** The heap: object number [a] is the one whose [id] is [a].  Objects
    are never freed; a new object takes the next free address. *)
Abbreviation heap := (list object).

Definition object_items (o : object) : list value :=
  match o with
  | ListObject items => items
  | FrozenListObject fl => _items fl
  end.

(** The exceptions that leave the modelled code. *)
Inductive exn : Type :=
  | RuntimeError (msg : string)
  | TypeError
  | ValueError
  | IndexError
  | RecursionError
  | OverflowError.

#[global] Instance exn_eq_dec : EqDecision exn.
Proof. solve_decision. Defined.

(** What a call does: it returns, it raises, or it does not come back
    (it runs for as long as there is memory for it). *)
Inductive outcome (A : Type) : Type :=
  | Ok (a : A)
  | Raise (e : exn)
  | Diverge.
Arguments Ok {A} a.
Arguments Raise {A} e.
Arguments Diverge {A}.

#[global] Instance outcome_ret : MRet outcome := @Ok.
#[global] Instance outcome_bind : MBind outcome := fun A B f m =>
  match m with
  | Ok a => f a
  | Raise e => Raise e
  | Diverge => Diverge
  end.
#[global] Instance outcome_fmap : FMap outcome := fun A B f m =>
  match m with
  | Ok a => Ok (f a)
  | Raise e => Raise e
  | Diverge => Diverge
  end.

(** Code that runs against the heap: the outcome of the call and the heap
    it leaves behind.  An exception does not undo what was written
    before it was raised. *)
Definition M (A : Type) : Type := heap -> outcome A * heap.

#[global] Instance M_ret : MRet M := fun A a h => (Ok a, h).
#[global] Instance M_bind : MBind M := fun A B f m h =>
  match m h with
  | (Ok a, h') => f a h'
  | (Raise e, h') => (Raise e, h')
  | (Diverge, h') => (Diverge, h')
  end.

Definition raise {A} (e : exn) : M A := fun h => (Raise e, h).
Definition lift {A} (r : outcome A) : M A := fun h => (r, h).
Definition get_heap : M heap := fun h => (Ok h, h).

(** Allocation of a new object; its address is returned. *)
Definition alloc (o : object) : M addr := fun h => (Ok (length h), h ++ [o]).

(** [self] as a method receives it.  Calling a method of the class on
    anything but an instance is refused by the method descriptor. *)
Definition load (self : addr) : M FrozenList := fun h =>
  match h !! self with
  | Some (FrozenListObject fl) => (Ok fl, h)
  | _ => (Raise TypeError, h)
  end.

Definition store (self : addr) (fl : FrozenList) : M unit := fun h =>
  (Ok tt, <[self := FrozenListObject fl]> h).

(** The items an iterable yields when it is run to its end at once.
    [None] and the integers are not iterable. *)
Definition iterate (h : heap) (v : value) : outcome (list value) :=
  match v with
  | VRef a =>
      match h !! a with
      | Some o => Ok (object_items o)
      | None => Raise TypeError
      end
  | VTuple items => Ok (VInt <$> items)
  | VNone | VInt _ => Raise TypeError
  end.

(** ** Rich comparison

    [FrozenList.__richcmp__] hands every comparison to the built-in
    list, so the interpreter's comparison of lists and of their items is
    part of the model. *)

(** The operator codes that the interpreter passes to [tp_richcompare]:
    [Py_LT] is 0, [Py_LE] 1, [Py_EQ] 2, [Py_NE] 3, [Py_GT] 4, [Py_GE] 5. *)
Inductive cmp_op : Type := Py_LT | Py_LE | Py_EQ | Py_NE | Py_GT | Py_GE.

#[global] Instance cmp_op_eq_dec : EqDecision cmp_op.
Proof. solve_decision. Defined.

Definition op_code (op : cmp_op) : Z :=
  match op with
  | Py_LT => 0 | Py_LE => 1 | Py_EQ => 2 | Py_NE => 3 | Py_GT => 4 | Py_GE => 5
  end.

(** [_Py_SwappedOp]: the operator of the reflected call. *)
Definition swapped_op (op : cmp_op) : cmp_op :=
  match op with
  | Py_LT => Py_GT | Py_LE => Py_GE | Py_EQ => Py_EQ
  | Py_NE => Py_NE | Py_GT => Py_LT | Py_GE => Py_LE
  end.

(** [Py_RETURN_RICHCOMPARE] on two C integers; integer objects compare
    the same way. *)
Definition Z_richcompare (a b : Z) (op : cmp_op) : bool :=
  match op with
  | Py_LT => a <? b
  | Py_LE => a <=? b
  | Py_EQ => a =? b
  | Py_NE => negb (a =? b)
  | Py_GT => b <? a
  | Py_GE => b <=? a
  end.

(** [tuplerichcompare] on two tuples of integers: the first pair of
    items that are not equal decides; when one tuple runs out first,
    the lengths decide. *)
Fixpoint tuple_richcompare (vs ws : list Z) (op : cmp_op) : bool :=
  match vs, ws with
  | v :: vs', w :: ws' =>
      if v =? w then tuple_richcompare vs' ws' op else Z_richcompare v w op
  | _, _ => Z_richcompare (Z.of_nat (length vs)) (Z.of_nat (length ws)) op
  end.

(** The last step of [do_richcompare], taken when neither operand's type
    implements the comparison: [==] and [!=] fall back on identity, an
    ordering is a type error. *)
Definition default_richcompare (same : bool) (op : cmp_op) : outcome bool :=
  match op with
  | Py_EQ => Ok same
  | Py_NE => Ok (negb same)
  | _ => Raise TypeError
  end.

Section list_compare.
(** [PyObject_RichCompare] on two items, read as a truth value. *)
Variable item_cmp : value -> value -> cmp_op -> outcome bool.

(** The loop of [list_richcompare]: the first index at which the items
    differ, or the length of the shorter list.  Identical items are
    skipped without a call. *)
Fixpoint first_difference (vs ws : list value) (i : nat) : outcome nat :=
  match vs, ws with
  | v :: vs', w :: ws' =>
      if bool_decide (v = w) then first_difference vs' ws' (S i)
      else
        k ← item_cmp v w Py_EQ;
        if k : bool then first_difference vs' ws' (S i) else Ok i
  | _, _ => Ok i
  end.

(** [list_richcompare] for two lists. *)
Definition list_richcompare (vs ws : list value) (op : cmp_op) : outcome bool :=
  if bool_decide (length vs ≠ length ws) && bool_decide (op = Py_EQ ∨ op = Py_NE)
  then Ok (bool_decide (op = Py_NE))
  else
    i ← first_difference vs ws 0;
    match vs !! i, ws !! i with
    | Some v, Some w =>
        match op with
        | Py_EQ => Ok false
        | Py_NE => Ok true
        | _ => item_cmp v w op
        end
    | _, _ =>
        Ok (Z_richcompare (Z.of_nat (length vs)) (Z.of_nat (length ws)) op)
    end.

Variable h : heap.

(** [PyObject_RichCompare(v, w, op)] where [v] is a list with the items
    [vs].  Against a list, [list_richcompare] decides.  Against a
    [FrozenList] the list's own slot answers [NotImplemented] and the
    reflected call [w.__richcmp__(v, swapped op)] runs, which compares
    [list(w)] with [v], two lists.  Against anything else, a tuple
    among them, neither side implements the comparison. *)
Definition list_compare_to (vs : list value) (w : value) (op : cmp_op) : outcome bool :=
  match w with
  | VRef b =>
      match h !! b with
      | Some (ListObject ws) => list_richcompare vs ws op
      | Some (FrozenListObject fl) => list_richcompare (_items fl) vs (swapped_op op)
      | None => Raise TypeError
      end
  | _ => default_richcompare false op
  end.

(** [FrozenList.__richcmp__]: [list(self)] is a new list with the
    items of [self].  The interpreter passes one of the six codes, so
    the last test is left to the [else]. *)
Definition __richcmp__ (self : FrozenList) (other : value) (op : cmp_op) : outcome bool :=
  if bool_decide (op_code op = 0) then list_compare_to (_items self) other Py_LT
  else if bool_decide (op_code op = 1) then list_compare_to (_items self) other Py_LE
  else if bool_decide (op_code op = 2) then list_compare_to (_items self) other Py_EQ
  else if bool_decide (op_code op = 3) then list_compare_to (_items self) other Py_NE
  else if bool_decide (op_code op = 4) then list_compare_to (_items self) other Py_GT
  else list_compare_to (_items self) other Py_GE.
End list_compare.

(** [PyObject_RichCompare], by the types of the operands.  [depth] is
    the room left on the interpreter's stack: every step from a list or
    a [FrozenList] into its items uses one unit, and [RecursionError] is
    raised when none is left. *)
Fixpoint PyObject_RichCompare (depth : nat) (h : heap) (v w : value) (op : cmp_op)
    : outcome bool :=
  match v, w with
  | VInt a, VInt b => Ok (Z_richcompare a b op)
  | VNone, VNone => default_richcompare true op
  | VNone, VInt _ | VInt _, VNone => default_richcompare false op
  | VTuple vs, VTuple ws => Ok (tuple_richcompare vs ws op)
  | VTuple _, (VNone | VInt _) | (VNone | VInt _), VTuple _ =>
      default_richcompare false op
  | _, _ =>
      match depth with
      | O => Raise RecursionError
      | S d =>
          let item_cmp := PyObject_RichCompare d h in
          match v with
          | VRef a =>
              match h !! a with
              | Some (ListObject vs) => list_compare_to item_cmp h vs w op
              | Some (FrozenListObject fl) => __richcmp__ item_cmp h fl w op
              | None => Raise TypeError
              end
          | _ =>
              match w with
              | VRef b =>
                  match h !! b with
                  | Some (ListObject _) => default_richcompare false op
                  | Some (FrozenListObject fl) => __richcmp__ item_cmp h fl v (swapped_op op)
                  | None => Raise TypeError
                  end
              | _ => default_richcompare false op
              end
          end
      end
  end.

(** [PyObject_RichCompareBool(v, w, Py_EQ)]: identical objects are equal
    without a call. *)
Definition PyObject_RichCompareBool_EQ (depth : nat) (h : heap) (v w : value) : outcome bool :=
  if bool_decide (v = w) then Ok true else PyObject_RichCompare depth h v w Py_EQ.

(** ** The built-in list

    The methods of [list] that the class calls, on the items of one
    list.  Each returns its result together with the items the list
    holds afterwards; a method that raises has not changed the list.
    An integer subscript that does not fit the machine's index type is
    outside every list and is refused like any other index outside the
    list; the arguments of [pop] and [insert] are converted to the index
    type before the list is looked at, and the conversion can fail. *)

(** The greatest [Py_ssize_t], the C type of sizes and of positions in a
    list, where it has 64 bits. *)
Definition PY_SSIZE_T_MAX : Z := 2 ^ 63 - 1.

(** A Python integer passed where the C code takes a [Py_ssize_t]:
    outside the range of the C type the conversion fails with
    [OverflowError]. *)
Definition as_ssize_t (z : Z) : outcome Z :=
  if (- PY_SSIZE_T_MAX - 1 <=? z) && (z <=? PY_SSIZE_T_MAX) then Ok z
  else Raise OverflowError.

(** What stands between the brackets of [l[...]]: an integer or a slice
    [start:stop:step], each part of which may be left out. *)
Inductive subscript : Type :=
  | Index (i : Z)
  | Slice (start stop step : option Z).

Module listobject.

(** An index counted from the end when negative; [None] when it falls
    outside the list. *)
Definition valid_index (n : nat) (i : Z) : option nat :=
  let j := if i <? 0 then i + Z.of_nat n else i in
  if (0 <=? j) && (j <? Z.of_nat n) then Some (Z.to_nat j) else None.

(** [PySlice_Unpack] and [PySlice_AdjustIndices]: the first position,
    the bound and the number of positions a slice selects in a list of
    length [n], for a step other than zero. *)
Definition adjust_indices (n : Z) (start stop : option Z) (step : Z) : Z * Z * nat :=
  let lower := if step <? 0 then -1 else 0 in
  let upper := if step <? 0 then n - 1 else n in
  let clip x :=
    if x <? 0 then (if x + n <? 0 then lower else x + n)
    else if n <=? x then upper else x in
  let start' := match start with Some x => clip x | None => if step <? 0 then upper else lower end in
  let stop' := match stop with Some x => clip x | None => if step <? 0 then lower else upper end in
  let slicelength :=
    if step <? 0
    then (if stop' <? start' then (start' - stop' - 1) / (- step) + 1 else 0)
    else (if start' <? stop' then (stop' - start' - 1) / step + 1 else 0) in
  (start', stop', Z.to_nat slicelength).

(** The positions [start, start + step, ...] a slice selects. *)
Definition positions (start step : Z) (slicelength : nat) : list nat :=
  (fun k : nat => Z.to_nat (start + Z.of_nat k * step)) <$> seq 0 slicelength.

Definition slice_step (step : option Z) : outcome Z :=
  match step with
  | None => Ok 1
  | Some 0 => Raise ValueError
  | Some s => Ok s
  end.

(** [list_subscript]: [l[index]].  A slice gives the items of a new
    list. *)
Definition list_subscript (items : list value) (index : subscript)
    : outcome (value + list value) :=
  match index with
  | Index i =>
      match valid_index (length items) i ≫= (items !!.) with
      | Some v => Ok (inl v)
      | None => Raise IndexError
      end
  | Slice start stop step =>
      s ← slice_step step;
      let '(start', _, n) := adjust_indices (Z.of_nat (length items)) start stop s in
      Ok (inr (omap (items !!.) (positions start' s n)))
  end.

(** [list_ass_subscript] with a value: [l[index] = value].  For a slice
    [seq] holds the items of the value, an iterable. *)
Definition list_ass_subscript (items : list value) (index : subscript)
    (value_ : value) (seq : outcome (list value)) : outcome (list value) :=
  match index with
  | Index i =>
      match valid_index (length items) i with
      | Some j => Ok (<[j := value_]> items)
      | None => Raise IndexError
      end
  | Slice start stop step =>
      s ← slice_step step;
      let '(start', stop', n) := adjust_indices (Z.of_nat (length items)) start stop s in
      vs ← seq;
      if bool_decide (s = 1) then
        let ilow := Z.to_nat start' in
        let ihigh := Z.to_nat (Z.max start' stop') in
        Ok (take ilow items ++ vs ++ drop ihigh items)
      else if bool_decide (length vs ≠ n) then Raise ValueError
      else Ok (foldl (fun l pv => <[pv.1 := pv.2]> l) items (zip (positions start' s n) vs))
  end.

(** [list_ass_subscript] without a value: [del l[index]]. *)
Definition list_del_subscript (items : list value) (index : subscript)
    : outcome (list value) :=
  match index with
  | Index i =>
      match valid_index (length items) i with
      | Some j => Ok (delete j items)
      | None => Raise IndexError
      end
  | Slice start stop step =>
      s ← slice_step step;
      let '(start', _, n) := adjust_indices (Z.of_nat (length items)) start stop s in
      let gone := positions start' s n in
      Ok (omap (fun j => if bool_decide (j ∈ gone) then None else items !! j)
               (seq 0 (length items)))
  end.

(** [PyList_Insert], the C function, whose position is a [Py_ssize_t]:
    a position before the start means the start, one past the end means
    the end. *)
Definition PyList_Insert (items : list value) (pos : Z) (item : value) : list value :=
  let n := Z.of_nat (length items) in
  let where_ := if pos <? 0 then Z.max 0 (pos + n) else Z.min pos n in
  take (Z.to_nat where_) items ++ item :: drop (Z.to_nat where_) items.

(** [list.insert(index, object)]: the index is converted to a
    [Py_ssize_t] first, and nothing is inserted when that fails. *)
Definition insert (items : list value) (pos : Z) (item : value) : outcome (list value) :=
  where_ ← as_ssize_t pos;
  Ok (PyList_Insert items where_ item).

Definition PyList_Append (items : list value) (item : value) : list value :=
  items ++ [item].

(** [list.pop(index)]: the index is converted to a [Py_ssize_t] before
    the list is looked at, and the list stays as it is when that
    fails. *)
Definition pop (items : list value) (index : Z) : outcome (value * list value) :=
  i ← as_ssize_t index;
  if bool_decide (length items = 0%nat) then Raise IndexError
  else
    match valid_index (length items) i with
    | Some j =>
        match items !! j with
        | Some v => Ok (v, delete j items)
        | None => Raise IndexError
        end
    | None => Raise IndexError
    end.

Section search.
(** [PyObject_RichCompareBool(item, value, Py_EQ)]. *)
Variable item_eq : value -> value -> outcome bool.

(** The position of the first item equal to [v], counted from [i]. *)
Fixpoint find (items : list value) (v : value) (i : nat) : outcome (option nat) :=
  match items with
  | [] => Ok None
  | x :: rest =>
      b ← item_eq x v;
      if b : bool then Ok (Some i) else find rest v (S i)
  end.

(** [list.index(value)]. *)
Definition index (items : list value) (v : value) : outcome Z :=
  r ← find items v 0;
  match r with
  | Some i => Ok (Z.of_nat i)
  | None => Raise ValueError
  end.

(** [list.remove(value)]. *)
Definition remove (items : list value) (v : value) : outcome (list value) :=
  r ← find items v 0;
  match r with
  | Some i => Ok (delete i items)
  | None => Raise ValueError
  end.

(** [PySequence_Contains] on a list. *)
Definition PySequence_Contains (items : list value) (v : value) : outcome bool :=
  r ← find items v 0;
  Ok (bool_decide (is_Some r)).

(** [PySequence_Count] on a list. *)
Fixpoint PySequence_Count (items : list value) (v : value) : outcome Z :=
  match items with
  | [] => Ok 0
  | x :: rest =>
      b ← item_eq x v;
      n ← PySequence_Count rest v;
      Ok (if b : bool then n + 1 else n)
  end.
End search.

(** [list.extend(iterable)] on the list that the [FrozenList] at
    [owner] keeps as its [_items].  A list is copied before it is
    appended, and the items of a tuple are appended as they are.  Any
    other iterable is run through its iterator while the list grows; a
    [FrozenList] iterates over its own [_items], so when the owner
    itself is passed the iterator walks the very list that is growing
    and reaches its end only if there is nothing to walk. *)
Definition extend (h : heap) (owner : addr) (items : list value) (iterable : value)
    : outcome (list value) :=
  match iterable with
  | VRef a =>
      match h !! a with
      | Some (ListObject vs) => Ok (items ++ vs)
      | Some (FrozenListObject fl) =>
          if bool_decide (a = owner)
          then (if bool_decide (items = []) then Ok items else Diverge)
          else Ok (items ++ _items fl)
      | None => Raise TypeError
      end
  | VTuple vs => Ok (items ++ (VInt <$> vs))
  | VNone | VInt _ => Raise TypeError
  end.

(** A key function: [None], or a callable given by what it returns. *)
Definition key_function : Type := option (value -> outcome value).

(** An argument of a call to [sort]. *)
Inductive argument : Type :=
  | KeyArgument (key : key_function)
  | BoolArgument (b : bool).

Section sorting.
(** [PyObject_RichCompareBool(v, w, Py_LT)]. *)
Variable item_lt : value -> value -> outcome bool.

(** One item put into a sorted run that followed it in the list: it
    passes only items that are less, and so stays before its equals. *)
Fixpoint insert_run (x : value * value) (run : list (value * value))
    : outcome (list (value * value)) :=
  match run with
  | [] => Ok [x]
  | y :: run' =>
      b ← item_lt y.1 x.1;
      if b : bool then (y ::.) <$> insert_run x run' else Ok (x :: run)
  end.

Fixpoint sort_run (l : list (value * value)) : outcome (list (value * value)) :=
  match l with
  | [] => Ok []
  | x :: l' => run ← sort_run l'; insert_run x run
  end.

Definition apply_key (key : key_function) (v : value) : outcome (value * value) :=
  match key with
  | None => Ok (v, v)
  | Some f => k ← f v; Ok (k, v)
  end.

Fixpoint keyed (key : key_function) (items : list value)
    : outcome (list (value * value)) :=
  match items with
  | [] => Ok []
  | v :: rest => kv ← apply_key key v; (kv ::.) <$> keyed key rest
  end.

(** [list.sort], whose parameters [key=None] and [reverse=False] are
    both keyword-only: a call that passes anything by position fails
    with [TypeError] (sort() takes no positional arguments) before
    the list is looked at.  [positional] holds the arguments passed by
    position, [key] and [reverse] what was passed by keyword.

    Otherwise the items are sorted by their keys, stably; a
    descending sort reverses the list before and after, so that
    equal items keep their order then too.  The result is the one
    the built-in sort arrives at whenever the order on the keys is
    a consistent one; where a comparison or the key function raises,
    the built-in leaves the items in some order of its own, and here
    they are left as they were. *)
Definition sort (positional : list argument) (key : key_function) (reverse_ : bool)
    (items : list value) : outcome (list value) :=
  match positional with
  | _ :: _ => Raise TypeError
  | [] =>
      ks ← keyed key items;
      run ← sort_run (if reverse_ then reverse ks else ks);
      Ok (snd <$> (if reverse_ then reverse run else run))
  end.
End sorting.

End listobject.

(** ** The class *)

Module FrozenList.

(** [FrozenList(...)] allocates the instance with its fields cleared
    before [__init__] runs on it. *)
Definition blank : FrozenList := {| _frozen := false; _items := [] |}.

Definition set_frozen (b : bool) (fl : FrozenList) : FrozenList :=
  {| _frozen := b; _items := _items fl |}.

Definition set_items (items : list value) (fl : FrozenList) : FrozenList :=
  {| _frozen := _frozen fl; _items := items |}.

(** A method of the built-in list applied to [self._items]: its result
    is passed on and the list takes the items the method leaves. *)
Definition on_items {A} (self : addr)
    (method : heap -> list value -> outcome (A * list value)) : M A :=
  fl ← load self;
  h ← get_heap;
  '(r, items) ← lift (method h (_items fl));
  store self (set_items items fl);;
  mret r.

Definition PySequence_List (items : value) : M (list value) :=
  h ← get_heap; lift (iterate h items).

(** [__init__] is what the call [FrozenList(items)] runs on the instance
    it has allocated; like any method it can be called again on an
    instance that is in use. *)
Definition __init__ (self : addr) (items : value) : M unit :=
  fl ← load self;
  store self (set_frozen false fl);;
  items ← (if bool_decide (items ≠ VNone) then PySequence_List items else mret []);
  fl ← load self;
  store self (set_items items fl).

(** The call [FrozenList(items)]: a new instance every time. *)
Definition new (items : value) : M addr :=
  self ← alloc (FrozenListObject blank);
  __init__ self items;;
  mret self.

Definition frozen (self : addr) : M bool :=
  fl ← load self; mret (_frozen fl).

Definition frozen_msg : string := "Cannot modify frozen list.".

Definition _check_frozen (self : addr) : M unit :=
  fl ← load self;
  if _frozen fl then raise (RuntimeError frozen_msg) else mret tt.

Definition _fast_len (self : addr) : M nat :=
  fl ← load self; mret (length (_items fl)).

Definition freeze (self : addr) : M unit :=
  fl ← load self; store self (set_frozen true fl).

(** A slice of the list is a new list. *)
Definition __getitem__ (self : addr) (index : subscript) : M value :=
  fl ← load self;
  r ← lift (listobject.list_subscript (_items fl) index);
  match r with
  | inl v => mret v
  | inr vs => a ← alloc (ListObject vs); mret (VRef a)
  end.

Definition __setitem__ (self : addr) (index : subscript) (value_ : value) : M unit :=
  _check_frozen self;;
  on_items self (fun h items =>
    (tt ,.) <$> listobject.list_ass_subscript items index value_ (iterate h value_)).

Definition __delitem__ (self : addr) (index : subscript) : M unit :=
  _check_frozen self;;
  on_items self (fun _ items => (tt ,.) <$> listobject.list_del_subscript items index).

Definition __len__ (self : addr) : M Z :=
  n ← _fast_len self; mret (Z.of_nat n).

(** An iterator is given by the items it yields when it is run at
    once. *)
Definition __iter__ (self : addr) : M (list value) :=
  fl ← load self; mret (_items fl).

Definition __reversed__ (self : addr) : M (list value) :=
  fl ← load self; mret (reverse (_items fl)).

Definition insert (self : addr) (pos : Z) (item : value) : M unit :=
  _check_frozen self;;
  on_items self (fun _ items => (tt ,.) <$> listobject.insert items pos item).

Definition append (self : addr) (item : value) : M unit :=
  _check_frozen self;;
  on_items self (fun _ items => Ok (tt, listobject.PyList_Append items item)).

Definition extend (self : addr) (items : value) : M unit :=
  _check_frozen self;;
  on_items self (fun h l => (tt ,.) <$> listobject.extend h self l items).

Definition __iadd__ (self : addr) (items : value) : M addr :=
  _check_frozen self;;
  on_items self (fun h l => (tt ,.) <$> listobject.extend h self l items);;
  mret self.

Definition clear (self : addr) : M unit :=
  _check_frozen self;;
  on_items self (fun _ _ => Ok (tt, [])).

Definition reverse (self : addr) : M unit :=
  _check_frozen self;;
  on_items self (fun _ items => Ok (tt, list.reverse items)).

Definition pop (self : addr) (index : Z) : M value :=
  _check_frozen self;;
  on_items self (fun _ items => listobject.pop items index).

(** [pop()]: the index defaults to [-1]. *)
Definition pop_default (self : addr) : M value := pop self (-1).

Section comparing.
(** The room on the interpreter's stack for comparing items. *)
Variable depth : nat.

Definition item_eq (h : heap) : value -> value -> outcome bool :=
  PyObject_RichCompareBool_EQ depth h.

Definition item_lt (h : heap) (v w : value) : outcome bool :=
  PyObject_RichCompare depth h v w Py_LT.

(** The slot [tp_richcompare] of the class, on an instance in the
    heap. *)
Definition richcmp (self : addr) (other : value) (op : cmp_op) : M bool :=
  fl ← load self;
  h ← get_heap;
  lift (__richcmp__ (PyObject_RichCompare depth h) h fl other op).

Definition __contains__ (self : addr) (item : value) : M bool :=
  fl ← load self;
  h ← get_heap;
  lift (listobject.PySequence_Contains (item_eq h) (_items fl) item).

Definition index (self : addr) (item : value) : M Z :=
  fl ← load self;
  h ← get_heap;
  lift (listobject.index (item_eq h) (_items fl) item).

Definition count (self : addr) (item : value) : M Z :=
  fl ← load self;
  h ← get_heap;
  lift (listobject.PySequence_Count (item_eq h) (_items fl) item).

Definition remove (self : addr) (item : value) : M unit :=
  _check_frozen self;;
  on_items self (fun h items => (tt ,.) <$> listobject.remove (item_eq h) items item).

(** [self._items.sort(key, reverse)]: the two arguments are passed by
    position. *)
Definition sort (self : addr) (key : listobject.key_function) (reverse_ : bool) : M unit :=
  _check_frozen self;;
  on_items self (fun h items =>
    (tt ,.) <$> listobject.sort (item_lt h)
                  [listobject.KeyArgument key; listobject.BoolArgument reverse_]
                  None false items).
End comparing.

Section builtins.
(** [hash] of a tuple and [repr] of a list with the given items: two
    built-ins that the class calls and that this development does
    not look into. *)
Variable hash_tuple : heap -> list value -> outcome Z.
Variable repr_list : heap -> list value -> outcome string.

Definition unfrozen_msg : string := "Cannot hash unfrozen list.".

Definition __hash__ (self : addr) : M Z :=
  fl ← load self;
  if _frozen fl then (h ← get_heap; lift (hash_tuple h (_items fl)))
  else raise (RuntimeError unfrozen_msg).

Definition __repr__ (self : addr) : M string :=
  fl ← load self;
  h ← get_heap;
  r ← lift (repr_list h (_items fl));
  mret ("<FrozenList(frozen=" +:+ (if _frozen fl then "True" else "False")
          +:+ ", " +:+ r +:+ ")>").
End builtins.

(** *** Deep copy *)

(** The memo of a deep copy: a dictionary from the [id] of an object to
    its copy.  It is one dictionary, passed on from call to call.  (The
    entry under the memo's own [id], by which [copy.deepcopy] keeps the
    copied objects alive, is left out: objects are never freed here.) *)
Abbreviation memo := (gmap addr value).

(** [y.append(v)] on the list at [y]. *)
Definition list_append (y : addr) (v : value) : M unit := fun h =>
  match h !! y with
  | Some (ListObject items) =>
      (Ok tt, <[y := ListObject (listobject.PyList_Append items v)]> h)
  | _ => (Raise TypeError, h)
  end.

Section deep_copy.
(** [copy.deepcopy(item, memo)], for the items. *)
Variable deepcopy : value -> memo -> M (value * memo).

(** The comprehension [[copy.deepcopy(item, memo) for item in items]].
    Its list is dropped as soon as the slice assignment has taken the
    copies out of it, and is kept as a value. *)
Fixpoint deepcopy_items (items : list value) (m : memo) : M (list value * memo) :=
  match items with
  | [] => mret ([], m)
  | item :: rest =>
      '(v, m) ← deepcopy item m;
      '(vs, m) ← deepcopy_items rest m;
      mret (v :: vs, m)
  end.

(** [self.__class__] is the class itself: subclasses are not modelled.
    The slice assignment goes to the list of the new instance directly,
    past the guard of [__setitem__]. *)
Definition __deepcopy__ (self : addr) (m : memo) : M (value * memo) :=
  _ ← load self;
  let obj_id := self in
  match m !! obj_id with
  | Some y => mret (y, m)
  | None =>
      arg ← alloc (ListObject []);
      new_list ← new (VRef arg);
      let m := <[obj_id := VRef new_list]> m in
      fl ← load self;
      '(copies, m) ← deepcopy_items (_items fl) m;
      on_items new_list (fun _ items =>
        (tt ,.) <$> listobject.list_ass_subscript items (Slice None None None)
                      VNone (Ok copies));;
      fl ← load self;
      (if _frozen fl then freeze new_list else mret tt);;
      mret (VRef new_list, m)
  end.

(** The loop of [_deepcopy_list]: [y.append(deepcopy(a, memo))] for
    every [a]. *)
Fixpoint deepcopy_into (y : addr) (items : list value) (m : memo) : M memo :=
  match items with
  | [] => mret m
  | a :: rest =>
      '(v, m) ← deepcopy a m;
      list_append y v;;
      deepcopy_into y rest m
  end.

(** [copy._deepcopy_list], the copier of the built-in list. *)
Definition _deepcopy_list (x : addr) (items : list value) (m : memo)
    : M (value * memo) :=
  y ← alloc (ListObject []);
  let m := <[x := VRef y]> m in
  m ← deepcopy_into y items m;
  mret (VRef y, m).
End deep_copy.

(** [copy.deepcopy(x, memo)].  [None], integers and tuples of integers
    are their own copies and are not entered in the memo.  [depth] is
    the room left on the interpreter's stack, used up by one unit for
    every list and [FrozenList] that is being copied. *)
Fixpoint deepcopy (depth : nat) (x : value) (m : memo) : M (value * memo) :=
  match x with
  | VNone | VInt _ | VTuple _ => mret (x, m)
  | VRef d =>
      match m !! d with
      | Some y => mret (y, m)
      | None =>
          match depth with
          | O => raise RecursionError
          | S depth' =>
              h ← get_heap;
              '(y, m) ← match h !! d with
                        | Some (ListObject items) =>
                            _deepcopy_list (deepcopy depth') d items m
                        | Some (FrozenListObject _) =>
                            __deepcopy__ (deepcopy depth') d m
                        | None => raise TypeError
                        end;
              mret (y, if bool_decide (y = x) then m else <[d := y]> m)
          end
      end
  end.

(** *** Calls *)

(** What a program can do with the objects in the heap: construct a
    [FrozenList], call a method of the class on an instance, [__init__]
    among them, deep-copy anything with a memo of its choice, and change
    a plain list of its own in any way. *)
Inductive call : Type :=
  | Call_FrozenList (items : value)
  | Call_init (self : addr) (items : value)
  | Call_frozen (self : addr)
  | Call_freeze (self : addr)
  | Call_getitem (self : addr) (index : subscript)
  | Call_setitem (self : addr) (index : subscript) (value_ : value)
  | Call_delitem (self : addr) (index : subscript)
  | Call_len (self : addr)
  | Call_iter (self : addr)
  | Call_reversed (self : addr)
  | Call_richcmp (self : addr) (other : value) (op : cmp_op)
  | Call_insert (self : addr) (pos : Z) (item : value)
  | Call_contains (self : addr) (item : value)
  | Call_iadd (self : addr) (items : value)
  | Call_sort (self : addr) (key : listobject.key_function) (reverse_ : bool)
  | Call_index (self : addr) (item : value)
  | Call_remove (self : addr) (item : value)
  | Call_clear (self : addr)
  | Call_extend (self : addr) (items : value)
  | Call_reverse (self : addr)
  | Call_pop (self : addr) (index : Z)
  | Call_append (self : addr) (item : value)
  | Call_count (self : addr) (item : value)
  | Call_repr (self : addr)
  | Call_hash (self : addr)
  | Call_deepcopy_method (self : addr) (m : memo)
  | Call_copy_deepcopy (x : value) (m : memo)
  | Call_list_assign (a : addr) (items : list value).

(** A plain list takes new items; nothing else is a plain list. *)
Definition list_assign (a : addr) (items : list value) : M unit := fun h =>
  match h !! a with
  | Some (ListObject _) => (Ok tt, <[a := ListObject items]> h)
  | _ => (Raise TypeError, h)
  end.

Definition discard {A} (m : M A) : M unit := _ ← m; mret tt.

Section running.
Variable depth : nat.
Variable hash_tuple : heap -> list value -> outcome Z.
Variable repr_list : heap -> list value -> outcome string.

Definition invoke (c : call) : M unit :=
  match c with
  | Call_FrozenList items => discard (new items)
  | Call_init self items => __init__ self items
  | Call_frozen self => discard (frozen self)
  | Call_freeze self => freeze self
  | Call_getitem self index => discard (__getitem__ self index)
  | Call_setitem self index v => __setitem__ self index v
  | Call_delitem self index => __delitem__ self index
  | Call_len self => discard (__len__ self)
  | Call_iter self => discard (__iter__ self)
  | Call_reversed self => discard (__reversed__ self)
  | Call_richcmp self other op => discard (richcmp depth self other op)
  | Call_insert self pos item => insert self pos item
  | Call_contains self item => discard (__contains__ depth self item)
  | Call_iadd self items => discard (__iadd__ self items)
  | Call_sort self key reverse_ => sort depth self key reverse_
  | Call_index self item => discard (index depth self item)
  | Call_remove self item => remove depth self item
  | Call_clear self => clear self
  | Call_extend self items => extend self items
  | Call_reverse self => reverse self
  | Call_pop self index => discard (pop self index)
  | Call_append self item => append self item
  | Call_count self item => discard (count depth self item)
  | Call_repr self => discard (__repr__ repr_list self)
  | Call_hash self => discard (__hash__ hash_tuple self)
  | Call_deepcopy_method self m => discard (__deepcopy__ (deepcopy depth) self m)
  | Call_copy_deepcopy x m => discard (deepcopy depth x m)
  | Call_list_assign a items => list_assign a items
  end.

(** The heap after a sequence of calls.  A call that raises is
    followed by the next one, as if the program had caught the
    exception; after one that does not come back nothing follows. *)
Fixpoint run (calls : list call) (h : heap) : heap :=
  match calls with
  | [] => h
  | c :: rest =>
      match invoke c h with
      | (Diverge, h') => h'
      | (_, h') => run rest h'
      end
  end.
End running.

End FrozenList.

(** ** The list behind an instance

    [cdef list _items] is a reference to a list object.  The class above
    keeps the items inside the instance, which is what an instance is
    from outside as long as its list is reached through it alone.
    Whether it is depends on where [__init__] takes the list from.  To
    tell, construction is modelled once more, with the list behind an
    instance as an object of the heap in its own right, so that two
    references to one list are something the heap can hold. *)

Module by_reference.

(** An instance refers to its list; [_items] is [None] in an instance
    on which [__init__] has not run, which is taken to have no items,
    as [FrozenList.blank] is above. *)
Inductive object : Type :=
  | ListObject (items : list value)
  | FrozenListObject (_frozen : bool) (_items : option addr).

Abbreviation heap := (list object).

(** The items of the list that [_items] refers to. *)
Definition list_items (h : heap) (_items : option addr) : list value :=
  match _items ≫= (h !!.) with
  | Some (ListObject items) => items
  | _ => []
  end.

Definition object_items (h : heap) (o : object) : list value :=
  match o with
  | ListObject items => items
  | FrozenListObject _ _items => list_items h _items
  end.

(** The items an iterable yields; a [FrozenList] yields those of its
    list. *)
Definition iterate (h : heap) (v : value) : outcome (list value) :=
  match v with
  | VRef a =>
      match h !! a with
      | Some o => Ok (object_items h o)
      | None => Raise TypeError
      end
  | VTuple items => Ok (VInt <$> items)
  | VNone | VInt _ => Raise TypeError
  end.

(** [PySequence_List(items)]: a new list object with the items that
    [items] yields. *)
Definition PySequence_List (items : value) (h : heap) : outcome addr * heap :=
  match iterate h items with
  | Ok vs => (Ok (length h), h ++ [ListObject vs])
  | Raise e => (Raise e, h)
  | Diverge => (Diverge, h)
  end.

(** [PyList_New(0)]: a new empty list object. *)
Definition PyList_New (h : heap) : outcome addr * heap :=
  (Ok (length h), h ++ [ListObject []]).

(** [__init__]: the flag is cleared; the local variable [items] is
    bound anew, to the list that [PySequence_List] or [PyList_New]
    returns; and that list is what [self._items] is made to refer to. *)
Definition __init__ (self : addr) (items : value) (h : heap) : outcome unit * heap :=
  match h !! self with
  | Some (FrozenListObject _ _items) =>
      let h := <[self := FrozenListObject false _items]> h in
      match (if bool_decide (items ≠ VNone) then PySequence_List items h
             else PyList_New h) with
      | (Ok items, h) =>
          match h !! self with
          | Some (FrozenListObject _frozen _) =>
              (Ok tt, <[self := FrozenListObject _frozen (Some items)]> h)
          | _ => (Raise TypeError, h)
          end
      | (Raise e, h) => (Raise e, h)
      | (Diverge, h) => (Diverge, h)
      end
  | _ => (Raise TypeError, h)
  end.

(** The call [FrozenList(items)]. *)
Definition new (items : value) (h : heap) : outcome addr * heap :=
  let self := length h in
  match __init__ self items (h ++ [FrozenListObject false None]) with
  | (Ok _, h) => (Ok self, h)
  | (Raise e, h) => (Raise e, h)
  | (Diverge, h) => (Diverge, h)
  end.

(** The items of the [FrozenList] at [a]. *)
Definition contents (h : heap) (a : addr) : option (list value) :=
  match h !! a with
  | Some (FrozenListObject _ _items) => Some (list_items h _items)
  | _ => None
  end.

(** No instance refers to a list that is yet to be made. *)
Definition wf (h : heap) : Prop :=
  forall a b l, h !! a = Some (FrozenListObject b (Some l)) -> (l < length h)%nat.

End by_reference.

(** * What the properties are stated with *)

(** ** Observations *)

(** The items of the [FrozenList] at [a], and its flag. *)
Definition contents (h : heap) (a : addr) : option (list value) :=
  match h !! a with
  | Some (FrozenListObject fl) => Some (_items fl)
  | _ => None
  end.

Definition is_frozen (h : heap) (a : addr) : bool :=
  match h !! a with
  | Some (FrozenListObject fl) => _frozen fl
  | _ => false
  end.

(** A call is refused when it raises the guard's error and the heap is
    the one it started from; [self] then has the items, the length and
    the flag it had. *)
Definition refused {A} (call : M A) (h : heap) (self : addr) : Prop :=
  (call h).1 = Raise (RuntimeError FrozenList.frozen_msg)
  /\ (call h).2 = h
  /\ contents (call h).2 self = contents h self
  /\ (length <$> contents (call h).2 self) = (length <$> contents h self).

(** No flag that is set in [h] is cleared in [h']. *)
Definition flags_kept (h h' : heap) : Prop :=
  forall a, is_frozen h a = true -> is_frozen h' a = true.

(** Code that clears no flag. *)
Definition keeps {A} (m : M A) : Prop := forall h, flags_kept h (m h).2.

(** [freeze()] called [n] times in a row. *)
Definition freeze_times (n : nat) (x : addr) : M unit :=
  Nat.iter n (fun rest => FrozenList.freeze x;; rest) (mret tt).

(** ** Comparison *)

(** Whether [a op b] holds, given how [a] and [b] compare. *)
Definition op_holds (op : cmp_op) (c : comparison) : bool :=
  match op, c with
  | Py_LT, Lt | Py_LE, (Lt | Eq) | Py_EQ, Eq
  | Py_NE, (Lt | Gt) | Py_GT, Gt | Py_GE, (Gt | Eq) => true
  | _, _ => false
  end.



(** The heap with every flag cleared: two heaps with the same image
    hold the same objects with the same items, and differ at most in
    which lists are frozen. *)
Definition unflag (o : object) : object :=
  match o with
  | ListObject items => ListObject items
  | FrozenListObject fl => FrozenListObject (FrozenList.set_frozen false fl)
  end.

Definition erase_flags (h : heap) : heap := unflag <$> h.

(** ** Copies *)

(** A value of a heap with [n] objects. *)
Definition value_in (n : nat) (v : value) : bool :=
  match v with
  | VRef a => bool_decide (a < n)%nat
  | _ => true
  end.

(** A heap without dangling references. *)
Definition closed (h : heap) : bool :=
  forallb (fun o => forallb (value_in (length h)) (object_items o)) h.

(** [v'] stands in the copy where [v] stands in the original: [None],
    integers and tuples of integers stand for themselves, a container
    is replaced by what the memo holds for it. *)
Definition copy_of_value (m : FrozenList.memo) (v v' : value) : Prop :=
  match v with
  | VRef a => m !! a = Some v'
  | _ => v' = v
  end.

(** [o'] is the copy of [o]: an object of the same type, with the same
    flag if it is a [FrozenList], whose items are the copies of the
    items of [o], slot by slot. *)
Definition copy_of_object (m : FrozenList.memo) (o o' : object) : Prop :=
  match o, o' with
  | ListObject items, ListObject items' => Forall2 (copy_of_value m) items items'
  | FrozenListObject fl, FrozenListObject fl' =>
      _frozen fl' = _frozen fl /\ Forall2 (copy_of_value m) (_items fl) (_items fl')
  | _, _ => False
  end.

(** The value reached from [v] along a path: at each step, the item at
    the given position of the container at hand. *)
Fixpoint follow (h : heap) (v : value) (path : list nat) : option value :=
  match path with
  | [] => Some v
  | i :: rest =>
      match v with
      | VRef a => o ← h !! a; w ← object_items o !! i; follow h w rest
      | _ => None
      end
  end.

(** Every object of [h] is in [h'], as it was. *)
Definition extends (h h' : heap) : Prop :=
  forall a o, h !! a = Some o -> h' !! a = Some o.

(** The objects of the heap [h0] that have not been entered in the
    memo. *)
Definition unvisited (h0 : heap) (m : FrozenList.memo) : nat :=
  size (set_seq 0 (length h0) ∖ dom m : gset nat).

(** The state of a deep copy of objects of [h0] under way: [h0] is
    untouched; the memo sends objects to objects made since; and an
    entry of the memo, unless its copy is [pending] (still being filled
    by a call that has not returned), sends an object of [h0] to its
    copy. *)
Definition copying (h0 : heap) (pending : addr -> Prop) (m : FrozenList.memo)
    (h : heap) : Prop :=
  extends h0 h
  /\ (forall a v, m !! a = Some v ->
        exists a', v = VRef a' /\ (length h0 <= a' < length h)%nat)
  /\ (forall a a', m !! a = Some (VRef a') -> ~ pending a' ->
        exists o o', h0 !! a = Some o /\ h !! a' = Some o' /\ copy_of_object m o o').

(** What a call leaves behind that started from the memo [m] and the
    heap [h]: the objects of [h] are as they were, the memo has lost
    nothing, and what it has gained are objects made during the call. *)
Definition copied (h0 : heap) (pending : addr -> Prop) (m : FrozenList.memo) (h : heap)
    (m' : FrozenList.memo) (h' : heap) : Prop :=
  extends h h'
  /\ m ⊆ m'
  /\ copying h0 pending m' h'
  /\ (forall a v, m' !! a = Some v ->
        m !! a = Some v \/ exists a', v = VRef a' /\ (length h <= a')%nat).

(** ** Instances by value and by reference *)

(** An object with the list behind it, as the class above has it: the
    instance with the items of its list inside. *)
Definition by_value_object (h : by_reference.heap) (o : by_reference.object) : object :=
  match o with
  | by_reference.ListObject items => ListObject items
  | by_reference.FrozenListObject b l =>
      FrozenListObject {| _frozen := b; _items := by_reference.list_items h l |}
  end.

(** The heap of the class above that a heap with the lists behind the
    instances stands for, address by address.  (The list behind an
    instance is there as a list.) *)
Definition by_value (h : by_reference.heap) : heap := by_value_object h <$> h.

(** ** Atoms, and what a call may write to *)

(** [None] and the integers: the values that hold no items. *)
Definition atom (v : value) : bool :=
  match v with
  | VNone | VInt _ => true
  | VRef _ | VTuple _ => false
  end.

(** The objects below [n] are in [h'] what they are in [h]. *)
Definition untouched (n : nat) (h h' : heap) : Prop :=
  (n <= length h')%nat /\ forall a, (a < n)%nat -> h' !! a = h !! a.

(** Code that, run in a heap of [n] objects or more, writes to none of
    the first [n], and returns only what satisfies [P]. *)
Definition writes_above {A} (n : nat) (m : M A) (P : A -> Prop) : Prop :=
  forall h, (n <= length h)%nat ->
    untouched n h (m h).2 /\ forall a, (m h).1 = Ok a -> P a.



(** ** Heaps and built-ins to try the properties on *)

Definition frozen_123 : heap :=
  [FrozenListObject {| _frozen := true; _items := [VInt 1; VInt 2; VInt 3] |}].

Definition frozen_empty : heap :=
  [FrozenListObject {| _frozen := true; _items := [] |}].

Definition unfrozen_empty : heap := [FrozenListObject FrozenList.blank].
Definition unfrozen_12 : heap :=
  [FrozenListObject {| _frozen := false; _items := [VInt 1; VInt 2] |}].

Definition source_312 : heap := [ListObject [VInt 3; VInt 1; VInt 2]].

Definition constructed_312 : heap :=
  source_312 ++ [FrozenListObject {| _frozen := false; _items := [VInt 3; VInt 1; VInt 2] |}].

Definition two_lists : heap :=
  [FrozenListObject {| _frozen := true; _items := [VInt 1; VInt 2] |};
   FrozenListObject {| _frozen := true; _items := [VInt 1; VInt 2] |};
   FrozenListObject {| _frozen := false; _items := [VInt 1; VInt 2] |}].

Definition comparands : heap :=
  [FrozenListObject {| _frozen := false; _items := [VInt 1; VInt 2; VInt 3] |};
   ListObject [VInt 1; VInt 2; VInt 4];
   FrozenListObject {| _frozen := true; _items := [VInt 1; VInt 2] |}].


(** A frozen list that holds itself, and a list that holds the frozen
    list and itself. *)
Definition knot : heap :=
  [FrozenListObject {| _frozen := true; _items := [VInt 1; VRef 0; VRef 1] |};
   ListObject [VRef 0; VInt 5; VRef 1]].

(** A hash of tuples of integers to try the theorem on: the sum of the
    items. *)
Definition sum_hash (h : heap) (items : list value) : outcome Z :=
  foldr (fun v acc => n ← acc; match v with VInt z => Ok (z + n) | _ => Raise TypeError end)
        (Ok 0) items.

Definition constant_repr (h : heap) (items : list value) : outcome string := Ok "[...]".

(** ** Tactics *)

Ltac unfold_M :=
  unfold mbind, M_bind, mret, M_ret, raise, lift, get_heap, load, store, alloc.

(** * Properties *)

(** ** The model on small inputs *)

Example slice_backwards :
  listobject.list_subscript [VInt 0; VInt 1; VInt 2; VInt 3; VInt 4]
    (Slice None None (Some (-2)))
  = Ok (inr [VInt 4; VInt 2; VInt 0]).
Proof. reflexivity. Qed.

Example slice_clipped :
  listobject.list_subscript [VInt 0; VInt 1; VInt 2; VInt 3; VInt 4]
    (Slice (Some (-100)) (Some 2) None)
  = Ok (inr [VInt 0; VInt 1]).
Proof. reflexivity. Qed.

Example slice_step_zero :
  listobject.list_subscript [VInt 0; VInt 1] (Slice None None (Some 0)) = Raise ValueError.
Proof. reflexivity. Qed.

Example delete_every_other :
  listobject.list_del_subscript [VInt 0; VInt 1; VInt 2; VInt 3; VInt 4]
    (Slice (Some 1) None (Some 2))
  = Ok [VInt 0; VInt 2; VInt 4].
Proof. reflexivity. Qed.

Example assign_empty_slice :
  listobject.list_ass_subscript [VInt 0; VInt 1; VInt 2; VInt 3; VInt 4]
    (Slice (Some 3) (Some 1) None) VNone (Ok [VInt 7])
  = Ok [VInt 0; VInt 1; VInt 2; VInt 7; VInt 3; VInt 4].
Proof. reflexivity. Qed.

Example assign_extended_slice :
  listobject.list_ass_subscript [VInt 0; VInt 1; VInt 2; VInt 3; VInt 4]
    (Slice (Some 4) (Some 1) (Some (-2))) VNone (Ok [VInt 7; VInt 8])
  = Ok [VInt 0; VInt 1; VInt 8; VInt 3; VInt 7].
Proof. reflexivity. Qed.

Example assign_extended_slice_size :
  listobject.list_ass_subscript [VInt 0; VInt 1; VInt 2; VInt 3; VInt 4]
    (Slice (Some 0) (Some 2) (Some 2)) VNone (Ok [VInt 1; VInt 2])
  = Raise ValueError.
Proof. reflexivity. Qed.

Example insert_positions :
  listobject.PyList_Insert
    (listobject.PyList_Insert
       (listobject.PyList_Insert [VInt 0; VInt 1; VInt 2] (-10) (VInt 9)) 10 (VInt 8))
    (-1) (VInt 7)
  = [VInt 9; VInt 0; VInt 1; VInt 2; VInt 7; VInt 8].
Proof. reflexivity. Qed.

Example sort_descending_is_stable :
  listobject.sort (FrozenList.item_lt 0 []) []
    (Some (fun v => Ok (match v with VInt z => VInt (z / 10) | _ => v end))) true
    [VInt 11; VInt 12; VInt 5]
  = Ok [VInt 11; VInt 12; VInt 5].
Proof. reflexivity. Qed.

Example none_before_an_integer :
  PyObject_RichCompare 1 [ListObject [VNone]; ListObject [VInt 1]] (VRef 0) (VRef 1) Py_LT
  = Raise TypeError.
Proof. reflexivity. Qed.

Example prefix_is_less :
  PyObject_RichCompare 1 [ListObject [VInt 1]; ListObject [VInt 1; VNone]]
    (VRef 0) (VRef 1) Py_LT
  = Ok true.
Proof. reflexivity. Qed.

Example extend_by_itself :
  FrozenList.extend 0
    (VRef 0) [FrozenListObject {| _frozen := false; _items := [VInt 1; VInt 2] |}]
  = (Diverge, [FrozenListObject {| _frozen := false; _items := [VInt 1; VInt 2] |}]).
Proof. reflexivity. Qed.

Example tuples_compare_by_items :
  PyObject_RichCompare 0 [] (VTuple [1; 2]) (VTuple [1; 2; 0]) Py_LT = Ok true
  /\ PyObject_RichCompare 0 [] (VTuple [2]) (VTuple [1; 5]) Py_LT = Ok false
  /\ PyObject_RichCompare 0 [] (VTuple []) (VTuple []) Py_EQ = Ok true.
Proof. repeat split; reflexivity. Qed.

Example list_and_tuple :
  PyObject_RichCompare 1 [ListObject [VInt 1]] (VRef 0) (VTuple [1]) Py_EQ = Ok false
  /\ PyObject_RichCompare 1 [ListObject [VInt 1]] (VTuple [1]) (VRef 0) Py_GE
     = Raise TypeError.
Proof. split; reflexivity. Qed.

Example tuple_in_a_list :
  FrozenList.index 0 0 (VTuple [1; 2])
    [FrozenListObject {| _frozen := true; _items := [VInt 1; VTuple [1; 2]] |}]
  = (Ok 1, [FrozenListObject {| _frozen := true; _items := [VInt 1; VTuple [1; 2]] |}]).
Proof. reflexivity. Qed.

Example extend_by_a_tuple :
  FrozenList.extend 0 (VTuple [3; 4]) unfrozen_12
  = (Ok tt, [FrozenListObject
               {| _frozen := false; _items := [VInt 1; VInt 2; VInt 3; VInt 4] |}]).
Proof. reflexivity. Qed.

Example insert_at_the_greatest_index :
  listobject.insert [VInt 0] PY_SSIZE_T_MAX (VInt 1) = Ok [VInt 0; VInt 1]
  /\ listobject.insert [VInt 0] (PY_SSIZE_T_MAX + 1) (VInt 1) = Raise OverflowError
  /\ listobject.insert [VInt 0] (- PY_SSIZE_T_MAX - 1) (VInt 1) = Ok [VInt 1; VInt 0]
  /\ listobject.insert [VInt 0] (- PY_SSIZE_T_MAX - 2) (VInt 1) = Raise OverflowError.
Proof. repeat split; reflexivity. Qed.

Example pop_at_the_least_index :
  listobject.pop [VInt 0] (- PY_SSIZE_T_MAX - 1) = Raise IndexError
  /\ listobject.pop [VInt 0] (- PY_SSIZE_T_MAX - 2) = Raise OverflowError
  /\ listobject.pop [] (PY_SSIZE_T_MAX + 1) = Raise OverflowError.
Proof. repeat split; reflexivity. Qed.

Example init_again :
  FrozenList.__init__ 0 (VTuple [7]) frozen_123
  = (Ok tt, [FrozenListObject {| _frozen := false; _items := [VInt 7] |}])
  /\ FrozenList.__init__ 0 (VInt 7) frozen_123
     = (Raise TypeError,
        [FrozenListObject {| _frozen := false; _items := [VInt 1; VInt 2; VInt 3] |}]).
Proof. split; reflexivity. Qed.

Example construction_by_reference :
  by_reference.new (VRef 0) [by_reference.ListObject [VInt 1]]
  = (Ok 1%nat,
     [by_reference.ListObject [VInt 1];
      by_reference.FrozenListObject false (Some 2%nat);
      by_reference.ListObject [VInt 1]]).
Proof. reflexivity. Qed.

(** An instance that shared its list with another object would change
    with it. *)
Example shared_list :
  by_reference.contents
    [by_reference.ListObject [VInt 1]; by_reference.FrozenListObject false (Some 0%nat)] 1
  = Some [VInt 1]
  /\ by_reference.contents
       [by_reference.ListObject []; by_reference.FrozenListObject false (Some 0%nat)] 1
     = Some [].
Proof. split; reflexivity. Qed.

(** ** The guard *)

Lemma load_instance (h : heap) (self : addr) (fl : FrozenList) :
  h !! self = Some (FrozenListObject fl) -> load self h = (Ok fl, h).
Proof. intros Hself. unfold load. by rewrite Hself. Qed.

Lemma _check_frozen_frozen (h : heap) (self : addr) (fl : FrozenList) :
  h !! self = Some (FrozenListObject fl) -> _frozen fl = true ->
  FrozenList._check_frozen self h = (Raise (RuntimeError FrozenList.frozen_msg), h).
Proof.
  intros Hself Hfr. unfold FrozenList._check_frozen, mbind, M_bind.
  rewrite (load_instance _ _ _ Hself), Hfr. reflexivity.
Qed.

Lemma _check_frozen_unfrozen (h : heap) (self : addr) (fl : FrozenList) :
  h !! self = Some (FrozenListObject fl) -> _frozen fl = false ->
  FrozenList._check_frozen self h = (Ok tt, h).
Proof.
  intros Hself Hfr. unfold FrozenList._check_frozen, mbind, M_bind.
  rewrite (load_instance _ _ _ Hself), Hfr. reflexivity.
Qed.

(** A method that starts with the guard stops there on a frozen list. *)
Lemma guarded_frozen {A} (k : M A) (h : heap) (self : addr) (fl : FrozenList) :
  h !! self = Some (FrozenListObject fl) -> _frozen fl = true ->
  (FrozenList._check_frozen self;; k) h = (Raise (RuntimeError FrozenList.frozen_msg), h).
Proof.
  intros Hself Hfr. unfold mbind at 1. unfold M_bind.
  by rewrite (_check_frozen_frozen _ _ _ Hself Hfr).
Qed.

Lemma guarded_unfrozen {A} (k : M A) (h : heap) (self : addr) (fl : FrozenList) :
  h !! self = Some (FrozenListObject fl) -> _frozen fl = false ->
  (FrozenList._check_frozen self;; k) h = k h.
Proof.
  intros Hself Hfr. unfold mbind at 1. unfold M_bind.
  by rewrite (_check_frozen_unfrozen _ _ _ Hself Hfr).
Qed.

(** What [on_items] does on an instance. *)
Lemma on_items_instance {A} (method : heap -> list value -> outcome (A * list value))
    (h : heap) (self : addr) (fl : FrozenList) :
  h !! self = Some (FrozenListObject fl) ->
  FrozenList.on_items self method h =
    match method h (_items fl) with
    | Ok (r, items) => (Ok r, <[self := FrozenListObject (FrozenList.set_items items fl)]> h)
    | Raise e => (Raise e, h)
    | Diverge => (Diverge, h)
    end.
Proof.
  intros Hself. unfold FrozenList.on_items. unfold_M. rewrite Hself.
  destruct (method h (_items fl)) as [[r items]| |]; reflexivity.
Qed.

Lemma set_items_same (fl : FrozenList) : FrozenList.set_items (_items fl) fl = fl.
Proof. by destruct fl. Qed.

Lemma guarded_refused {A} (k : M A) (h : heap) (self : addr) (fl : FrozenList) :
  h !! self = Some (FrozenListObject fl) -> _frozen fl = true ->
  refused (FrozenList._check_frozen self;; k) h self.
Proof.
  intros Hself Hfr. unfold refused.
  by rewrite (guarded_frozen k _ _ _ Hself Hfr).
Qed.

(** C1.  On a frozen list every mutating method raises the error of the
    guard and leaves the heap, and with it the items and the length of
    the list, as it found it: item and slice assignment, item and slice
    deletion, [insert], [+=], [sort], [remove], [clear], [extend],
    [reverse], [pop] and [append]. *)
Theorem frozen_rejects_every_mutation (h : heap) (self : addr) (fl : FrozenList) :
  h !! self = Some (FrozenListObject fl) -> _frozen fl = true ->
  (forall index v, refused (FrozenList.__setitem__ self index v) h self)
  /\ (forall index, refused (FrozenList.__delitem__ self index) h self)
  /\ (forall pos item, refused (FrozenList.insert self pos item) h self)
  /\ (forall items, refused (FrozenList.__iadd__ self items) h self)
  /\ (forall depth key reverse_, refused (FrozenList.sort depth self key reverse_) h self)
  /\ (forall depth item, refused (FrozenList.remove depth self item) h self)
  /\ refused (FrozenList.clear self) h self
  /\ (forall items, refused (FrozenList.extend self items) h self)
  /\ refused (FrozenList.reverse self) h self
  /\ (forall index, refused (FrozenList.pop self index) h self)
  /\ (forall item, refused (FrozenList.append self item) h self).
Proof.
  intros Hself Hfr.
  repeat apply conj; intros; by eapply guarded_refused.
Qed.

Lemma frozen_rejects_every_mutation_witness :
  refused (FrozenList.append 0 (VInt 4)) frozen_123 0
  /\ refused (FrozenList.__delitem__ 0 (Slice None None None)) frozen_123 0
  /\ contents (FrozenList.clear 0 frozen_123).2 0 = Some [VInt 1; VInt 2; VInt 3].
Proof.
  pose proof (frozen_rejects_every_mutation frozen_123 0 _ eq_refl eq_refl)
    as (_ & Hdel & _ & _ & _ & _ & Hclear & _ & _ & _ & Happend).
  split; [apply Happend|]. split; [apply Hdel|].
  destruct Hclear as (_ & _ & -> & _). reflexivity.
Defined.

(** ** [pop] and [append] on a list that is not frozen *)

(** The conversion of an index that fits the C type, and of one that
    does not. *)
Lemma as_ssize_t_fits (z : Z) :
  - PY_SSIZE_T_MAX - 1 <= z <= PY_SSIZE_T_MAX -> as_ssize_t z = Ok z.
Proof.
  intros Hz. unfold as_ssize_t.
  assert ((- PY_SSIZE_T_MAX - 1 <=? z) = true) as -> by (apply Z.leb_le; lia).
  assert ((z <=? PY_SSIZE_T_MAX) = true) as -> by (apply Z.leb_le; lia).
  done.
Qed.

Lemma as_ssize_t_overflow (z : Z) :
  z < - PY_SSIZE_T_MAX - 1 \/ PY_SSIZE_T_MAX < z -> as_ssize_t z = Raise OverflowError.
Proof.
  intros Hz. unfold as_ssize_t.
  destruct Hz as [Hz|Hz].
  - by assert ((- PY_SSIZE_T_MAX - 1 <=? z) = false) as -> by (apply Z.leb_gt; lia).
  - assert ((z <=? PY_SSIZE_T_MAX) = false) as -> by (apply Z.leb_gt; lia).
    by rewrite andb_false_r.
Qed.

(** Against C8 as it is stated: an index that does not fit the C type
    of indexes is invalid for every list, and [pop] raises
    [OverflowError] for it, not [IndexError]. *)
Lemma pop_overflow_counterexample :
  FrozenList.pop 0 (2 ^ 63) unfrozen_12 = (Raise OverflowError, unfrozen_12).
Proof. reflexivity. Qed.

(** C8.  On a list that is not frozen, [pop()] of an empty list raises
    [IndexError]; so does [pop(index)] whenever [index] fits the C type
    of indexes and is outside the list (which it always is when the
    list is empty); and [pop(index)] raises [OverflowError] whenever
    [index] does not fit the C type, whatever the list holds.  In each
    case the heap is left as it was. *)
Theorem pop_out_of_range (h : heap) (self : addr) (fl : FrozenList) (index : Z) :
  h !! self = Some (FrozenListObject fl) -> _frozen fl = false ->
  (_items fl = [] -> FrozenList.pop_default self h = (Raise IndexError, h))
  /\ (- PY_SSIZE_T_MAX - 1 <= index <= PY_SSIZE_T_MAX ->
      index < - Z.of_nat (length (_items fl)) \/ Z.of_nat (length (_items fl)) <= index ->
      FrozenList.pop self index h = (Raise IndexError, h))
  /\ (index < - PY_SSIZE_T_MAX - 1 \/ PY_SSIZE_T_MAX < index ->
      FrozenList.pop self index h = (Raise OverflowError, h)).
Proof.
  intros Hself Hfr. split; [|split].
  - intros Hnil. unfold FrozenList.pop_default, FrozenList.pop.
    rewrite (guarded_unfrozen _ _ _ _ Hself Hfr), (on_items_instance _ _ _ _ Hself).
    by rewrite Hnil.
  - intros Hfits Hout. unfold FrozenList.pop.
    rewrite (guarded_unfrozen _ _ _ _ Hself Hfr), (on_items_instance _ _ _ _ Hself).
    unfold listobject.pop. rewrite (as_ssize_t_fits _ Hfits).
    unfold mbind, outcome_bind, listobject.valid_index.
    case_bool_decide; [done|].
    destruct (index <? 0) eqn:Hneg.
    + apply Z.ltb_lt in Hneg.
      assert ((0 <=? index + Z.of_nat (length (_items fl))) = false) as ->
        by (apply Z.leb_gt; lia).
      done.
    + apply Z.ltb_ge in Hneg.
      assert ((index <? Z.of_nat (length (_items fl))) = false) as ->
        by (apply Z.ltb_ge; lia).
      by rewrite andb_false_r.
  - intros Hover. unfold FrozenList.pop.
    rewrite (guarded_unfrozen _ _ _ _ Hself Hfr), (on_items_instance _ _ _ _ Hself).
    unfold listobject.pop. by rewrite (as_ssize_t_overflow _ Hover).
Qed.

Lemma pop_out_of_range_witness :
  FrozenList.pop_default 0 unfrozen_empty = (Raise IndexError, unfrozen_empty)
  /\ FrozenList.pop 0 2 unfrozen_12 = (Raise IndexError, unfrozen_12)
  /\ FrozenList.pop 0 (-3) unfrozen_12 = (Raise IndexError, unfrozen_12)
  /\ FrozenList.pop 0 (- 2 ^ 63 - 1) unfrozen_empty = (Raise OverflowError, unfrozen_empty).
Proof.
  split; [|split; [|split]].
  - by apply (proj1 (pop_out_of_range unfrozen_empty 0 _ 0 eq_refl eq_refl)).
  - apply (proj1 (proj2 (pop_out_of_range unfrozen_12 0 _ 2 eq_refl eq_refl)));
      [unfold PY_SSIZE_T_MAX|simpl]; lia.
  - apply (proj1 (proj2 (pop_out_of_range unfrozen_12 0 _ (-3) eq_refl eq_refl)));
      [unfold PY_SSIZE_T_MAX|simpl]; lia.
  - apply (proj2 (proj2 (pop_out_of_range unfrozen_empty 0 _ (- 2 ^ 63 - 1)
                           eq_refl eq_refl))).
    unfold PY_SSIZE_T_MAX. lia.
Defined.

(** [pop()] of a list that ends in [v]. *)
Lemma pop_last (items : list value) (v : value) :
  listobject.pop (items ++ [v]) (-1) = Ok (v, items).
Proof.
  unfold listobject.pop. rewrite as_ssize_t_fits by (unfold PY_SSIZE_T_MAX; lia).
  unfold mbind, outcome_bind, listobject.valid_index.
  case_bool_decide as Hlen; [rewrite length_app in Hlen; simpl in Hlen; lia|].
  rewrite length_app. simpl.
  replace (-1 + Z.of_nat (length items + 1)) with (Z.of_nat (length items)) by lia.
  assert ((0 <=? Z.of_nat (length items)) = true) as -> by (apply Z.leb_le; lia).
  assert ((Z.of_nat (length items) <? Z.of_nat (length items + 1)) = true) as ->
    by (apply Z.ltb_lt; lia).
  simpl. rewrite Nat2Z.id.
  rewrite list_lookup_middle by done.
  f_equal. f_equal.
  rewrite delete_middle. by rewrite app_nil_r.
Qed.

(** C9.  On a list that is not frozen, [append(v)] followed by [pop()]
    returns [v] and gives back the heap as it was before the two calls:
    the list has its former items, and with them its former length. *)
Theorem append_then_pop (h : heap) (self : addr) (fl : FrozenList) (v : value) :
  h !! self = Some (FrozenListObject fl) -> _frozen fl = false ->
  (FrozenList.append self v;; FrozenList.pop_default self) h = (Ok v, h)
  /\ contents ((FrozenList.append self v;; FrozenList.pop_default self) h).2 self
     = Some (_items fl).
Proof.
  intros Hself Hfr.
  assert (Hlt : (self < length h)%nat) by (by eapply lookup_lt_Some).
  assert (Hrun : (FrozenList.append self v;; FrozenList.pop_default self) h = (Ok v, h)).
  { unfold mbind at 1. unfold M_bind. unfold FrozenList.append.
    rewrite (guarded_unfrozen _ _ _ _ Hself Hfr), (on_items_instance _ _ _ _ Hself).
    set (fl' := FrozenList.set_items (listobject.PyList_Append (_items fl) v) fl).
    set (h' := <[self := FrozenListObject fl']> h).
    assert (Hself' : h' !! self = Some (FrozenListObject fl'))
      by (by apply list_lookup_insert_eq).
    unfold FrozenList.pop_default, FrozenList.pop.
    rewrite (guarded_unfrozen _ _ _ _ Hself' Hfr), (on_items_instance _ _ _ _ Hself').
    simpl. unfold listobject.PyList_Append. rewrite pop_last.
    f_equal. unfold h'. rewrite list_insert_insert_eq.
    apply list_insert_id. rewrite Hself. by destruct fl. }
  split; [done|]. rewrite Hrun. simpl. unfold contents. by rewrite Hself.
Qed.

Lemma append_then_pop_witness :
  (FrozenList.append 0 (VInt 7);; FrozenList.pop_default 0) unfrozen_12
  = (Ok (VInt 7), unfrozen_12).
Proof.
  apply (append_then_pop unfrozen_12 0 _ (VInt 7) eq_refl eq_refl).
Defined.

(** ** The guard comes first *)

(** C10.  On a frozen list the guard's error wins over the errors of the
    list itself: where the built-in [pop] would raise [IndexError] (the
    list is empty or the index outside it), and where the built-in
    [remove] would raise [ValueError] (no such item), the methods of the
    class raise the guard's error instead.  The same [pop] on the same
    list, not frozen, does raise [IndexError]. *)
Theorem frozen_error_takes_priority (depth : nat) (h : heap) (self : addr)
    (fl : FrozenList) (index : Z) (item : value) :
  h !! self = Some (FrozenListObject fl) -> _frozen fl = true ->
  (listobject.pop (_items fl) index = Raise IndexError ->
     (FrozenList.pop self index h).1 = Raise (RuntimeError FrozenList.frozen_msg)
     /\ (FrozenList.pop self index
           (<[self := FrozenListObject (FrozenList.set_frozen false fl)]> h)).1
        = Raise IndexError)
  /\ (listobject.remove (FrozenList.item_eq depth h) (_items fl) item = Raise ValueError ->
     (FrozenList.remove depth self item h).1 = Raise (RuntimeError FrozenList.frozen_msg)).
Proof.
  intros Hself Hfr. split.
  - intros Hpop. split.
    + unfold FrozenList.pop. by rewrite (guarded_frozen _ _ _ _ Hself Hfr).
    + assert (Hself' : <[self := FrozenListObject (FrozenList.set_frozen false fl)]> h !! self
                       = Some (FrozenListObject (FrozenList.set_frozen false fl))).
      { apply list_lookup_insert_eq. by eapply lookup_lt_Some. }
      unfold FrozenList.pop.
      rewrite (guarded_unfrozen _ _ _ _ Hself' eq_refl), (on_items_instance _ _ _ _ Hself').
      simpl. by rewrite Hpop.
  - intros _. unfold FrozenList.remove. by rewrite (guarded_frozen _ _ _ _ Hself Hfr).
Qed.

Lemma frozen_error_takes_priority_witness :
  (FrozenList.pop 0 (-1) frozen_empty).1 = Raise (RuntimeError FrozenList.frozen_msg)
  /\ (FrozenList.pop 0 5 frozen_123).1 = Raise (RuntimeError FrozenList.frozen_msg)
  /\ (FrozenList.remove 1 0 (VInt 9) frozen_123).1
     = Raise (RuntimeError FrozenList.frozen_msg).
Proof.
  split; [|split].
  - apply (proj1 (frozen_error_takes_priority 0 frozen_empty 0 _ (-1) VNone
                    eq_refl eq_refl)).
    reflexivity.
  - apply (proj1 (frozen_error_takes_priority 0 frozen_123 0 _ 5 VNone
                    eq_refl eq_refl)).
    reflexivity.
  - apply (proj2 (frozen_error_takes_priority 1 frozen_123 0 _ 0 (VInt 9)
                    eq_refl eq_refl)).
    reflexivity.
Defined.

(** ** Hashing *)

(** C3.  [hash(x)] raises the error of an unfrozen list when [x] is not
    frozen.  When [x] is frozen it is the hash of the tuple of the items
    of [x], whatever that is, and so two frozen lists with the same
    items have the same hash. *)
Theorem hash_of_frozen (hash_tuple : heap -> list value -> outcome Z)
    (h : heap) (x : addr) (fl : FrozenList) :
  h !! x = Some (FrozenListObject fl) ->
  (_frozen fl = false ->
     FrozenList.__hash__ hash_tuple x h = (Raise (RuntimeError FrozenList.unfrozen_msg), h))
  /\ (_frozen fl = true ->
     FrozenList.__hash__ hash_tuple x h = (hash_tuple h (_items fl), h)
     /\ forall y fl', h !! y = Some (FrozenListObject fl') -> _frozen fl' = true ->
          _items fl' = _items fl ->
          (FrozenList.__hash__ hash_tuple y h).1 = (FrozenList.__hash__ hash_tuple x h).1).
Proof.
  intros Hx.
  assert (Hfrozen : forall z flz, h !! z = Some (FrozenListObject flz) -> _frozen flz = true ->
            FrozenList.__hash__ hash_tuple z h = (hash_tuple h (_items flz), h)).
  { intros z flz Hz Hfr. unfold FrozenList.__hash__. unfold_M. rewrite Hz, Hfr.
    by destruct (hash_tuple h (_items flz)). }
  split.
  - intros Hfr. unfold FrozenList.__hash__. unfold_M. by rewrite Hx, Hfr.
  - intros Hfr. split; [by apply Hfrozen|].
    intros y fl' Hy Hfr' Hitems.
    by rewrite (Hfrozen _ _ Hy Hfr'), (Hfrozen _ _ Hx Hfr), Hitems.
Qed.

Lemma hash_of_frozen_witness :
  FrozenList.__hash__ sum_hash 2 two_lists
    = (Raise (RuntimeError FrozenList.unfrozen_msg), two_lists)
  /\ FrozenList.__hash__ sum_hash 0 two_lists = (Ok 3, two_lists)
  /\ (FrozenList.__hash__ sum_hash 1 two_lists).1 = (FrozenList.__hash__ sum_hash 0 two_lists).1.
Proof.
  split; [|split].
  - apply (proj1 (hash_of_frozen sum_hash two_lists 2 _ eq_refl)). reflexivity.
  - apply (proj1 (proj2 (hash_of_frozen sum_hash two_lists 0 _ eq_refl) eq_refl)).
  - apply (proj2 (proj2 (hash_of_frozen sum_hash two_lists 0 _ eq_refl) eq_refl) 1%nat _
             eq_refl eq_refl eq_refl).
Defined.

(** ** Sorting *)

(** The built-in sort, called with its arguments by keyword, sorts. *)
Example list_sort_by_keyword :
  listobject.sort (FrozenList.item_lt 0 []) [] None false [VInt 3; VInt 1; VInt 2]
  = Ok [VInt 1; VInt 2; VInt 3].
Proof. reflexivity. Qed.

(** C5.  [FrozenList.sort] passes [key] and [reverse] on by position, which
    the built-in sort refuses: on a list that is not frozen the method
    raises [TypeError], whatever the items and whatever the arguments,
    and the list stays as it is.  Nothing is sorted. *)
Theorem sort_raises_TypeError (depth : nat) (h : heap) (self : addr) (fl : FrozenList)
    (key : listobject.key_function) (reverse_ : bool) :
  h !! self = Some (FrozenListObject fl) -> _frozen fl = false ->
  FrozenList.sort depth self key reverse_ h = (Raise TypeError, h)
  /\ contents (FrozenList.sort depth self key reverse_ h).2 self = Some (_items fl).
Proof.
  intros Hself Hfr. unfold FrozenList.sort.
  rewrite (guarded_unfrozen _ _ _ _ Hself Hfr), (on_items_instance _ _ _ _ Hself).
  split; [done|]. simpl. unfold contents. by rewrite Hself.
Qed.

(** [x = FrozenList([3, 1, 2]); x.sort()]. *)
Lemma sort_raises_TypeError_witness :
  FrozenList.new (VRef 0) source_312 = (Ok 1%nat, constructed_312)
  /\ FrozenList.sort 1 1 None false constructed_312 = (Raise TypeError, constructed_312)
  /\ contents (FrozenList.sort 1 1 None false constructed_312).2 1
     = Some [VInt 3; VInt 1; VInt 2].
Proof.
  split; [reflexivity|].
  apply (sort_raises_TypeError 1 constructed_312 1 _ None false eq_refl eq_refl).
Defined.

(** ** Construction *)

Lemma first_difference_same (item_cmp : value -> value -> cmp_op -> outcome bool)
    (vs : list value) (i : nat) :
  first_difference item_cmp vs vs i = Ok (i + length vs)%nat.
Proof.
  revert i. induction vs as [|v vs IH]; intros i; simpl.
  - f_equal. lia.
  - rewrite bool_decide_eq_true_2 by done. rewrite IH. f_equal. lia.
Qed.

(** A list is equal to a list with the very same items, without any of
    the items being asked. *)
Lemma list_richcompare_same (item_cmp : value -> value -> cmp_op -> outcome bool)
    (vs : list value) :
  list_richcompare item_cmp vs vs Py_EQ = Ok true.
Proof.
  unfold list_richcompare.
  rewrite bool_decide_eq_false_2 by (intros Hne; by apply Hne). simpl.
  rewrite first_difference_same. simpl.
  rewrite lookup_ge_None_2 by lia.
  f_equal. apply Z.eqb_refl.
Qed.

(** [FrozenList(S)] for an iterable [S]: a new instance, not frozen,
    with the items that [S] yields. *)
Lemma new_of_iterable (h : heap) (source : value) (items : list value) :
  iterate h source = Ok items ->
  FrozenList.new source h
  = (Ok (length h), h ++ [FrozenListObject {| _frozen := false; _items := items |}]).
Proof.
  intros Hsource.
  assert (Hiter : forall new, iterate (h ++ new) source = Ok items).
  { intros new. destruct source as [| |s|t]; simpl in *; try done.
    destruct (h !! s) as [o|] eqn:Hs; [|done]. by rewrite (lookup_app_l_Some _ _ _ _ Hs). }
  assert (HNone : source <> VNone) by (by intros ->).
  unfold FrozenList.new, FrozenList.__init__, FrozenList.PySequence_List. unfold_M.
  rewrite (list_lookup_middle h [] _ (length h)) by done.
  rewrite bool_decide_eq_true_2 by done. simpl.
  assert (Hins : forall fl, <[length h := FrozenListObject fl]> (h ++ [FrozenListObject FrozenList.blank])
                 = h ++ [FrozenListObject fl]).
  { intros fl. rewrite insert_app_r_alt by lia. by rewrite Nat.sub_diag. }
  rewrite Hins. rewrite Hiter. simpl.
  rewrite (list_lookup_middle h [] _ (length h)) by done.
  rewrite insert_app_r_alt by lia. by rewrite Nat.sub_diag.
Qed.

Lemma new_of_object (h : heap) (s : addr) (o : object) :
  h !! s = Some o ->
  FrozenList.new (VRef s) h
  = (Ok (length h),
     h ++ [FrozenListObject {| _frozen := false; _items := object_items o |}]).
Proof. intros Hs. apply new_of_iterable. simpl. by rewrite Hs. Qed.

(** *** With the list behind the instance *)

Lemma by_value_lookup (h : by_reference.heap) (a : addr) :
  by_value h !! a = by_value_object h <$> (h !! a).
Proof. unfold by_value. by rewrite list_lookup_fmap. Qed.

(** An iterable yields the same items, with the lists inside the
    instances or behind them. *)
Lemma by_value_iterate (h : by_reference.heap) (v : value) :
  iterate (by_value h) v = by_reference.iterate h v.
Proof.
  destruct v as [| |a|t]; simpl; try done.
  rewrite by_value_lookup. by destruct (h !! a) as [[items|b l]|].
Qed.

(** [FrozenList(S)] with the list behind the instance: two new
    objects, the instance and after it the list that
    [PySequence_List] has made, which the instance refers to. *)
Lemma by_reference_new (h : by_reference.heap) (source : value) (items : list value) :
  by_reference.iterate h source = Ok items ->
  by_reference.new source h
  = (Ok (length h),
     h ++ [by_reference.FrozenListObject false (Some (S (length h)));
           by_reference.ListObject items]).
Proof.
  intros Hsource. unfold by_reference.new, by_reference.__init__.
  rewrite list_lookup_middle by done.
  assert (Hsame : <[length h := by_reference.FrozenListObject false None]>
                    (h ++ [by_reference.FrozenListObject false None])
                  = h ++ [by_reference.FrozenListObject false None]).
  { apply list_insert_id. by apply list_lookup_middle. }
  rewrite Hsame.
  assert (Hiter : by_reference.iterate (h ++ [by_reference.FrozenListObject false None]) source
                  = Ok items).
  { destruct source as [| |s|t]; simpl in *; try done.
    destruct (h !! s) as [o|] eqn:Hs; [|done].
    rewrite (lookup_app_l_Some _ _ _ _ Hs). rewrite <- Hsource. f_equal.
    destruct o as [vs|b [l|]]; simpl; try done.
    unfold by_reference.list_items. simpl.
    destruct (decide (l < length h)%nat) as [Hl|Hl].
    - by rewrite lookup_app_l.
    - rewrite (lookup_ge_None_2 h l) by lia.
      destruct (decide (l = length h)) as [->|Hne].
      + by rewrite list_lookup_middle.
      + rewrite lookup_ge_None_2; [done|]. rewrite length_app. simpl. lia. }
  assert (HNone : source <> VNone) by (by intros ->).
  rewrite bool_decide_eq_true_2 by done.
  unfold by_reference.PySequence_List. rewrite Hiter.
  rewrite lookup_app_l by (rewrite length_app; simpl; lia).
  rewrite list_lookup_middle by done.
  f_equal. rewrite length_app. simpl. rewrite Nat.add_1_r.
  rewrite <- app_assoc. simpl.
  rewrite insert_app_r_alt by lia. by rewrite Nat.sub_diag.
Qed.

(** Seen by value, the heap after the construction is the one that the
    class above arrives at, followed by the new list. *)
Lemma by_value_new (h : by_reference.heap) (source : value) (items : list value) :
  by_reference.wf h -> by_reference.iterate h source = Ok items ->
  by_value (by_reference.new source h).2
  = (FrozenList.new source (by_value h)).2 ++ [ListObject items].
Proof.
  intros Hwf Hsource.
  rewrite (by_reference_new _ _ _ Hsource).
  rewrite (new_of_iterable (by_value h) source items)
    by (by rewrite by_value_iterate).
  simpl. set (h' := h ++ _). unfold by_value at 1. unfold h' at 2.
  rewrite fmap_app. rewrite <- app_assoc. f_equal.
  - apply list_eq. intros a. unfold by_value. rewrite !list_lookup_fmap.
    destruct (h !! a) as [[vs|b [l|]]|] eqn:Ha; simpl; try done.
    do 3 f_equal. unfold by_reference.list_items, h'. simpl.
    by rewrite lookup_app_l by (by eapply Hwf).
  - simpl. do 3 f_equal. unfold by_reference.list_items, h'. simpl.
    rewrite lookup_app_r by lia.
    by replace (S (length h) - length h)%nat with 1%nat by lia.
Qed.

(** Against C6 as it is stated: a tuple is a source sequence, and the
    list made from it has its items but does not compare equal to
    it. *)
Lemma constructed_from_tuple_counterexample :
  FrozenList.new (VTuple [1; 2]) [] = (Ok 0%nat, unfrozen_12)
  /\ FrozenList.richcmp 0 0 (VTuple [1; 2]) Py_EQ unfrozen_12 = (Ok false, unfrozen_12).
Proof. split; reflexivity. Qed.

(** C6.  [FrozenList(S)], for a source [S] that can be iterated over (a
    list or another [FrozenList] of the heap, or a tuple), is a new
    instance, not frozen, that holds the items of [S]; every object that
    was there is as it was.  If [S] is a list or a [FrozenList] the
    instance compares equal to [S]; if [S] is a tuple it does not: [==]
    is false and [!=] is true.

    With the list behind the instance as an object of its own: the
    instance refers to a list object that the call has made, after
    every object that was there, and that list has the items of [S].
    (Seen with the items inside the instance, this is the construction
    of the class above.)  So whatever becomes of the objects that were
    there, [S] among them and the list behind [S] if [S] is a
    [FrozenList], the instance has the items it was made with. *)
Theorem constructed_equals_source (depth : nat) (h : heap) (hr : by_reference.heap)
    (source : value) (items items_r : list value) :
  iterate h source = Ok items ->
  by_reference.iterate hr source = Ok items_r ->
  let x := length h in
  let h' := h ++ [FrozenListObject {| _frozen := false; _items := items |}] in
  let xr := length hr in
  let hr' := hr ++ [by_reference.FrozenListObject false (Some (S xr));
                    by_reference.ListObject items_r] in
  (FrozenList.new source h = (Ok x, h')
   /\ (forall s, source = VRef s ->
         FrozenList.richcmp depth x source Py_EQ h' = (Ok true, h'))
   /\ (forall t, source = VTuple t ->
         FrozenList.richcmp depth x source Py_EQ h' = (Ok false, h')
         /\ FrozenList.richcmp depth x source Py_NE h' = (Ok true, h')))
  /\ (by_reference.new source hr = (Ok xr, hr')
      /\ (by_reference.wf hr ->
          by_value (by_reference.new source hr).2
          = (FrozenList.new source (by_value hr)).2 ++ [ListObject items_r])
      /\ (forall hr'',
            (forall a, (xr <= a)%nat -> hr'' !! a = (by_reference.new source hr).2 !! a) ->
            by_reference.contents hr'' xr = Some items_r)).
Proof.
  intros Hsource Hsource_r x h' xr hr'.
  assert (Hx : h' !! x = Some (FrozenListObject {| _frozen := false; _items := items |})).
  { unfold h', x. by rewrite list_lookup_middle. }
  split; [split; [|split]|split; [|split]].
  - by apply new_of_iterable.
  - intros s ->. simpl in Hsource.
    destruct (h !! s) as [o|] eqn:Hs; [|done]. injection Hsource as <-.
    assert (Hs' : h' !! s = Some o) by (by apply lookup_app_l_Some).
    unfold FrozenList.richcmp. unfold_M. rewrite Hx.
    unfold __richcmp__, list_compare_to. simpl. rewrite Hs'.
    destruct o as [vs|fl]; simpl; by rewrite list_richcompare_same.
  - intros t ->. unfold FrozenList.richcmp. unfold_M. by rewrite Hx.
  - by apply by_reference_new.
  - intros Hwf. by apply by_value_new.
  - intros hr'' Hsame. rewrite (by_reference_new _ _ _ Hsource_r) in Hsame.
    simpl in Hsame. fold xr hr' in Hsame.
    assert (Hx'' : hr'' !! xr = Some (by_reference.FrozenListObject false (Some (S xr)))).
    { rewrite (Hsame xr) by lia. unfold hr', xr. by rewrite list_lookup_middle. }
    assert (Hl'' : hr'' !! S xr = Some (by_reference.ListObject items_r)).
    { rewrite (Hsame (S xr)) by lia. unfold hr', xr.
      rewrite lookup_app_r by lia.
      by replace (S (length hr) - length hr)%nat with 1%nat by lia. }
    unfold by_reference.contents. rewrite Hx''.
    unfold by_reference.list_items. simpl. by rewrite Hl''.
Qed.

(** [s = [1, s]; x = FrozenList(s); s.clear()]. *)
Lemma constructed_equals_source_witness :
  let h := [ListObject [VInt 1; VRef 0]] in
  let h' := h ++ [FrozenListObject {| _frozen := false; _items := [VInt 1; VRef 0] |}] in
  let hr' := [by_reference.ListObject [];
              by_reference.FrozenListObject false (Some 2%nat);
              by_reference.ListObject [VInt 1; VRef 0]] in
  FrozenList.new (VRef 0) h = (Ok 1%nat, h')
  /\ FrozenList.richcmp 0 1 (VRef 0) Py_EQ h' = (Ok true, h')
  /\ by_reference.contents hr' 1 = Some [VInt 1; VRef 0].
Proof.
  intros h h' hr'.
  destruct (constructed_equals_source 0 h [by_reference.ListObject [VInt 1; VRef 0]]
              (VRef 0) _ _ eq_refl eq_refl)
    as ((Hnew & Heq & _) & (_ & _ & Hkeep)).
  split; [exact Hnew|]. split; [by apply (Heq 0%nat)|].
  apply Hkeep. by intros [|[|[|a]]] Ha; [simpl in Ha; lia|..].
Defined.

(** ** Freezing *)

Lemma flags_kept_refl (h : heap) : flags_kept h h.
Proof. by intros a. Qed.

Lemma flags_kept_trans (h1 h2 h3 : heap) :
  flags_kept h1 h2 -> flags_kept h2 h3 -> flags_kept h1 h3.
Proof. intros H12 H23 a Ha. by apply H23, H12. Qed.

Lemma is_frozen_lookup (h : heap) (a : addr) :
  is_frozen h a = true ->
  exists fl, h !! a = Some (FrozenListObject fl) /\ _frozen fl = true.
Proof.
  unfold is_frozen. destruct (h !! a) as [[items|fl]|] eqn:Ha; try done. eauto.
Qed.

Lemma flags_kept_app (h : heap) (new : list object) : flags_kept h (h ++ new).
Proof.
  intros a Ha. destruct (is_frozen_lookup _ _ Ha) as (fl & Hfl & Hfr).
  unfold is_frozen. by rewrite (lookup_app_l_Some _ _ _ _ Hfl).
Qed.

(** Writing an object keeps the flags when it does not replace a frozen
    list by something else. *)
Lemma flags_kept_insert (h : heap) (a : addr) (o : object) :
  (forall fl, h !! a = Some (FrozenListObject fl) -> _frozen fl = true ->
     exists fl', o = FrozenListObject fl' /\ _frozen fl' = true) ->
  flags_kept h (<[a := o]> h).
Proof.
  intros Ho b Hb. destruct (is_frozen_lookup _ _ Hb) as (fl & Hfl & Hfr).
  unfold is_frozen. destruct (decide (a = b)) as [->|Hne].
  - destruct (Ho _ Hfl Hfr) as (fl' & -> & Hfr').
    rewrite list_lookup_insert_eq by (by eapply lookup_lt_Some). done.
  - rewrite list_lookup_insert_ne by done. by rewrite Hfl.
Qed.

Lemma keeps_ret {A} (a : A) : keeps (mret a).
Proof. intros h. apply flags_kept_refl. Qed.

Lemma keeps_raise {A} (e : exn) : keeps (raise e : M A).
Proof. intros h. apply flags_kept_refl. Qed.

Lemma keeps_lift {A} (r : outcome A) : keeps (lift r).
Proof. intros h. apply flags_kept_refl. Qed.

Lemma keeps_get_heap : keeps get_heap.
Proof. intros h. apply flags_kept_refl. Qed.

Lemma keeps_load (self : addr) : keeps (load self).
Proof.
  intros h. unfold load. destruct (h !! self) as [[?|?]|]; apply flags_kept_refl.
Qed.

Lemma keeps_alloc (o : object) : keeps (alloc o).
Proof. intros h. apply flags_kept_app. Qed.

Lemma keeps_bind {A B} (m : M A) (k : A -> M B) :
  keeps m -> (forall a, keeps (k a)) -> keeps (m ≫= k).
Proof.
  intros Hm Hk h. unfold mbind, M_bind.
  specialize (Hm h). destruct (m h) as [[a|e|] h']; simpl in *; try done.
  eapply flags_kept_trans; [done|]. apply Hk.
Qed.

Lemma keeps_discard {A} (m : M A) : keeps m -> keeps (FrozenList.discard m).
Proof. intros Hm. apply keeps_bind; [done|]. intros _. apply keeps_ret. Qed.

Create HintDb keeps.

#[local] Hint Resolve keeps_ret keeps_raise keeps_lift keeps_get_heap keeps_load
  keeps_alloc keeps_discard : keeps.

(** Storing into [self] its own fields with other items, or with the
    flag set, clears nothing. *)
Lemma keeps_store_fields (self : addr) (f : FrozenList -> FrozenList) :
  (forall fl, _frozen fl = true -> _frozen (f fl) = true) ->
  keeps (fl ← load self; store self (f fl)).
Proof.
  intros Hf h. unfold_M. destruct (h !! self) as [[?|fl]|] eqn:Hself;
    try apply flags_kept_refl.
  simpl. apply flags_kept_insert. intros fl0 Hfl0 Hfr.
  rewrite Hself in Hfl0. injection Hfl0 as <-. eauto.
Qed.

Lemma keeps_freeze (self : addr) : keeps (FrozenList.freeze self).
Proof. apply keeps_store_fields. done. Qed.

Lemma keeps_on_items {A} (self : addr)
    (method : heap -> list value -> outcome (A * list value)) :
  keeps (FrozenList.on_items self method).
Proof.
  intros h. destruct (h !! self) as [[?|fl]|] eqn:Hself.
  - unfold FrozenList.on_items. unfold_M. rewrite Hself. apply flags_kept_refl.
  - rewrite (on_items_instance _ _ _ _ Hself).
    destruct (method h (_items fl)) as [[r items]| |]; simpl; try apply flags_kept_refl.
    apply flags_kept_insert. intros fl0 Hfl0 Hfr.
    rewrite Hself in Hfl0. injection Hfl0 as <-. eauto.
  - unfold FrozenList.on_items. unfold_M. rewrite Hself. apply flags_kept_refl.
Qed.

Lemma keeps__check_frozen (self : addr) : keeps (FrozenList._check_frozen self).
Proof.
  unfold FrozenList._check_frozen. apply keeps_bind; [apply keeps_load|].
  intros fl. destruct (_frozen fl); eauto with keeps.
Qed.

(** [__init__] clears the flag of [self], and no other; in
    [FrozenList(items)] it runs on the instance that the call has just
    made. *)
Lemma keeps_new (items : value) : keeps (FrozenList.new items).
Proof.
  intros h a Ha.
  destruct (is_frozen_lookup _ _ Ha) as (fl & Hfl & Hfr).
  assert (Hlt : (a < length h)%nat) by (by eapply lookup_lt_Some).
  assert (Hlater : forall (o : object) (h' : heap),
            h' !! a = Some (FrozenListObject fl) ->
            (<[length h := o]> h') !! a = Some (FrozenListObject fl)).
  { intros o h' Hh'. rewrite list_lookup_insert_ne by lia. done. }
  unfold FrozenList.new, FrozenList.__init__, FrozenList.PySequence_List. unfold_M.
  rewrite (list_lookup_middle h [] _ (length h)) by done.
  set (h1 := <[length h := _]> (h ++ [FrozenListObject FrozenList.blank])).
  assert (H1 : h1 !! a = Some (FrozenListObject fl)).
  { apply Hlater. by apply lookup_app_l_Some. }
  assert (Hdone : forall r : outcome addr, is_frozen (r, h1).2 a = true).
  { intros r. simpl. unfold is_frozen. by rewrite H1. }
  case_bool_decide.
  - destruct (iterate h1 items) as [vs| |]; try apply Hdone.
    destruct (h1 !! length h) as [[?|?]|]; try apply Hdone.
    simpl. unfold is_frozen. by rewrite (Hlater _ _ H1).
  - destruct (h1 !! length h) as [[?|?]|]; try apply Hdone.
    simpl. unfold is_frozen. by rewrite (Hlater _ _ H1).
Qed.

Lemma keeps_list_append (y : addr) (v : value) : keeps (FrozenList.list_append y v).
Proof.
  intros h. unfold FrozenList.list_append.
  destruct (h !! y) as [[items|fl]|] eqn:Hy; try apply flags_kept_refl.
  simpl. apply flags_kept_insert. intros fl Hfl. by rewrite Hy in Hfl.
Qed.

Lemma keeps_list_assign (a : addr) (items : list value) :
  keeps (FrozenList.list_assign a items).
Proof.
  intros h. unfold FrozenList.list_assign.
  destruct (h !! a) as [[old|fl]|] eqn:Ha; try apply flags_kept_refl.
  simpl. apply flags_kept_insert. intros fl Hfl. by rewrite Ha in Hfl.
Qed.

#[local] Hint Resolve keeps_freeze keeps_on_items keeps__check_frozen keeps_new
  keeps_list_append keeps_list_assign : keeps.

Section keeps_deep_copy.
Variable deepcopy : value -> FrozenList.memo -> M (value * FrozenList.memo).
Hypothesis keeps_deepcopy : forall x m, keeps (deepcopy x m).

Lemma keeps_deepcopy_items (items : list value) (m : FrozenList.memo) :
  keeps (FrozenList.deepcopy_items deepcopy items m).
Proof using keeps_deepcopy.
  revert m. induction items as [|item rest IH]; intros m; simpl.
  - apply keeps_ret.
  - apply keeps_bind; [apply keeps_deepcopy|]. intros [v m'].
    apply keeps_bind; [apply IH|]. intros [vs m'']. apply keeps_ret.
Qed.

Lemma keeps_deepcopy_into (y : addr) (items : list value) (m : FrozenList.memo) :
  keeps (FrozenList.deepcopy_into deepcopy y items m).
Proof using keeps_deepcopy.
  revert m. induction items as [|item rest IH]; intros m; simpl.
  - apply keeps_ret.
  - apply keeps_bind; [apply keeps_deepcopy|]. intros [v m'].
    apply keeps_bind; [apply keeps_list_append|]. intros _. apply IH.
Qed.

Lemma keeps___deepcopy__ (self : addr) (m : FrozenList.memo) :
  keeps (FrozenList.__deepcopy__ deepcopy self m).
Proof using keeps_deepcopy.
  unfold FrozenList.__deepcopy__.
  apply keeps_bind; [apply keeps_load|]. intros _.
  destruct (m !! self); [apply keeps_ret|].
  apply keeps_bind; [apply keeps_alloc|]. intros arg.
  apply keeps_bind; [apply keeps_new|]. intros new_list.
  apply keeps_bind; [apply keeps_load|]. intros fl.
  apply keeps_bind; [apply keeps_deepcopy_items|]. intros [copies m'].
  apply keeps_bind; [apply keeps_on_items|]. intros _.
  apply keeps_bind; [apply keeps_load|]. intros fl'.
  apply keeps_bind; [destruct (_frozen fl'); eauto with keeps|]. intros _.
  apply keeps_ret.
Qed.

Lemma keeps__deepcopy_list (x : addr) (items : list value) (m : FrozenList.memo) :
  keeps (FrozenList._deepcopy_list deepcopy x items m).
Proof using keeps_deepcopy.
  unfold FrozenList._deepcopy_list.
  apply keeps_bind; [apply keeps_alloc|]. intros y.
  apply keeps_bind; [apply keeps_deepcopy_into|]. intros m'. apply keeps_ret.
Qed.
End keeps_deep_copy.

Lemma keeps_deepcopy (depth : nat) (x : value) (m : FrozenList.memo) :
  keeps (FrozenList.deepcopy depth x m).
Proof.
  revert x m. induction depth as [|depth IH]; intros x m;
    destruct x as [|z|d|t]; simpl; try apply keeps_ret.
  - destruct (m !! d); [apply keeps_ret|apply keeps_raise].
  - destruct (m !! d); [apply keeps_ret|].
    apply keeps_bind; [apply keeps_get_heap|]. intros h.
    apply keeps_bind; [|intros [y m']; apply keeps_ret].
    destruct (h !! d) as [[items|fl]|].
    + by apply keeps__deepcopy_list.
    + by apply keeps___deepcopy__.
    + apply keeps_raise.
Qed.

#[local] Hint Resolve keeps_deepcopy keeps___deepcopy__ : keeps.

(** [__init__] on an instance: the flag is cleared first, then the
    argument is read, then the items are replaced.  If the argument
    cannot be read the flag has been cleared all the same. *)
Lemma init_instance (h : heap) (self : addr) (fl : FrozenList) (items : value) :
  h !! self = Some (FrozenListObject fl) ->
  FrozenList.__init__ self items h
  = let h1 := <[self := FrozenListObject (FrozenList.set_frozen false fl)]> h in
    match (if bool_decide (items ≠ VNone) then iterate h1 items else Ok []) with
    | Ok vs => (Ok tt, <[self := FrozenListObject {| _frozen := false; _items := vs |}]> h)
    | Raise e => (Raise e, h1)
    | Diverge => (Diverge, h1)
    end.
Proof.
  intros Hself. pose proof (lookup_lt_Some _ _ _ Hself) as Hlt.
  unfold FrozenList.__init__, FrozenList.PySequence_List. unfold_M. rewrite Hself.
  cbv zeta. case_bool_decide.
  - destruct (iterate _ items) as [vs|e|]; [|done..].
    rewrite list_lookup_insert_eq by done. by rewrite list_insert_insert_eq.
  - rewrite list_lookup_insert_eq by done. by rewrite list_insert_insert_eq.
Qed.

(** [__init__] writes to its instance alone, and leaves it without the
    flag. *)
Lemma init_other (h : heap) (self a : addr) (items : value) :
  a <> self -> (FrozenList.__init__ self items h).2 !! a = h !! a.
Proof.
  intros Hne. destruct (h !! self) as [[?|fl]|] eqn:Hself.
  - unfold FrozenList.__init__. unfold_M. by rewrite Hself.
  - rewrite (init_instance _ _ _ _ Hself). cbv zeta.
    destruct (if bool_decide (items ≠ VNone) then _ else _) as [vs|e|]; simpl;
      by rewrite list_lookup_insert_ne.
  - unfold FrozenList.__init__. unfold_M. by rewrite Hself.
Qed.


Lemma init_clears (h : heap) (self : addr) (fl : FrozenList) (items : value) :
  h !! self = Some (FrozenListObject fl) ->
  is_frozen (FrozenList.__init__ self items h).2 self = false.
Proof.
  intros Hself. pose proof (lookup_lt_Some _ _ _ Hself) as Hlt.
  rewrite (init_instance _ _ _ _ Hself). cbv zeta. unfold is_frozen.
  destruct (if bool_decide (items ≠ VNone) then _ else _) as [vs|e|]; simpl;
    by rewrite list_lookup_insert_eq.
Qed.

(** No call clears a flag, unless it is a call of [__init__]. *)
Lemma keeps_invoke (depth : nat) (hash_tuple : heap -> list value -> outcome Z)
    (repr_list : heap -> list value -> outcome string) (c : FrozenList.call) :
  (forall self items, c <> FrozenList.Call_init self items) ->
  keeps (FrozenList.invoke depth hash_tuple repr_list c).
Proof.
  intros Hc.
  destruct c; try (by destruct (Hc self items)); simpl;
    unfold FrozenList.frozen, FrozenList.__getitem__, FrozenList.__setitem__,
      FrozenList.__delitem__, FrozenList.__len__, FrozenList._fast_len, FrozenList.__iter__,
      FrozenList.__reversed__, FrozenList.richcmp, FrozenList.insert,
      FrozenList.__contains__, FrozenList.__iadd__, FrozenList.sort, FrozenList.index,
      FrozenList.remove, FrozenList.clear, FrozenList.extend, FrozenList.reverse,
      FrozenList.pop, FrozenList.append, FrozenList.count, FrozenList.__repr__,
      FrozenList.__hash__;
    repeat first [ solve [eauto with keeps] | apply keeps_bind; [|intros ?] ].
  all: try match goal with |- keeps (match ?r with _ => _ end) => destruct r end;
    repeat first [ solve [eauto with keeps] | apply keeps_bind; [|intros ?] ].
Qed.

(** A call keeps the flag of [x] unless it is [__init__] on [x]. *)
Lemma invoke_keeps_flag (depth : nat) (hash_tuple : heap -> list value -> outcome Z)
    (repr_list : heap -> list value -> outcome string) (c : FrozenList.call)
    (h : heap) (x : addr) :
  (forall items, c <> FrozenList.Call_init x items) ->
  is_frozen h x = true ->
  is_frozen (FrozenList.invoke depth hash_tuple repr_list c h).2 x = true.
Proof.
  intros Hc Hx.
  assert (Hcase : (exists self items, c = FrozenList.Call_init self items)
                  \/ (forall self items, c <> FrozenList.Call_init self items)).
  { destruct c; first [by left; eauto|by right]. }
  destruct Hcase as [(self & items & ->)|Hother].
  - simpl. unfold is_frozen in *. rewrite init_other; [done|].
    intros ->. by apply (Hc items).
  - by apply (keeps_invoke depth hash_tuple repr_list c).
Qed.

Lemma run_keeps_flag (depth : nat) (hash_tuple : heap -> list value -> outcome Z)
    (repr_list : heap -> list value -> outcome string) (calls : list FrozenList.call)
    (h : heap) (x : addr) :
  Forall (fun c => forall items, c <> FrozenList.Call_init x items) calls ->
  is_frozen h x = true ->
  is_frozen (FrozenList.run depth hash_tuple repr_list calls h) x = true.
Proof.
  intros Hcalls. revert h.
  induction Hcalls as [|c calls Hc _ IH]; intros h Hx; simpl; [done|].
  pose proof (invoke_keeps_flag depth hash_tuple repr_list c h x Hc Hx) as Hc'.
  destruct (FrozenList.invoke depth hash_tuple repr_list c h) as [[[]|e|] h'];
    simpl in Hc'; try done; by apply IH.
Qed.

Lemma freeze_instance (h : heap) (x : addr) (fl : FrozenList) :
  h !! x = Some (FrozenListObject fl) ->
  FrozenList.freeze x h
  = (Ok tt, <[x := FrozenListObject (FrozenList.set_frozen true fl)]> h).
Proof. intros Hx. unfold FrozenList.freeze. unfold_M. by rewrite Hx. Qed.

Lemma freeze_frozen (h : heap) (x : addr) (fl : FrozenList) :
  h !! x = Some (FrozenListObject fl) -> _frozen fl = true ->
  FrozenList.freeze x h = (Ok tt, h).
Proof.
  intros Hx Hfr. rewrite (freeze_instance _ _ _ Hx). f_equal.
  apply list_insert_id. rewrite Hx. destruct fl; simpl in *; by subst.
Qed.

Lemma freeze_times_frozen (n : nat) (h : heap) (x : addr) (fl : FrozenList) :
  h !! x = Some (FrozenListObject fl) -> _frozen fl = true ->
  freeze_times n x h = (Ok tt, h).
Proof.
  intros Hx Hfr. induction n as [|n IH]; [done|].
  unfold freeze_times in *. simpl. unfold mbind at 1. unfold M_bind.
  by rewrite (freeze_frozen _ _ _ Hx Hfr).
Qed.

Lemma frozen_of_is_frozen (h : heap) (x : addr) :
  is_frozen h x = true -> FrozenList.frozen x h = (Ok true, h).
Proof.
  intros Hx. destruct (is_frozen_lookup _ _ Hx) as (fl & Hfl & Hfr).
  unfold FrozenList.frozen. unfold_M. by rewrite Hfl, Hfr.
Qed.

(** Against C2 as it is stated: [__init__] is a method like any other,
    and it clears the flag of a frozen list. *)
Lemma init_after_freeze_counterexample :
  FrozenList.frozen 0
    (FrozenList.run 0 sum_hash constant_repr
       [FrozenList.Call_freeze 0; FrozenList.Call_init 0 VNone] unfrozen_12)
  = (Ok false, unfrozen_empty).
Proof. reflexivity. Qed.

(** C2.  [freeze()] on an instance returns, and the [frozen] property
    is true afterwards.  Calling it any number of times, at least once,
    comes to the same as calling it once.  The flag stays set through
    any sequence of calls, on this list or on any other object, in
    which [__init__] is not called on this list: the [frozen] property
    is still true after them.  A call of [__init__] on the list
    leaves the [frozen] property false, whatever its argument and
    whether it returns or raises. *)
Theorem freeze_is_final (depth : nat) (hash_tuple : heap -> list value -> outcome Z)
    (repr_list : heap -> list value -> outcome string)
    (h : heap) (x : addr) (fl : FrozenList) :
  h !! x = Some (FrozenListObject fl) ->
  let h1 := (FrozenList.freeze x h).2 in
  (FrozenList.freeze x h).1 = Ok tt
  /\ FrozenList.frozen x h1 = (Ok true, h1)
  /\ (forall n, (1 <= n)%nat -> freeze_times n x h = FrozenList.freeze x h)
  /\ (forall calls,
       Forall (fun c => forall items, c <> FrozenList.Call_init x items) calls ->
       let h2 := FrozenList.run depth hash_tuple repr_list calls h1 in
       FrozenList.frozen x h2 = (Ok true, h2))
  /\ (forall items,
       let h2 := (FrozenList.__init__ x items h1).2 in
       FrozenList.frozen x h2 = (Ok false, h2)).
Proof.
  intros Hx h1.
  assert (Hlt : (x < length h)%nat) by (by eapply lookup_lt_Some).
  assert (Hh1 : h1 = <[x := FrozenListObject (FrozenList.set_frozen true fl)]> h).
  { unfold h1. by rewrite (freeze_instance _ _ _ Hx). }
  assert (Hx1 : h1 !! x = Some (FrozenListObject (FrozenList.set_frozen true fl))).
  { rewrite Hh1. by apply list_lookup_insert_eq. }
  assert (Hfr1 : is_frozen h1 x = true) by (unfold is_frozen; by rewrite Hx1).
  split; [by rewrite (freeze_instance _ _ _ Hx)|].
  split; [by apply frozen_of_is_frozen|].
  split; [|split].
  - intros [|n] Hn; [lia|].
    unfold freeze_times. simpl. unfold mbind at 1. unfold M_bind.
    rewrite (freeze_instance _ _ _ Hx), <- Hh1.
    apply (freeze_times_frozen n _ _ _ Hx1 eq_refl).
  - intros calls Hcalls h2. apply frozen_of_is_frozen.
    by apply (run_keeps_flag depth hash_tuple repr_list calls h1).
  - intros items h2.
    pose proof (init_clears _ _ _ items Hx1) as Hclear. fold h2 in Hclear.
    assert (is_Some (h2 !! x)) as [o Ho].
    { apply lookup_lt_is_Some. unfold h2. rewrite (init_instance _ _ _ _ Hx1). cbv zeta.
      destruct (if bool_decide (items ≠ VNone) then _ else _) as [vs|e|]; simpl;
        rewrite ?length_insert; by eapply lookup_lt_Some. }
    assert (exists fl2, h2 !! x = Some (FrozenListObject fl2)) as [fl2 Hx2].
    { unfold h2. rewrite (init_instance _ _ _ _ Hx1). cbv zeta.
      destruct (if bool_decide (items ≠ VNone) then _ else _) as [vs|e|]; simpl;
        rewrite list_lookup_insert_eq by (rewrite ?length_insert; by eapply lookup_lt_Some);
        eauto. }
    unfold is_frozen in Hclear. rewrite Hx2 in Hclear.
    unfold FrozenList.frozen. unfold_M. by rewrite Hx2, Hclear.
Qed.

Lemma freeze_is_final_witness :
  let h1 := (FrozenList.freeze 0 comparands).2 in
  let h2 := FrozenList.run 2 sum_hash constant_repr
              [FrozenList.Call_append 0 (VInt 3);
               FrozenList.Call_FrozenList (VRef 0);
               FrozenList.Call_init 2 (VRef 0);
               FrozenList.Call_copy_deepcopy (VRef 0) ∅;
               FrozenList.Call_clear 0] h1 in
  freeze_times 3 0 comparands = FrozenList.freeze 0 comparands
  /\ FrozenList.frozen 0 h2 = (Ok true, h2)
  /\ FrozenList.frozen 0 (FrozenList.__init__ 0 (VInt 5) h1).2
     = (Ok false, (FrozenList.__init__ 0 (VInt 5) h1).2).
Proof.
  intros h1 h2.
  destruct (freeze_is_final 2 sum_hash constant_repr comparands 0 _ eq_refl)
    as (_ & _ & Hidem & Hlater & Hinit).
  split; [|split].
  - apply Hidem. lia.
  - apply Hlater. repeat (constructor; [done|]). constructor.
  - apply Hinit.
Defined.

(** ** Comparison *)

Lemma Z_richcompare_holds (a b : Z) (op : cmp_op) :
  Z_richcompare a b op = op_holds op (a ?= b).
Proof.
  unfold Z_richcompare. destruct op; simpl.
  - unfold Z.ltb. by destruct (a ?= b).
  - unfold Z.leb. by destruct (a ?= b).
  - rewrite Z.eqb_compare. by destruct (a ?= b).
  - rewrite Z.eqb_compare. by destruct (a ?= b).
  - unfold Z.ltb. rewrite (Z.compare_antisym a b). by destruct (a ?= b).
  - unfold Z.leb. rewrite (Z.compare_antisym a b). by destruct (a ?= b).
Qed.

Lemma Z_richcompare_swapped (a b : Z) (op : cmp_op) :
  Z_richcompare b a (swapped_op op) = Z_richcompare a b op.
Proof.
  destruct op; simpl; try done.
  - apply Z.eqb_sym.
  - f_equal. apply Z.eqb_sym.
Qed.

Lemma default_richcompare_swapped (same : bool) (op : cmp_op) :
  default_richcompare same (swapped_op op) = default_richcompare same op.
Proof. by destruct op. Qed.

Lemma swapped_op_involutive (op : cmp_op) : swapped_op (swapped_op op) = op.
Proof. by destruct op. Qed.

Lemma tuple_richcompare_swapped (vs ws : list Z) (op : cmp_op) :
  tuple_richcompare ws vs (swapped_op op) = tuple_richcompare vs ws op.
Proof.
  revert ws. induction vs as [|v vs IH]; intros [|w ws]; simpl;
    try apply Z_richcompare_swapped.
  rewrite (Z.eqb_sym w v). destruct (v =? w); [apply IH|apply Z_richcompare_swapped].
Qed.

(** *** The loop of the built-in list is the lexicographic comparison *)

Section list_compare_facts.
Variable item_cmp : value -> value -> cmp_op -> outcome bool.




End list_compare_facts.

(** *** Reflected comparisons *)

Lemma first_difference_swapped (f g : value -> value -> cmp_op -> outcome bool)
    (vs ws : list value) (i : nat) :
  (forall v w, g w v Py_EQ = f v w Py_EQ) ->
  first_difference g ws vs i = first_difference f vs ws i.
Proof.
  intros Hfg. revert ws i. induction vs as [|v vs IH]; intros [|w ws] i; simpl; try done.
  rewrite (bool_decide_ext (w = v) (v = w)) by (split; congruence).
  case_bool_decide; [apply IH|].
  rewrite Hfg. destruct (f v w Py_EQ) as [[|]| |]; simpl; auto.
Qed.

Lemma swapped_op_eq_ne (op : cmp_op) :
  (swapped_op op = Py_EQ ∨ swapped_op op = Py_NE) <-> (op = Py_EQ ∨ op = Py_NE).
Proof. destruct op; simpl; intuition congruence. Qed.

Lemma swapped_op_ne (op : cmp_op) : swapped_op op = Py_NE <-> op = Py_NE.
Proof. destruct op; simpl; intuition congruence. Qed.

Lemma list_richcompare_swapped (f g : value -> value -> cmp_op -> outcome bool)
    (vs ws : list value) (op : cmp_op) :
  (forall v w op, g w v (swapped_op op) = f v w op) ->
  list_richcompare g ws vs (swapped_op op) = list_richcompare f vs ws op.
Proof.
  intros Hfg. unfold list_richcompare.
  rewrite (bool_decide_ext (length ws ≠ length vs) (length vs ≠ length ws))
    by (split; congruence).
  rewrite (bool_decide_ext _ _ (swapped_op_eq_ne op)).
  rewrite (bool_decide_ext _ _ (swapped_op_ne op)).
  destruct (_ && _); [done|].
  rewrite (first_difference_swapped f g) by (intros v w; apply (Hfg v w Py_EQ)).
  destruct (first_difference f vs ws 0) as [i| |]; simpl; try done.
  destruct (vs !! i) as [v|], (ws !! i) as [w|]; simpl.
  - rewrite <- (Hfg v w op). by destruct op.
  - by rewrite Z_richcompare_swapped.
  - by rewrite Z_richcompare_swapped.
  - by rewrite Z_richcompare_swapped.
Qed.

(** The six branches of [__richcmp__] are one call. *)
Lemma richcmp_list_compare_to (item_cmp : value -> value -> cmp_op -> outcome bool)
    (h : heap) (self : FrozenList) (other : value) (op : cmp_op) :
  __richcmp__ item_cmp h self other op = list_compare_to item_cmp h (_items self) other op.
Proof. by destruct op. Qed.

Lemma PyObject_RichCompare_swapped (depth : nat) (h : heap) (v w : value) (op : cmp_op) :
  PyObject_RichCompare depth h w v (swapped_op op) = PyObject_RichCompare depth h v w op.
Proof.
  revert v w op. induction depth as [|depth IH]; intros v w op.
  - destruct v, w; simpl;
      auto using Z_richcompare_swapped, default_richcompare_swapped,
        tuple_richcompare_swapped, f_equal.
  - assert (Hlist : forall vs ws op,
              list_richcompare (PyObject_RichCompare depth h) ws vs (swapped_op op)
              = list_richcompare (PyObject_RichCompare depth h) vs ws op).
    { intros vs ws op'. apply list_richcompare_swapped. intros; apply IH. }
    destruct v as [| |a|t], w as [| |b|u]; simpl;
      auto using Z_richcompare_swapped, default_richcompare_swapped,
        tuple_richcompare_swapped, f_equal.
    all: rewrite ?richcmp_list_compare_to, ?swapped_op_involutive.
    all: unfold list_compare_to.
    all: try (by destruct (h !! b) as [[ws|fl]|]; simpl;
                rewrite ?default_richcompare_swapped).
    all: try (by destruct (h !! a) as [[vs|fl]|]; simpl;
                rewrite ?default_richcompare_swapped).
    destruct (h !! a) as [[vs|fla]|] eqn:Ha, (h !! b) as [[ws|flb]|] eqn:Hb;
      rewrite ?richcmp_list_compare_to, ?swapped_op_involutive;
      unfold list_compare_to; rewrite ?Ha, ?Hb; simpl; trivial.
Qed.

(** *** The flags play no part *)






#[local] Arguments list_compare_to : simpl never.


(** A comparison of an instance with a list or with another instance is
    the built-in comparison of the two lists of items. *)
Lemma richcmp_instance (depth : nat) (h : heap) (x y : addr) (fl : FrozenList)
    (o : object) (op : cmp_op) :
  h !! x = Some (FrozenListObject fl) -> h !! y = Some o ->
  FrozenList.richcmp depth x (VRef y) op h
  = (list_richcompare (PyObject_RichCompare depth h) (_items fl) (object_items o) op, h).
Proof.
  intros Hx Hy. unfold FrozenList.richcmp. unfold_M. rewrite Hx.
  rewrite richcmp_list_compare_to. unfold list_compare_to. rewrite Hy.
  f_equal. destruct o as [ws|fly]; simpl; [done|].
  apply list_richcompare_swapped. intros v w op'. apply PyObject_RichCompare_swapped.
Qed.





(** ** Deep copy *)

Lemma extends_refl (h : heap) : extends h h.
Proof. by intros a o. Qed.

Lemma extends_trans (h1 h2 h3 : heap) : extends h1 h2 -> extends h2 h3 -> extends h1 h3.
Proof. intros H12 H23 a o Ha. by apply H23, H12. Qed.

Lemma extends_app (h new : heap) : extends h (h ++ new).
Proof. intros a o Ha. by apply lookup_app_l_Some. Qed.

Lemma extends_length (h h' : heap) : extends h h' -> (length h <= length h')%nat.
Proof.
  intros Hext. destruct (decide (length h = 0)%nat) as [->|Hne]; [lia|].
  destruct (lookup_lt_is_Some_2 h (length h - 1)) as [o Ho]; [lia|].
  apply Hext, lookup_lt_Some in Ho. lia.
Qed.

(** Writing to an object made since leaves the older heap in place. *)
Lemma extends_insert (h h' : heap) (a : addr) (o : object) :
  extends h h' -> (length h <= a)%nat -> extends h (<[a := o]> h').
Proof.
  intros Hext Ha b ob Hb. rewrite list_lookup_insert_ne; [by apply Hext|].
  apply lookup_lt_Some in Hb. lia.
Qed.

Lemma copy_of_value_weaken (m m' : FrozenList.memo) (v v' : value) :
  m ⊆ m' -> copy_of_value m v v' -> copy_of_value m' v v'.
Proof.
  intros Hsub. destruct v as [| |a|t]; simpl; try done.
  intros Ha. by eapply lookup_weaken.
Qed.

Lemma copy_of_object_weaken (m m' : FrozenList.memo) (o o' : object) :
  m ⊆ m' -> copy_of_object m o o' -> copy_of_object m' o o'.
Proof.
  intros Hsub. destruct o as [items|fl], o' as [items'|fl']; simpl; try done.
  - intros Hitems. eapply Forall2_impl; [done|].
    intros v v'. by apply copy_of_value_weaken.
  - intros [Hfr Hitems]. split; [done|].
    eapply Forall2_impl; [done|]. intros v v'. by apply copy_of_value_weaken.
Qed.

Lemma unvisited_weaken (h0 : heap) (m m' : FrozenList.memo) :
  m ⊆ m' -> (unvisited h0 m' <= unvisited h0 m)%nat.
Proof.
  intros Hsub. apply subseteq_size. apply subseteq_dom in Hsub.
  intros a [Ha Hm']%elem_of_difference. apply elem_of_difference.
  split; [done|]. intros Hm. by apply Hm', Hsub.
Qed.

Lemma unvisited_insert (h0 : heap) (m : FrozenList.memo) (d : addr) (v : value) :
  (d < length h0)%nat -> m !! d = None ->
  (unvisited h0 (<[d := v]> m) < unvisited h0 m)%nat.
Proof.
  intros Hd Hm. apply subset_size. rewrite dom_insert_L.
  apply not_elem_of_dom in Hm.
  assert (Hin : d ∈ (set_seq 0 (length h0) : gset nat)) by (apply elem_of_set_seq; lia).
  split.
  - intros a [Ha Hnot]%elem_of_difference. apply elem_of_difference.
    split; [done|]. intros Hdom. apply Hnot, elem_of_union. by right.
  - intros Hsub.
    assert (Hd' : d ∈ (set_seq 0 (length h0) ∖ dom m : gset nat))
      by (by apply elem_of_difference).
    apply Hsub, elem_of_difference in Hd' as [_ Hnot].
    apply Hnot, elem_of_union. left. by apply elem_of_singleton.
Qed.

Lemma unvisited_empty (h0 : heap) : unvisited h0 ∅ = length h0.
Proof.
  unfold unvisited. rewrite dom_empty_L, difference_empty_L. apply size_set_seq.
Qed.

Lemma closed_items (h : heap) (a : addr) (o : object) :
  closed h = true -> h !! a = Some o ->
  Forall (fun v => value_in (length h) v = true) (object_items o).
Proof.
  unfold closed. rewrite forallb_forall. intros Hall Ha.
  apply Forall_forall. intros v Hv.
  assert (Ho : In o h) by (apply list_elem_of_In; by eapply list_elem_of_lookup_2).
  specialize (Hall o Ho). rewrite forallb_forall in Hall.
  apply Hall. by apply list_elem_of_In.
Qed.

Lemma copied_refl (h0 : heap) (pending : addr -> Prop) (m : FrozenList.memo) (h : heap) :
  copying h0 pending m h -> copied h0 pending m h m h.
Proof.
  intros Hc. split; [apply extends_refl|]. split; [done|]. split; [done|].
  intros a v Ha. by left.
Qed.

Lemma copied_trans (h0 : heap) (pending : addr -> Prop)
    (m m1 m2 : FrozenList.memo) (h h1 h2 : heap) :
  copied h0 pending m h m1 h1 -> copied h0 pending m1 h1 m2 h2 ->
  copied h0 pending m h m2 h2.
Proof.
  intros (Hext1 & Hsub1 & _ & Hnew1) (Hext2 & Hsub2 & Hc2 & Hnew2).
  split; [by eapply extends_trans|].
  split; [by etrans|].
  split; [done|].
  intros a v Ha. destruct (Hnew2 a v Ha) as [Hold|(a' & -> & Hfresh)].
  - by apply Hnew1.
  - right. exists a'. split; [done|]. apply extends_length in Hext1. lia.
Qed.

(** A write to an object that is pending disturbs nothing. *)
Lemma copying_insert_pending (h0 : heap) (pending : addr -> Prop) (m : FrozenList.memo)
    (h : heap) (y : addr) (o : object) :
  copying h0 pending m h -> pending y -> (length h0 <= y)%nat ->
  copying h0 pending m (<[y := o]> h).
Proof.
  intros (Hext & Hmemo & Hdone) Hy Hnew. split; [|split].
  - by apply extends_insert.
  - intros a v Ha. rewrite length_insert. by apply (Hmemo a).
  - intros a a' Ha Hpend. destruct (Hdone a a' Ha Hpend) as (o1 & o2 & H1 & H2 & H3).
    exists o1, o2. split; [done|]. split; [|done].
    rewrite list_lookup_insert_ne; [done|]. by intros ->.
Qed.

(** The copy of [d] is made at [y] and entered in the memo, not yet
    filled. *)
Lemma copying_register (h0 : heap) (pending : addr -> Prop) (m : FrozenList.memo)
    (h h' : heap) (d y : addr) :
  copying h0 pending m h -> m !! d = None -> extends h h' ->
  (length h <= y < length h')%nat ->
  copying h0 (fun a => pending a \/ a = y) (<[d := VRef y]> m) h'.
Proof.
  intros (Hext & Hmemo & Hdone) Hd Hext' Hy.
  pose proof (extends_length _ _ Hext) as Hlen.
  pose proof (extends_length _ _ Hext') as Hlen'.
  split; [|split].
  - by eapply extends_trans.
  - intros a v Ha. apply lookup_insert_Some in Ha as [[<- <-]|[Hne Ha]].
    + exists y. split; [done|lia].
    + destruct (Hmemo a v Ha) as (a' & -> & Ha'). exists a'. split; [done|lia].
  - intros a a' Ha Hpend. apply lookup_insert_Some in Ha as [[<- Heq]|[Hne Ha]].
    + injection Heq as <-. destruct Hpend. by right.
    + destruct (Hdone a a' Ha) as (o1 & o2 & H1 & H2 & H3); [tauto|].
      exists o1, o2. split; [done|]. split; [by apply Hext'|].
      eapply copy_of_object_weaken; [|done]. by apply insert_subseteq.
Qed.

(** The copy of [d] at [y] has been filled. *)
Lemma copying_complete (h0 : heap) (pending : addr -> Prop) (m : FrozenList.memo)
    (h : heap) (d y : addr) (o o' : object) :
  copying h0 (fun a => pending a \/ a = y) m h ->
  (forall a, m !! a = Some (VRef y) -> a = d) ->
  h0 !! d = Some o -> h !! y = Some o' -> copy_of_object m o o' ->
  copying h0 pending m h.
Proof.
  intros (Hext & Hmemo & Hdone) Honly Hd Hy Hcopy. split; [done|]. split; [done|].
  intros a a' Ha Hpend. destruct (decide (a' = y)) as [->|Hne].
  - rewrite (Honly a Ha). by exists o, o'.
  - apply (Hdone a a' Ha). tauto.
Qed.

(** Only [d] is sent to the copy made for it. *)
Lemma copied_only (h0 : heap) (pending : addr -> Prop)
    (m m' : FrozenList.memo) (h h1 : heap) (d y : addr) :
  copying h0 pending m h -> (length h <= y < length h1)%nat ->
  (forall a v, m' !! a = Some v ->
     <[d := VRef y]> m !! a = Some v \/ exists a', v = VRef a' /\ (length h1 <= a')%nat) ->
  forall a, m' !! a = Some (VRef y) -> a = d.
Proof.
  intros (_ & Hmemo & _) Hy Hnew a Ha.
  destruct (Hnew a _ Ha) as [Hold|(a' & Heq & Hfresh)].
  - apply lookup_insert_Some in Hold as [[<- _]|[_ Hold]]; [done|].
    destruct (Hmemo a _ Hold) as (a' & Heq & Ha'). injection Heq as <-. lia.
  - injection Heq as <-. lia.
Qed.

Section deep_copy_correct.
Variable h0 : heap.
Hypothesis h0_closed : closed h0 = true.

(** The copier of the items, and the number of objects of [h0] that
    may be left to copy for it to return every time. *)
Variable deepcopy : value -> FrozenList.memo -> M (value * FrozenList.memo).
Variable budget : nat.
Hypothesis deepcopy_correct : forall pending x m h,
  copying h0 pending m h -> value_in (length h0) x = true ->
  (unvisited h0 m <= budget)%nat ->
  exists v m' h',
    deepcopy x m h = (Ok (v, m'), h')
    /\ copied h0 pending m h m' h' /\ copy_of_value m' x v.

Lemma deepcopy_items_correct (items : list value) (pending : addr -> Prop)
    (m : FrozenList.memo) (h : heap) :
  copying h0 pending m h ->
  Forall (fun v => value_in (length h0) v = true) items ->
  (unvisited h0 m <= budget)%nat ->
  exists vs m' h',
    FrozenList.deepcopy_items deepcopy items m h = (Ok (vs, m'), h')
    /\ copied h0 pending m h m' h' /\ Forall2 (copy_of_value m') items vs.
Proof using deepcopy_correct.
  revert m h. induction items as [|item rest IH]; intros m h Hc Hitems Hbudget.
  - exists [], m, h. split; [done|]. split; [by apply copied_refl|constructor].
  - apply Forall_cons in Hitems as [Hitem Hrest].
    destruct (deepcopy_correct pending item m h Hc Hitem Hbudget)
      as (v & m1 & h1 & Hrun1 & Hcopied1 & Hv).
    pose proof Hcopied1 as (_ & Hsub1 & Hc1 & _).
    destruct (IH m1 h1 Hc1 Hrest) as (vs & m2 & h2 & Hrun2 & Hcopied2 & Hvs).
    { pose proof (unvisited_weaken h0 _ _ Hsub1). lia. }
    pose proof Hcopied2 as (_ & Hsub2 & _ & _).
    exists (v :: vs), m2, h2. split; [|split].
    + simpl. unfold mbind at 1. unfold M_bind. rewrite Hrun1.
      unfold mbind at 1. unfold M_bind. by rewrite Hrun2.
    + by eapply copied_trans.
    + constructor; [|done]. by eapply copy_of_value_weaken.
Qed.

Lemma deepcopy_into_correct (items : list value) (pending : addr -> Prop)
    (m : FrozenList.memo) (h : heap) (y : addr) (acc : list value) :
  copying h0 pending m h -> pending y -> (length h0 <= y)%nat ->
  h !! y = Some (ListObject acc) ->
  Forall (fun v => value_in (length h0) v = true) items ->
  (unvisited h0 m <= budget)%nat ->
  exists vs m' h',
    FrozenList.deepcopy_into deepcopy y items m h = (Ok m', h')
    /\ h' !! y = Some (ListObject (acc ++ vs))
    /\ Forall2 (copy_of_value m') items vs
    /\ (forall a o, a <> y -> h !! a = Some o -> h' !! a = Some o)
    /\ m ⊆ m'
    /\ copying h0 pending m' h'
    /\ (forall a v, m' !! a = Some v ->
          m !! a = Some v \/ exists a', v = VRef a' /\ (length h <= a')%nat).
Proof using deepcopy_correct.
  revert m h acc.
  induction items as [|item rest IH]; intros m h acc Hc Hpend Hnew Hy Hitems Hbudget.
  - exists [], m, h. rewrite app_nil_r.
    split; [done|]. split; [done|]. split; [constructor|]. split; [done|].
    split; [done|]. split; [done|]. intros a v Ha. by left.
  - apply Forall_cons in Hitems as [Hitem Hrest].
    destruct (deepcopy_correct pending item m h Hc Hitem Hbudget)
      as (v & m1 & h1 & Hrun1 & (Hext1 & Hsub1 & Hc1 & Hnew1) & Hv).
    pose proof (Hext1 _ _ Hy) as Hy1.
    set (h1' := <[y := ListObject (listobject.PyList_Append acc v)]> h1).
    assert (Hy1' : h1' !! y = Some (ListObject (acc ++ [v]))).
    { apply list_lookup_insert_eq. by eapply lookup_lt_Some. }
    destruct (IH m1 h1' (acc ++ [v])) as (vs & m2 & h2 & Hrun2 & Hy2 & Hvs & Hext2 &
                                          Hsub2 & Hc2 & Hnew2); auto.
    { by apply copying_insert_pending. }
    { pose proof (unvisited_weaken h0 _ _ Hsub1). lia. }
    exists (v :: vs), m2, h2.
    split; [|split; [|split; [|split; [|split; [|split; [done|]]]]]].
    + simpl. unfold mbind at 1. unfold M_bind. rewrite Hrun1.
      unfold mbind at 1. unfold M_bind. unfold FrozenList.list_append at 1.
      rewrite Hy1. exact Hrun2.
    + by rewrite (cons_middle v acc vs), app_assoc.
    + constructor; [|done]. by eapply copy_of_value_weaken.
    + intros a o Ha Hlook. apply Hext2; [done|].
      unfold h1'. rewrite list_lookup_insert_ne by done. by apply Hext1.
    + by etrans.
    + intros a w Ha. destruct (Hnew2 a w Ha) as [Hold|(a' & -> & Hfresh)].
      * by apply Hnew1.
      * right. exists a'. split; [done|].
        apply extends_length in Hext1. unfold h1' in Hfresh.
        rewrite length_insert in Hfresh. lia.
Qed.

Lemma _deepcopy_list_correct (pending : addr -> Prop) (m : FrozenList.memo) (h : heap)
    (d : addr) (items : list value) :
  copying h0 pending m h -> h0 !! d = Some (ListObject items) -> m !! d = None ->
  (unvisited h0 m <= S budget)%nat ->
  exists y m' h',
    FrozenList._deepcopy_list deepcopy d items m h = (Ok (VRef y, m'), h')
    /\ copied h0 pending m h m' h' /\ m' !! d = Some (VRef y).
Proof using deepcopy_correct h0_closed.
  intros Hc Hd Hm Hbudget.
  pose proof Hc as (Hext & Hmemo & Hdone).
  pose proof (extends_length _ _ Hext) as Hlen.
  pose proof (lookup_lt_Some _ _ _ Hd) as Hdlt.
  set (y := length h). set (h1 := h ++ [ListObject []]).
  set (m1 := <[d := VRef y]> m).
  assert (Hy : y = length h) by done.
  assert (Hy1 : h1 !! y = Some (ListObject [])) by (by apply list_lookup_middle).
  assert (Hlen1 : length h1 = S (length h))
    by (unfold h1; rewrite length_app; simpl; lia).
  assert (Hext1 : extends h h1) by apply extends_app.
  assert (Hc1 : copying h0 (fun a => pending a \/ a = y) m1 h1).
  { apply (copying_register h0 pending m h h1 d y); auto. lia. }
  assert (Hitems : Forall (fun v => value_in (length h0) v = true) items)
    by apply (closed_items h0 d _ h0_closed Hd).
  assert (Hbudget1 : (unvisited h0 m1 <= budget)%nat).
  { pose proof (unvisited_insert h0 m d (VRef y) Hdlt Hm). unfold m1. lia. }
  assert (Hynew : (length h0 <= y)%nat) by lia.
  destruct (deepcopy_into_correct items _ m1 h1 y [] Hc1 (or_intror eq_refl) Hynew Hy1
              Hitems Hbudget1)
    as (vs & m2 & h2 & Hrun & Hy2 & Hvs & Hext2 & Hsub2 & Hc2 & Hnew2).
  assert (Hsub : m ⊆ m2) by (trans m1; [by apply insert_subseteq|done]).
  assert (Hd2 : m2 !! d = Some (VRef y)).
  { apply (lookup_weaken m1 m2); [apply lookup_insert_eq|done]. }
  exists y, m2, h2. split; [|split; [|done]].
  - unfold FrozenList._deepcopy_list. unfold mbind at 1. unfold M_bind.
    unfold alloc at 1. fold h1 y m1.
    unfold mbind at 1. unfold M_bind. by rewrite Hrun.
  - split; [|split; [done|split]].
    + intros a o Ha. apply Hext2.
      * apply lookup_lt_Some in Ha. lia.
      * by apply extends_app.
    + apply (copying_complete h0 pending m2 h2 d y (ListObject items) (ListObject vs));
        auto.
      apply (copied_only h0 pending m m2 h h1 d y Hc); [lia|done].
    + intros a v Ha. destruct (Hnew2 a v Ha) as [Hold|(a' & -> & Hfresh)].
      * apply lookup_insert_Some in Hold as [[<- <-]|[_ Hold]]; [|by left].
        right. exists y. split; [done|]. lia.
      * right. exists a'. split; [done|]. lia.
Qed.

Lemma __deepcopy___correct (pending : addr -> Prop) (m : FrozenList.memo) (h : heap)
    (d : addr) (fl : FrozenList) :
  copying h0 pending m h -> h0 !! d = Some (FrozenListObject fl) -> m !! d = None ->
  (unvisited h0 m <= S budget)%nat ->
  exists y m' h',
    FrozenList.__deepcopy__ deepcopy d m h = (Ok (VRef y, m'), h')
    /\ copied h0 pending m h m' h' /\ m' !! d = Some (VRef y).
Proof using deepcopy_correct h0_closed.
  intros Hc Hd Hm Hbudget.
  pose proof Hc as (Hext & Hmemo & Hdone).
  pose proof (extends_length _ _ Hext) as Hlen.
  pose proof (lookup_lt_Some _ _ _ Hd) as Hdlt.
  set (h1 := h ++ [ListObject []]).
  set (y := length h1).
  set (h2 := h1 ++ [FrozenListObject {| _frozen := false; _items := [] |}]).
  set (m1 := <[d := VRef y]> m).
  assert (Hy : y = length h1) by done.
  assert (Hlen1 : length h1 = S (length h))
    by (unfold h1; rewrite length_app; simpl; lia).
  assert (Hlen2 : length h2 = S (S (length h)))
    by (unfold h2; rewrite length_app; simpl; lia).
  assert (Harg : h1 !! length h = Some (ListObject [])) by (by apply list_lookup_middle).
  assert (Hnew : FrozenList.new (VRef (length h)) h1 = (Ok y, h2))
    by (by rewrite (new_of_object _ _ _ Harg)).
  assert (Hext2 : extends h h2).
  { eapply extends_trans; apply extends_app. }
  assert (Hy2 : h2 !! y = Some (FrozenListObject {| _frozen := false; _items := [] |}))
    by (by apply list_lookup_middle).
  assert (Hc1 : copying h0 (fun a => pending a \/ a = y) m1 h2).
  { apply (copying_register h0 pending m h h2 d y); auto. lia. }
  assert (Hitems : Forall (fun v => value_in (length h0) v = true) (_items fl))
    by apply (closed_items h0 d _ h0_closed Hd).
  assert (Hbudget1 : (unvisited h0 m1 <= budget)%nat).
  { pose proof (unvisited_insert h0 m d (VRef y) Hdlt Hm). unfold m1. lia. }
  destruct (deepcopy_items_correct (_items fl) _ m1 h2 Hc1 Hitems Hbudget1)
    as (copies & m2 & h3 & Hrun & (Hext3 & Hsub3 & Hc3 & Hnew3) & Hcopies).
  pose proof (extends_length _ _ Hext3) as Hlen3.
  pose proof (Hext3 _ _ Hy2) as Hy3.
  set (copy := FrozenListObject {| _frozen := _frozen fl; _items := copies |}).
  set (h4 := <[y := copy]> h3).
  assert (Hsub : m ⊆ m2) by (trans m1; [by apply insert_subseteq|done]).
  assert (Hd2 : m2 !! d = Some (VRef y)).
  { apply (lookup_weaken m1 m2); [apply lookup_insert_eq|done]. }
  assert (Hylt : (y < length h3)%nat) by (lia).
  exists y, m2, h4. split; [|split; [|done]].
  - unfold FrozenList.__deepcopy__.
    unfold mbind at 1. unfold M_bind.
    rewrite (load_instance _ _ _ (Hext _ _ Hd)). cbv zeta. rewrite Hm.
    unfold mbind at 1. unfold M_bind. unfold alloc at 1. fold h1.
    unfold mbind at 1. unfold M_bind. rewrite Hnew. fold m1.
    unfold mbind at 1. unfold M_bind.
    rewrite (load_instance _ _ _ (Hext2 _ _ (Hext _ _ Hd))).
    unfold mbind at 1. unfold M_bind. rewrite Hrun.
    unfold mbind at 1. unfold M_bind.
    rewrite (on_items_instance _ _ _ _ Hy3). simpl.
    rewrite app_nil_r.
    set (h3' := <[y := _]> h3).
    assert (Hy3' : h3' !! y
              = Some (FrozenListObject {| _frozen := false; _items := copies |}))
      by (by apply list_lookup_insert_eq).
    assert (Hd3' : h3' !! d = Some (FrozenListObject fl)).
    { unfold h3'. rewrite list_lookup_insert_ne by (lia).
      by apply Hext3, Hext2, Hext. }
    unfold mbind at 1. unfold M_bind. rewrite (load_instance _ _ _ Hd3').
    unfold mbind at 1. unfold M_bind.
    destruct (_frozen fl) eqn:Hfr.
    + rewrite (freeze_instance _ _ _ Hy3'). unfold mret, M_ret. f_equal.
      unfold h3', h4, copy. by rewrite list_insert_insert_eq.
    + unfold mret, M_ret. f_equal.
  - split; [|split; [done|split]].
    + apply extends_insert; [by eapply extends_trans|]. lia.
    + assert (Hc4 : copying h0 (fun a => pending a \/ a = y) m2 h4).
      { apply copying_insert_pending; auto. lia. }
      apply (copying_complete h0 pending m2 h4 d y (FrozenListObject fl) copy); auto.
      * apply (copied_only h0 pending m m2 h h2 d y Hc); [lia|done].
      * by apply list_lookup_insert_eq.
      * by split.
    + intros a v Ha. destruct (Hnew3 a v Ha) as [Hold|(a' & -> & Hfresh)].
      * apply lookup_insert_Some in Hold as [[<- <-]|[_ Hold]]; [|by left].
        right. exists y. split; [done|]. lia.
      * right. exists a'. split; [done|]. lia.
Qed.
End deep_copy_correct.

Lemma unvisited_pos (h0 : heap) (m : FrozenList.memo) (d : addr) :
  (d < length h0)%nat -> m !! d = None -> (0 < unvisited h0 m)%nat.
Proof. intros Hd Hm. pose proof (unvisited_insert h0 m d VNone Hd Hm). lia. Qed.

(** [copy.deepcopy] returns whenever the stack has room for the objects
    that are not in the memo yet, and what it returns is the copy. *)
Lemma deepcopy_correct (h0 : heap) (depth : nat) :
  closed h0 = true ->
  forall pending x m h,
    copying h0 pending m h -> value_in (length h0) x = true ->
    (unvisited h0 m <= depth)%nat ->
    exists v m' h',
      FrozenList.deepcopy depth x m h = (Ok (v, m'), h')
      /\ copied h0 pending m h m' h' /\ copy_of_value m' x v.
Proof.
  intros Hclosed. induction depth as [|depth IH]; intros pending x m h Hc Hx Hbudget.
  - destruct x as [| |d|t]; simpl.
    + exists VNone, m, h. split; [done|]. split; [by apply copied_refl|done].
    + exists (VInt z), m, h. split; [done|]. split; [by apply copied_refl|done].
    + simpl in Hx. apply bool_decide_eq_true in Hx.
      destruct (m !! d) as [y|] eqn:Hm.
      * exists y, m, h. split; [done|]. split; [by apply copied_refl|done].
      * pose proof (unvisited_pos h0 m d Hx Hm). lia.
    + exists (VTuple t), m, h. split; [done|]. split; [by apply copied_refl|done].
  - destruct x as [| |d|t].
    + exists VNone, m, h. split; [done|]. split; [by apply copied_refl|done].
    + exists (VInt z), m, h. split; [done|]. split; [by apply copied_refl|done].
    + simpl in Hx. apply bool_decide_eq_true in Hx.
      destruct (m !! d) as [y|] eqn:Hm.
      * exists y, m, h. split; [simpl; by rewrite Hm|].
        split; [by apply copied_refl|done].
      * destruct (lookup_lt_is_Some_2 h0 d Hx) as [o Hd].
        pose proof Hc as (Hext & _ & _).
        assert (Hcall : exists y m' h',
                  match o with
                  | ListObject items =>
                      FrozenList._deepcopy_list (FrozenList.deepcopy depth) d items m
                  | FrozenListObject _ =>
                      FrozenList.__deepcopy__ (FrozenList.deepcopy depth) d m
                  end h = (Ok (VRef y, m'), h')
                  /\ copied h0 pending m h m' h' /\ m' !! d = Some (VRef y)).
        { destruct o as [items|fl].
          - by apply (_deepcopy_list_correct h0 Hclosed _ depth IH).
          - by eapply (__deepcopy___correct h0 Hclosed _ depth IH). }
        destruct Hcall as (y & m' & h' & Hrun & Hcopied & Hd').
        exists (VRef y), m', h'. split; [|split; [done|done]].
        simpl. rewrite Hm. unfold mbind at 1. unfold M_bind. unfold get_heap at 1.
        rewrite (Hext _ _ Hd). unfold mbind at 1. unfold M_bind. rewrite Hrun.
        unfold mret, M_ret. f_equal. f_equal. f_equal.
        destruct Hcopied as (_ & _ & (_ & Hmemo & _) & _).
        destruct (Hmemo d _ Hd') as (y' & Heq & Hy'). injection Heq as <-.
        rewrite bool_decide_eq_false_2 by (intros [= ->]; lia).
        by apply insert_id.
    + exists (VTuple t), m, h. split; [done|]. split; [by apply copied_refl|done].
Qed.

Lemma copy_of_object_items (m : FrozenList.memo) (o o' : object) :
  copy_of_object m o o' ->
  Forall2 (copy_of_value m) (object_items o) (object_items o').
Proof. destruct o, o'; simpl; tauto. Qed.

(** A path through the originals is a path through the copies. *)
Lemma follow_copy (m : FrozenList.memo) (h h' : heap) :
  (forall a v, m !! a = Some v ->
     exists a' o o', v = VRef a' /\ h !! a = Some o /\ h' !! a' = Some o'
       /\ copy_of_object m o o') ->
  forall path u u' w,
    copy_of_value m u u' -> follow h u path = Some w ->
    exists w', follow h' u' path = Some w' /\ copy_of_value m w w'.
Proof.
  intros Hall. induction path as [|i path IH]; intros u u' w Hu Hpath; simpl in *.
  - injection Hpath as <-. by exists u'.
  - destruct u as [| |a|t]; try done. simpl in Hu.
    destruct (Hall a u' Hu) as (a' & o & o' & -> & Ho & Ho' & Hcopy).
    rewrite Ho in Hpath. simpl in Hpath. rewrite Ho'. simpl.
    destruct (object_items o !! i) as [u1|] eqn:Hi; [|done]. simpl in Hpath.
    destruct (Forall2_lookup_l _ _ _ _ _ (copy_of_object_items _ _ _ Hcopy) Hi)
      as (u1' & Hi' & Hu1).
    rewrite Hi'. simpl. by apply (IH u1).
Qed.

(** C4.  Deep-copying a [FrozenList] [x] of a heap without dangling
    references returns, however the objects refer to each other and to
    [x], once the stack has room for as many containers as the heap
    holds.  The result is a new object [x'], and every object that was
    in the heap is as it was.  The memo then pairs [x] with [x'] and
    every object it holds with a new object that is its copy: of the
    same type, with the same flag, and with the same items slot by slot,
    a reference to a copied object being replaced by the reference to
    its copy.  So the copy of [x] has the flag of [x] and as many items;
    every path of slots that leads from [x] to some value leads from
    the copy to the copy of that value; and every path that leads from
    [x] back to [x] leads from the copy back to the copy. *)
Theorem deepcopy_of_cycle (h : heap) (x : addr) (fl : FrozenList) :
  closed h = true -> h !! x = Some (FrozenListObject fl) ->
  exists x' m' h' fl',
    FrozenList.deepcopy (length h) (VRef x) ∅ h = (Ok (VRef x', m'), h')
    /\ (length h <= x')%nat
    /\ extends h h'
    /\ m' !! x = Some (VRef x')
    /\ (forall a v, m' !! a = Some v ->
          exists a' o o', v = VRef a' /\ (length h <= a')%nat
            /\ h !! a = Some o /\ h' !! a' = Some o' /\ copy_of_object m' o o')
    /\ h' !! x' = Some (FrozenListObject fl')
    /\ _frozen fl' = _frozen fl
    /\ length (_items fl') = length (_items fl)
    /\ (forall path w, follow h (VRef x) path = Some w ->
          exists w', follow h' (VRef x') path = Some w' /\ copy_of_value m' w w')
    /\ (forall path, follow h (VRef x) path = Some (VRef x) ->
          follow h' (VRef x') path = Some (VRef x')).
Proof.
  intros Hclosed Hx.
  assert (Hstart : copying h (fun _ => False) ∅ h).
  { split; [apply extends_refl|]. split; intros a v Ha; by rewrite lookup_empty in Ha. }
  assert (Hin : value_in (length h) (VRef x) = true).
  { simpl. apply bool_decide_eq_true. by eapply lookup_lt_Some. }
  destruct (deepcopy_correct h (length h) Hclosed _ (VRef x) ∅ h Hstart Hin)
    as (v & m' & h' & Hrun & (Hext & _ & (_ & Hmemo & Hdone) & _) & Hv).
  { by rewrite unvisited_empty. }
  simpl in Hv.
  assert (Hall : forall a v, m' !! a = Some v ->
            exists a' o o', v = VRef a' /\ (length h <= a')%nat
              /\ h !! a = Some o /\ h' !! a' = Some o' /\ copy_of_object m' o o').
  { intros a w Ha. destruct (Hmemo a w Ha) as (a' & -> & Ha').
    destruct (Hdone a a' Ha) as (o & o' & Ho & Ho' & Hcopy); [tauto|].
    exists a', o, o'. repeat split; auto. lia. }
  destruct (Hall x v Hv) as (x' & o & o' & -> & Hnew & Ho & Ho' & Hcopy).
  rewrite Hx in Ho. injection Ho as <-.
  destruct o' as [?|fl']; [done|]. destruct Hcopy as [Hfr Hitems].
  assert (Hpaths : forall path w, follow h (VRef x) path = Some w ->
            exists w', follow h' (VRef x') path = Some w' /\ copy_of_value m' w w').
  { intros path w. apply (follow_copy m' h h'); [|done].
    intros a u Ha. destruct (Hall a u Ha) as (a' & o1 & o2 & ? & _ & ? & ? & ?).
    by exists a', o1, o2. }
  exists x', m', h', fl'.
  split; [done|]. split; [done|]. split; [done|]. split; [done|]. split; [done|].
  split; [done|]. split; [done|]. split; [symmetry; by eapply Forall2_length|].
  split; [done|].
  intros path Hpath. destruct (Hpaths path _ Hpath) as (w' & Hw' & Hcopy).
  simpl in Hcopy. rewrite Hv in Hcopy. by injection Hcopy as <-.
Qed.

Lemma deepcopy_of_cycle_witness :
  exists x' m' h' fl',
    FrozenList.deepcopy 2 (VRef 0) ∅ knot = (Ok (VRef x', m'), h')
    /\ h' !! x' = Some (FrozenListObject fl')
    /\ _frozen fl' = true
    /\ follow h' (VRef x') [1%nat] = Some (VRef x')
    /\ follow h' (VRef x') [2%nat; 0%nat] = Some (VRef x').
Proof.
  destruct (deepcopy_of_cycle knot 0 _ eq_refl eq_refl)
    as (x' & m' & h' & fl' & Hrun & _ & _ & _ & _ & Hx' & Hfr & _ & _ & Hself).
  exists x', m', h', fl'. split; [exact Hrun|]. split; [exact Hx'|].
  split; [exact Hfr|]. split; apply Hself; reflexivity.
Defined.

(** * Further properties of the methods *)

(** ** Indexes *)

Lemma valid_index_mod (n : nat) (i : Z) :
  - Z.of_nat n <= i < Z.of_nat n ->
  listobject.valid_index n i = Some (Z.to_nat (i mod Z.of_nat n)).
Proof.
  intros Hi. unfold listobject.valid_index.
  destruct (i <? 0) eqn:Hneg.
  - apply Z.ltb_lt in Hneg.
    assert ((0 <=? i + Z.of_nat n) = true) as -> by (apply Z.leb_le; lia).
    assert ((i + Z.of_nat n <? Z.of_nat n) = true) as -> by (apply Z.ltb_lt; lia).
    simpl. f_equal. f_equal.
    apply (Z.mod_unique_pos i (Z.of_nat n) (-1)); lia.
  - apply Z.ltb_ge in Hneg.
    assert ((0 <=? i) = true) as -> by (apply Z.leb_le; lia).
    assert ((i <? Z.of_nat n) = true) as -> by (apply Z.ltb_lt; lia).
    simpl. by rewrite Z.mod_small by lia.
Qed.

Lemma valid_index_out (n : nat) (i : Z) :
  i < - Z.of_nat n \/ Z.of_nat n <= i -> listobject.valid_index n i = None.
Proof.
  intros Hi. unfold listobject.valid_index.
  destruct (i <? 0) eqn:Hneg.
  - apply Z.ltb_lt in Hneg.
    assert ((0 <=? i + Z.of_nat n) = false) as -> by (apply Z.leb_gt; lia). done.
  - apply Z.ltb_ge in Hneg.
    assert ((i <? Z.of_nat n) = false) as -> by (apply Z.ltb_ge; lia).
    by rewrite andb_false_r.
Qed.

Lemma mod_index_lt (n : nat) (i : Z) :
  - Z.of_nat n <= i < Z.of_nat n -> (Z.to_nat (i mod Z.of_nat n) < n)%nat.
Proof. intros Hi. pose proof (Z.mod_pos_bound i (Z.of_nat n)). lia. Qed.

Lemma getitem_instance (h : heap) (self : addr) (fl : FrozenList) (i : Z) :
  h !! self = Some (FrozenListObject fl) ->
  FrozenList.__getitem__ self (Index i) h
  = match listobject.valid_index (length (_items fl)) i with
    | Some j =>
        match _items fl !! j with
        | Some v => (Ok v, h)
        | None => (Raise IndexError, h)
        end
    | None => (Raise IndexError, h)
    end.
Proof.
  intros Hself. unfold FrozenList.__getitem__. unfold_M. rewrite Hself. simpl.
  destruct (listobject.valid_index (length (_items fl)) i) as [j|]; simpl; [|done].
  by destruct (_items fl !! j).
Qed.

Lemma len_instance (h : heap) (self : addr) (fl : FrozenList) :
  h !! self = Some (FrozenListObject fl) ->
  FrozenList.__len__ self h = (Ok (Z.of_nat (length (_items fl))), h).
Proof.
  intros Hself. unfold FrozenList.__len__, FrozenList._fast_len. unfold_M.
  by rewrite Hself.
Qed.

(** X1.  [x[i]] on a list of [n] items, frozen or not.  For
    [-n <= i < n] it is the item at position [i mod n], so that a
    negative index counts from the end; for any other [i] it raises
    [IndexError].  The heap is left as it was. *)
Theorem getitem_by_index (h : heap) (self : addr) (fl : FrozenList) (i : Z) :
  h !! self = Some (FrozenListObject fl) ->
  let n := Z.of_nat (length (_items fl)) in
  (- n <= i < n ->
     exists v, _items fl !! Z.to_nat (i mod n) = Some v
       /\ FrozenList.__getitem__ self (Index i) h = (Ok v, h))
  /\ (i < - n \/ n <= i ->
      FrozenList.__getitem__ self (Index i) h = (Raise IndexError, h)).
Proof.
  intros Hself n. rewrite (getitem_instance _ _ _ _ Hself). split.
  - intros Hi. rewrite (valid_index_mod _ _ Hi).
    destruct (lookup_lt_is_Some_2 (_items fl) (Z.to_nat (i mod n))) as [v Hv];
      [by apply mod_index_lt|].
    exists v. split; [done|]. fold n. by rewrite Hv.
  - intros Hi. by rewrite (valid_index_out _ _ Hi).
Qed.

Lemma getitem_by_index_witness :
  FrozenList.__getitem__ 0 (Index (-1)) frozen_123 = (Ok (VInt 3), frozen_123)
  /\ FrozenList.__getitem__ 0 (Index 3) frozen_123 = (Raise IndexError, frozen_123).
Proof.
  split.
  - destruct (proj1 (getitem_by_index frozen_123 0 _ (-1) eq_refl)) as (v & Hv & Hrun);
      [simpl; lia|].
    injection Hv as <-. exact Hrun.
  - apply (proj2 (getitem_by_index frozen_123 0 _ 3 eq_refl)). simpl. lia.
Defined.

Lemma setitem_instance (h : heap) (self : addr) (fl : FrozenList) (i : Z) (v : value) :
  h !! self = Some (FrozenListObject fl) -> _frozen fl = false ->
  FrozenList.__setitem__ self (Index i) v h
  = match listobject.valid_index (length (_items fl)) i with
    | Some j => (Ok tt, <[self := FrozenListObject
                                    (FrozenList.set_items (<[j := v]> (_items fl)) fl)]> h)
    | None => (Raise IndexError, h)
    end.
Proof.
  intros Hself Hfr. unfold FrozenList.__setitem__.
  rewrite (guarded_unfrozen _ _ _ _ Hself Hfr), (on_items_instance _ _ _ _ Hself).
  simpl. by destruct (listobject.valid_index (length (_items fl)) i).
Qed.

Lemma delitem_instance (h : heap) (self : addr) (fl : FrozenList) (i : Z) :
  h !! self = Some (FrozenListObject fl) -> _frozen fl = false ->
  FrozenList.__delitem__ self (Index i) h
  = match listobject.valid_index (length (_items fl)) i with
    | Some j => (Ok tt, <[self := FrozenListObject
                                    (FrozenList.set_items (delete j (_items fl)) fl)]> h)
    | None => (Raise IndexError, h)
    end.
Proof.
  intros Hself Hfr. unfold FrozenList.__delitem__.
  rewrite (guarded_unfrozen _ _ _ _ Hself Hfr), (on_items_instance _ _ _ _ Hself).
  simpl. by destruct (listobject.valid_index (length (_items fl)) i).
Qed.

(** The instance at [self] after its list has taken other items. *)
Lemma lookup_set_items (h : heap) (self : addr) (fl : FrozenList) (items : list value) :
  h !! self = Some (FrozenListObject fl) ->
  <[self := FrozenListObject (FrozenList.set_items items fl)]> h !! self
  = Some (FrozenListObject (FrozenList.set_items items fl)).
Proof. intros Hself. apply list_lookup_insert_eq. by eapply lookup_lt_Some. Qed.

Lemma restore_items (h : heap) (self : addr) (fl : FrozenList) (items : list value) :
  h !! self = Some (FrozenListObject fl) ->
  <[self := FrozenListObject
              (FrozenList.set_items (_items fl) (FrozenList.set_items items fl))]>
    (<[self := FrozenListObject (FrozenList.set_items items fl)]> h) = h.
Proof.
  intros Hself. rewrite list_insert_insert_eq. apply list_insert_id.
  rewrite Hself. by destruct fl.
Qed.

(** X2.  On a list that is not frozen, [x[i] = v] for
    [-n <= i < n] puts [v] at position [i mod n] and changes nothing
    else: afterwards [x[i]] is [v] and [len(x)] is still [n].  For any
    other [i] it raises [IndexError] and changes nothing. *)
Theorem setitem_by_index (h : heap) (self : addr) (fl : FrozenList) (i : Z) (v : value) :
  h !! self = Some (FrozenListObject fl) -> _frozen fl = false ->
  let n := Z.of_nat (length (_items fl)) in
  (- n <= i < n ->
     let h' := <[self := FrozenListObject
                           (FrozenList.set_items (<[Z.to_nat (i mod n) := v]> (_items fl)) fl)]> h in
     FrozenList.__setitem__ self (Index i) v h = (Ok tt, h')
     /\ FrozenList.__getitem__ self (Index i) h' = (Ok v, h')
     /\ FrozenList.__len__ self h' = (Ok n, h'))
  /\ (i < - n \/ n <= i ->
      FrozenList.__setitem__ self (Index i) v h = (Raise IndexError, h)).
Proof.
  intros Hself Hfr n. rewrite (setitem_instance _ _ _ _ _ Hself Hfr). split.
  - intros Hi h'. rewrite (valid_index_mod _ _ Hi). fold n.
    pose proof (lookup_set_items h self fl (<[Z.to_nat (i mod n) := v]> (_items fl)) Hself)
      as Hself'.
    fold h' in Hself'.
    split; [done|]. split.
    + rewrite (getitem_instance _ _ _ _ Hself'). simpl. rewrite length_insert.
      rewrite (valid_index_mod _ _ Hi). fold n.
      rewrite list_lookup_insert_eq by (by apply mod_index_lt). done.
    + rewrite (len_instance _ _ _ Hself'). simpl. by rewrite length_insert.
  - intros Hi. by rewrite (valid_index_out _ _ Hi).
Qed.

Lemma setitem_by_index_witness :
  let h' := [FrozenListObject {| _frozen := false; _items := [VInt 1; VInt 9] |}] in
  FrozenList.__setitem__ 0 (Index (-1)) (VInt 9) unfrozen_12 = (Ok tt, h')
  /\ FrozenList.__getitem__ 0 (Index (-1)) h' = (Ok (VInt 9), h')
  /\ FrozenList.__setitem__ 0 (Index 2) (VInt 9) unfrozen_12 = (Raise IndexError, unfrozen_12).
Proof.
  intros h'.
  destruct (setitem_by_index unfrozen_12 0 _ (-1) (VInt 9) eq_refl eq_refl) as [Hin _].
  destruct Hin as (Hset & Hget & _); [simpl; lia|].
  split; [exact Hset|]. split; [exact Hget|].
  apply (proj2 (setitem_by_index unfrozen_12 0 _ 2 (VInt 9) eq_refl eq_refl)). simpl. lia.
Defined.

(** X3.  On a list that is not frozen, [del x[i]] for
    [-n <= i < n] takes out the item at position [i mod n], the items
    before and after it staying in their order, and [len(x)] is [n - 1]
    afterwards.  For any other [i] it raises [IndexError] and changes
    nothing. *)
Theorem delitem_by_index (h : heap) (self : addr) (fl : FrozenList) (i : Z) :
  h !! self = Some (FrozenListObject fl) -> _frozen fl = false ->
  let n := Z.of_nat (length (_items fl)) in
  (- n <= i < n ->
     let k := Z.to_nat (i mod n) in
     let h' := <[self := FrozenListObject
                           (FrozenList.set_items
                              (take k (_items fl) ++ drop (S k) (_items fl)) fl)]> h in
     FrozenList.__delitem__ self (Index i) h = (Ok tt, h')
     /\ FrozenList.__len__ self h' = (Ok (n - 1), h'))
  /\ (i < - n \/ n <= i ->
      FrozenList.__delitem__ self (Index i) h = (Raise IndexError, h)).
Proof.
  intros Hself Hfr n. rewrite (delitem_instance _ _ _ _ Hself Hfr). split.
  - intros Hi k h'. rewrite (valid_index_mod _ _ Hi). fold n k.
    pose proof (mod_index_lt _ _ Hi) as Hk. fold n k in Hk.
    rewrite delete_take_drop. fold h'. split; [done|].
    pose proof (lookup_set_items h self fl (take k (_items fl) ++ drop (S k) (_items fl))
                  Hself) as Hself'.
    fold h' in Hself'. rewrite (len_instance _ _ _ Hself'). simpl.
    rewrite length_app, length_take, length_drop. do 2 f_equal. lia.
  - intros Hi. by rewrite (valid_index_out _ _ Hi).
Qed.

Lemma delitem_by_index_witness :
  FrozenList.__delitem__ 0 (Index (-2)) unfrozen_12
  = (Ok tt, [FrozenListObject {| _frozen := false; _items := [VInt 2] |}])
  /\ FrozenList.__delitem__ 0 (Index 2) unfrozen_12 = (Raise IndexError, unfrozen_12).
Proof.
  split.
  - apply (proj1 (delitem_by_index unfrozen_12 0 _ (-2) eq_refl eq_refl)). simpl. lia.
  - apply (proj2 (delitem_by_index unfrozen_12 0 _ 2 eq_refl eq_refl)). simpl. lia.
Defined.

(** ** [insert], [append], [pop] and deletion *)

Lemma insert_instance (h : heap) (self : addr) (fl : FrozenList) (pos : Z) (v : value) :
  h !! self = Some (FrozenListObject fl) -> _frozen fl = false ->
  - PY_SSIZE_T_MAX - 1 <= pos <= PY_SSIZE_T_MAX ->
  FrozenList.insert self pos v h
  = (Ok tt, <[self := FrozenListObject
                        (FrozenList.set_items (listobject.PyList_Insert (_items fl) pos v) fl)]> h).
Proof.
  intros Hself Hfr Hpos. unfold FrozenList.insert.
  rewrite (guarded_unfrozen _ _ _ _ Hself Hfr), (on_items_instance _ _ _ _ Hself).
  unfold listobject.insert. by rewrite (as_ssize_t_fits _ Hpos).
Qed.

Lemma insert_overflow (h : heap) (self : addr) (fl : FrozenList) (pos : Z) (v : value) :
  h !! self = Some (FrozenListObject fl) -> _frozen fl = false ->
  pos < - PY_SSIZE_T_MAX - 1 \/ PY_SSIZE_T_MAX < pos ->
  FrozenList.insert self pos v h = (Raise OverflowError, h).
Proof.
  intros Hself Hfr Hpos. unfold FrozenList.insert.
  rewrite (guarded_unfrozen _ _ _ _ Hself Hfr), (on_items_instance _ _ _ _ Hself).
  unfold listobject.insert. by rewrite (as_ssize_t_overflow _ Hpos).
Qed.

Lemma append_instance (h : heap) (self : addr) (fl : FrozenList) (v : value) :
  h !! self = Some (FrozenListObject fl) -> _frozen fl = false ->
  FrozenList.append self v h
  = (Ok tt, <[self := FrozenListObject (FrozenList.set_items (_items fl ++ [v]) fl)]> h).
Proof.
  intros Hself Hfr. unfold FrozenList.append.
  by rewrite (guarded_unfrozen _ _ _ _ Hself Hfr), (on_items_instance _ _ _ _ Hself).
Qed.

Lemma PyList_Insert_inside (items : list value) (i : Z) (v : value) :
  0 <= i <= Z.of_nat (length items) ->
  listobject.PyList_Insert items i v
  = take (Z.to_nat i) items ++ v :: drop (Z.to_nat i) items.
Proof.
  intros Hi. unfold listobject.PyList_Insert.
  assert ((i <? 0) = false) as -> by (apply Z.ltb_ge; lia).
  by rewrite Z.min_l by lia.
Qed.

Lemma PyList_Insert_length (items : list value) (pos : Z) (v : value) :
  length (listobject.PyList_Insert items pos v) = S (length items).
Proof.
  unfold listobject.PyList_Insert.
  rewrite length_app, length_take. simpl. rewrite length_drop. lia.
Qed.

(** X4.  On a list that is not frozen and for
    [0 <= i <= len(x)], where [i] fits the C type of indexes (as the
    length of a list in memory does): after [insert(i, v)], [x[i]] is
    [v]; and [insert(i, v)] followed by [del x[i]] gives back the heap
    as it was.  Where [i] does not fit the C type, [insert(i, v)] raises
    [OverflowError] and the heap is as it was. *)
Theorem insert_then_delitem (h : heap) (self : addr) (fl : FrozenList) (i : Z) (v : value) :
  h !! self = Some (FrozenListObject fl) -> _frozen fl = false ->
  0 <= i <= Z.of_nat (length (_items fl)) ->
  (i <= PY_SSIZE_T_MAX ->
     ((FrozenList.insert self i v;; FrozenList.__getitem__ self (Index i)) h).1 = Ok v
     /\ (FrozenList.insert self i v;; FrozenList.__delitem__ self (Index i)) h = (Ok tt, h))
  /\ (PY_SSIZE_T_MAX < i -> FrozenList.insert self i v h = (Raise OverflowError, h)).
Proof.
  intros Hself Hfr Hi. split; [|intros Hbig; apply (insert_overflow _ _ _ _ _ Hself Hfr); lia].
  intros Hfits.
  assert (Hpos : - PY_SSIZE_T_MAX - 1 <= i <= PY_SSIZE_T_MAX)
    by (unfold PY_SSIZE_T_MAX in *; lia).
  set (items' := listobject.PyList_Insert (_items fl) i v).
  pose proof (lookup_set_items h self fl items' Hself) as Hself'.
  assert (Hvalid : listobject.valid_index (length items') i = Some (Z.to_nat i)).
  { rewrite valid_index_mod; unfold items'; rewrite PyList_Insert_length; [|lia].
    by rewrite Z.mod_small by lia. }
  assert (Hitems' : items' = take (Z.to_nat i) (_items fl) ++ v :: drop (Z.to_nat i) (_items fl))
    by (by apply PyList_Insert_inside).
  assert (Hlen : length (take (Z.to_nat i) (_items fl)) = Z.to_nat i)
    by (rewrite length_take; lia).
  split.
  - unfold mbind at 1. unfold M_bind. rewrite (insert_instance _ _ _ _ _ Hself Hfr Hpos).
    fold items'. rewrite (getitem_instance _ _ _ _ Hself'). simpl. rewrite Hvalid.
    rewrite Hitems'. by rewrite list_lookup_middle.
  - unfold mbind at 1. unfold M_bind. rewrite (insert_instance _ _ _ _ _ Hself Hfr Hpos).
    fold items'. rewrite (delitem_instance _ _ _ _ Hself' Hfr). simpl. rewrite Hvalid.
    f_equal.
    assert (delete (Z.to_nat i) items' = _items fl) as ->.
    { rewrite Hitems'. rewrite <- Hlen at 1. rewrite delete_middle. apply take_drop. }
    by apply restore_items.
Qed.

Lemma insert_then_delitem_witness :
  ((FrozenList.insert 0 1 (VInt 7);; FrozenList.__getitem__ 0 (Index 1)) unfrozen_12).1
  = Ok (VInt 7)
  /\ (FrozenList.insert 0 2 (VInt 7);; FrozenList.__delitem__ 0 (Index 2)) unfrozen_12
     = (Ok tt, unfrozen_12).
Proof.
  split.
  - apply (proj1 (insert_then_delitem unfrozen_12 0 _ 1 (VInt 7) eq_refl eq_refl
                    ltac:(simpl; lia))).
    unfold PY_SSIZE_T_MAX. lia.
  - apply (proj1 (insert_then_delitem unfrozen_12 0 _ 2 (VInt 7) eq_refl eq_refl
                    ltac:(simpl; lia))).
    unfold PY_SSIZE_T_MAX. lia.
Defined.

(** X5.  On a list that is not frozen, [insert] at a position that
    fits the C type of indexes never fails and makes the list one item
    longer.  Such a position at or past the end appends: the call is
    [append(v)].  Such a position at or before [-len(x)] inserts at the
    front: the call is [insert(0, v)], and [x[0]] is [v] afterwards.
    At a position that does not fit the C type, [insert] raises
    [OverflowError] and inserts nothing. *)
Theorem insert_clamps (h : heap) (self : addr) (fl : FrozenList) (pos : Z) (v : value) :
  h !! self = Some (FrozenListObject fl) -> _frozen fl = false ->
  let n := Z.of_nat (length (_items fl)) in
  (- PY_SSIZE_T_MAX - 1 <= pos <= PY_SSIZE_T_MAX ->
     (FrozenList.insert self pos v;; FrozenList.__len__ self) h
       = (Ok (n + 1), (FrozenList.insert self pos v h).2)
     /\ (n <= pos -> FrozenList.insert self pos v h = FrozenList.append self v h)
     /\ (pos <= - n ->
           FrozenList.insert self pos v h = FrozenList.insert self 0 v h
           /\ ((FrozenList.insert self pos v;; FrozenList.__getitem__ self (Index 0)) h).1
              = Ok v))
  /\ (pos < - PY_SSIZE_T_MAX - 1 \/ PY_SSIZE_T_MAX < pos ->
      FrozenList.insert self pos v h = (Raise OverflowError, h)).
Proof.
  intros Hself Hfr n. split; [|by apply (insert_overflow _ _ fl)].
  intros Hfits.
  assert (Hfits0 : - PY_SSIZE_T_MAX - 1 <= 0 <= PY_SSIZE_T_MAX)
    by (unfold PY_SSIZE_T_MAX; lia).
  pose proof (lookup_set_items h self fl (listobject.PyList_Insert (_items fl) pos v) Hself)
    as Hself'.
  split; [|split].
  - unfold mbind at 1. unfold M_bind. rewrite (insert_instance _ _ _ _ _ Hself Hfr Hfits).
    rewrite (len_instance _ _ _ Hself'). simpl. rewrite PyList_Insert_length.
    f_equal. f_equal. lia.
  - intros Hpos.
    rewrite (insert_instance _ _ _ _ _ Hself Hfr Hfits), (append_instance _ _ _ _ Hself Hfr).
    do 4 f_equal. unfold listobject.PyList_Insert.
    fold n. destruct (pos <? 0) eqn:Hneg.
    + apply Z.ltb_lt in Hneg. unfold n in Hpos. lia.
    + rewrite Z.min_r by lia. unfold n. rewrite Nat2Z.id.
      by rewrite firstn_all, drop_all.
  - intros Hpos.
    assert (Hsame : listobject.PyList_Insert (_items fl) pos v = v :: _items fl).
    { unfold listobject.PyList_Insert. fold n. destruct (pos <? 0) eqn:Hneg.
      - by rewrite Z.max_l by lia.
      - apply Z.ltb_ge in Hneg. assert (pos = 0) as -> by lia.
        by rewrite Z.min_l by lia. }
    assert (Hzero : listobject.PyList_Insert (_items fl) 0 v = v :: _items fl).
    { unfold listobject.PyList_Insert. fold n. simpl. by rewrite Z.min_l by lia. }
    split.
    + rewrite (insert_instance _ _ _ _ _ Hself Hfr Hfits),
        (insert_instance _ _ _ _ _ Hself Hfr Hfits0).
      by rewrite Hsame, Hzero.
    + unfold mbind at 1. unfold M_bind. rewrite (insert_instance _ _ _ _ _ Hself Hfr Hfits).
      rewrite (getitem_instance _ _ _ _ Hself'). simpl. by rewrite Hsame.
Qed.

Lemma insert_clamps_witness :
  FrozenList.insert 0 100 (VInt 7) unfrozen_12 = FrozenList.append 0 (VInt 7) unfrozen_12
  /\ FrozenList.insert 0 (-100) (VInt 7) unfrozen_12 = FrozenList.insert 0 0 (VInt 7) unfrozen_12
  /\ ((FrozenList.insert 0 (-1) (VInt 7);; FrozenList.__len__ 0) unfrozen_12).1 = Ok 3
  /\ FrozenList.insert 0 (2 ^ 63) (VInt 7) unfrozen_12 = (Raise OverflowError, unfrozen_12).
Proof.
  pose proof (proj1 (insert_clamps unfrozen_12 0 _ 100 (VInt 7) eq_refl eq_refl)) as Hend.
  pose proof (proj1 (insert_clamps unfrozen_12 0 _ (-100) (VInt 7) eq_refl eq_refl)) as Hfront.
  pose proof (proj1 (insert_clamps unfrozen_12 0 _ (-1) (VInt 7) eq_refl eq_refl)) as Hlen.
  pose proof (proj2 (insert_clamps unfrozen_12 0 _ (2 ^ 63) (VInt 7) eq_refl eq_refl)) as Hbig.
  split; [|split; [|split]].
  - apply Hend; [unfold PY_SSIZE_T_MAX|simpl]; lia.
  - apply Hfront; [unfold PY_SSIZE_T_MAX|simpl]; lia.
  - by rewrite (proj1 (Hlen ltac:(unfold PY_SSIZE_T_MAX; lia))).
  - apply Hbig. unfold PY_SSIZE_T_MAX. lia.
Defined.

(** X6.  On a list that is not frozen, [pop(i)] is [x[i]] followed by
    [del x[i]] for every [i] that fits the C type of indexes: the same
    result or the same exception, and the same heap afterwards.  For an
    [i] that does not fit, [pop(i)] raises [OverflowError], where [x[i]]
    raises [IndexError] (the list being one whose length fits the C
    type, as that of a list in memory does); the heap is as it was. *)
Theorem pop_is_getitem_then_delitem (h : heap) (self : addr) (fl : FrozenList) (i : Z) :
  h !! self = Some (FrozenListObject fl) -> _frozen fl = false ->
  (- PY_SSIZE_T_MAX - 1 <= i <= PY_SSIZE_T_MAX ->
     FrozenList.pop self i h
     = (v ← FrozenList.__getitem__ self (Index i);
        FrozenList.__delitem__ self (Index i);;
        mret v) h)
  /\ (i < - PY_SSIZE_T_MAX - 1 \/ PY_SSIZE_T_MAX < i ->
      FrozenList.pop self i h = (Raise OverflowError, h)
      /\ (Z.of_nat (length (_items fl)) <= PY_SSIZE_T_MAX ->
          FrozenList.__getitem__ self (Index i) h = (Raise IndexError, h))).
Proof.
  intros Hself Hfr. split.
  - intros Hfits. unfold FrozenList.pop.
    rewrite (guarded_unfrozen _ _ _ _ Hself Hfr), (on_items_instance _ _ _ _ Hself).
    unfold mbind at 1. unfold M_bind. rewrite (getitem_instance _ _ _ _ Hself).
    unfold listobject.pop. rewrite (as_ssize_t_fits _ Hfits).
    unfold mbind at 1. unfold outcome_bind. case_bool_decide as Hempty.
    + rewrite valid_index_out; [done|]. rewrite Hempty. simpl. lia.
    + destruct (listobject.valid_index (length (_items fl)) i) as [j|] eqn:Hvalid; [|done].
      destruct (_items fl !! j) as [v|]; [|done].
      unfold mbind at 1. unfold M_bind.
      by rewrite (delitem_instance _ _ _ _ Hself Hfr), Hvalid.
  - intros Hover. split.
    + unfold FrozenList.pop.
      rewrite (guarded_unfrozen _ _ _ _ Hself Hfr), (on_items_instance _ _ _ _ Hself).
      unfold listobject.pop. by rewrite (as_ssize_t_overflow _ Hover).
    + intros Hlen. rewrite (getitem_instance _ _ _ _ Hself).
      rewrite valid_index_out; [done|]. lia.
Qed.

Lemma pop_is_getitem_then_delitem_witness :
  FrozenList.pop 0 0 unfrozen_12
  = (Ok (VInt 1), [FrozenListObject {| _frozen := false; _items := [VInt 2] |}])
  /\ (v ← FrozenList.__getitem__ 0 (Index 0); FrozenList.__delitem__ 0 (Index 0);; mret v)
       unfrozen_12
     = (Ok (VInt 1), [FrozenListObject {| _frozen := false; _items := [VInt 2] |}])
  /\ FrozenList.pop 0 (2 ^ 63) unfrozen_12 = (Raise OverflowError, unfrozen_12)
  /\ FrozenList.__getitem__ 0 (Index (2 ^ 63)) unfrozen_12 = (Raise IndexError, unfrozen_12).
Proof.
  pose proof (proj1 (pop_is_getitem_then_delitem unfrozen_12 0 _ 0 eq_refl eq_refl)) as Hin.
  pose proof (proj2 (pop_is_getitem_then_delitem unfrozen_12 0 _ (2 ^ 63) eq_refl eq_refl))
    as Hout.
  split; [reflexivity|]. split; [|split].
  - rewrite <- Hin; [reflexivity|]. unfold PY_SSIZE_T_MAX. lia.
  - apply Hout. unfold PY_SSIZE_T_MAX. lia.
  - apply Hout; [unfold PY_SSIZE_T_MAX|simpl; unfold PY_SSIZE_T_MAX]; lia.
Defined.

(** ** Searching *)

Section search_facts.
Variable item_eq : value -> value -> outcome bool.

Lemma find_Some (items : list value) (v : value) (k i : nat) :
  listobject.find item_eq items v k = Ok (Some i) ->
  (k <= i)%nat
  /\ (exists w, items !! (i - k)%nat = Some w /\ item_eq w v = Ok true)
  /\ (forall j u, (j < i - k)%nat -> items !! j = Some u -> item_eq u v = Ok false).
Proof.
  revert k. induction items as [|x rest IH]; intros k Hfind; simpl in Hfind; [done|].
  destruct (item_eq x v) as [[|]| |] eqn:Hx; simpl in Hfind; try done.
  - injection Hfind as <-. rewrite Nat.sub_diag. split; [lia|]. split.
    + by exists x.
    + intros j u Hj. lia.
  - destruct (IH _ Hfind) as (Hk & (w & Hw & Heq) & Hbefore).
    replace (i - k)%nat with (S (i - S k)) by lia.
    split; [lia|]. split.
    + by exists w.
    + intros [|j] u Hj Hu; simpl in Hu.
      * by injection Hu as <-.
      * apply (Hbefore j); [lia|done].
Qed.

(** Where the search starts counting plays no part in what it finds. *)
Lemma find_from (items : list value) (v : value) (k : nat) :
  listobject.find item_eq items v k
  = fmap (M := outcome) (fmap (M := option) (fun i => (k + i)%nat))
      (listobject.find item_eq items v 0).
Proof.
  revert k. induction items as [|x rest IH]; intros k; simpl; [done|].
  destruct (item_eq x v) as [[|]| |]; simpl; try done.
  - do 2 f_equal. lia.
  - rewrite (IH (S k)), (IH 1%nat).
    destruct (listobject.find item_eq rest v 0) as [[i|]| |]; simpl; try done.
    do 2 f_equal. lia.
Qed.

(** A count that comes to an end tells whether the item is there. *)
Lemma count_find (items : list value) (v : value) (n : Z) :
  listobject.PySequence_Count item_eq items v = Ok n ->
  0 <= n <= Z.of_nat (length items)
  /\ exists r, listobject.find item_eq items v 0 = Ok r /\ (is_Some r <-> 0 < n).
Proof.
  revert n. induction items as [|x rest IH]; intros n Hcount; simpl in Hcount.
  - injection Hcount as <-. split; [simpl; lia|]. exists None. split; [done|].
    split; [by intros [? ?]|lia].
  - simpl. destruct (item_eq x v) as [b| |] eqn:Hx; simpl in Hcount; try done.
    destruct (listobject.PySequence_Count item_eq rest v) as [n'| |]; simpl in Hcount;
      try done.
    injection Hcount as <-. destruct (IH n' eq_refl) as (Hn' & r & Hr & Hiff).
    destruct b; simpl.
    + split; [lia|]. exists (Some 0%nat). split; [done|]. split; [lia|by eexists].
    + split; [lia|]. rewrite find_from, Hr. simpl.
      exists ((fun i => (1 + i)%nat) <$> r). split; [done|].
      rewrite <- Hiff. by rewrite fmap_is_Some.
Qed.
End search_facts.

Lemma item_eq_atoms (depth : nat) (h : heap) (u v : value) :
  atom u = true -> atom v = true ->
  FrozenList.item_eq depth h u v = Ok (bool_decide (u = v)).
Proof.
  intros Hu Hv. unfold FrozenList.item_eq, PyObject_RichCompareBool_EQ.
  case_bool_decide as Huv; [done|].
  destruct depth, u as [|a|?|?], v as [|b|?|?]; simpl in *; try done.
  all: f_equal; apply Z.eqb_neq; congruence.
Qed.

(** A comparison returns, or raises one of two exceptions. *)
Lemma first_difference_not_ValueError (f : value -> value -> cmp_op -> outcome bool)
    (vs ws : list value) (i : nat) :
  (forall v w op, f v w op <> Raise ValueError) ->
  first_difference f vs ws i <> Raise ValueError.
Proof.
  intros Hf. revert ws i. induction vs as [|v vs IH]; intros [|w ws] i; simpl; try done.
  case_bool_decide; [apply IH|].
  pose proof (Hf v w Py_EQ) as Hvw.
  destruct (f v w Py_EQ) as [[|]|e|]; simpl; [apply IH|done| |done].
  intros [= ->]. by apply Hvw.
Qed.

Lemma list_richcompare_not_ValueError (f : value -> value -> cmp_op -> outcome bool)
    (vs ws : list value) (op : cmp_op) :
  (forall v w op, f v w op <> Raise ValueError) ->
  list_richcompare f vs ws op <> Raise ValueError.
Proof.
  intros Hf. unfold list_richcompare. destruct (_ && _); [done|].
  pose proof (first_difference_not_ValueError f vs ws 0 Hf) as Hfirst.
  destruct (first_difference f vs ws 0) as [i|e|]; simpl; [| |done].
  - destruct (vs !! i) as [v|], (ws !! i) as [w|]; try done.
    destruct op; try done; apply Hf.
  - intros [= ->]. by apply Hfirst.
Qed.

Lemma list_compare_to_not_ValueError (f : value -> value -> cmp_op -> outcome bool)
    (h : heap) (vs : list value) (w : value) (op : cmp_op) :
  (forall v w op, f v w op <> Raise ValueError) ->
  list_compare_to f h vs w op <> Raise ValueError.
Proof.
  intros Hf. unfold list_compare_to. destruct w as [| |b|u]; [by destruct op..| |by destruct op].
  destruct (h !! b) as [[ws|fl]|]; try done; by apply list_richcompare_not_ValueError.
Qed.

Lemma PyObject_RichCompare_not_ValueError (depth : nat) (h : heap) (v w : value)
    (op : cmp_op) :
  PyObject_RichCompare depth h v w op <> Raise ValueError.
Proof.
  revert v w op. induction depth as [|depth IH]; intros v w op.
  - destruct v, w; simpl; try done; by destruct op.
  - destruct v as [| |a|t], w as [| |b|u]; simpl; try done; try (by destruct op).
    all: match goal with
         | |- context [_ !! ?c] => destruct (h !! c) as [[?|?]|]
         end;
         rewrite ?richcmp_list_compare_to; try done; try (by destruct op);
         by apply list_compare_to_not_ValueError.
Qed.

Lemma item_eq_not_ValueError (depth : nat) (h : heap) (u v : value) :
  FrozenList.item_eq depth h u v <> Raise ValueError.
Proof.
  unfold FrozenList.item_eq, PyObject_RichCompareBool_EQ.
  case_bool_decide; [done|]. apply PyObject_RichCompare_not_ValueError.
Qed.

Lemma find_not_ValueError (depth : nat) (h : heap) (items : list value) (v : value)
    (k : nat) :
  listobject.find (FrozenList.item_eq depth h) items v k <> Raise ValueError.
Proof.
  revert k. induction items as [|x rest IH]; intros k; simpl; [done|].
  pose proof (item_eq_not_ValueError depth h x v) as Hxv.
  destruct (FrozenList.item_eq depth h x v) as [[|]|e|]; simpl; [done|apply IH| |done].
  intros [= ->]. by apply Hxv.
Qed.

Lemma index_instance (depth : nat) (h : heap) (self : addr) (fl : FrozenList)
    (item : value) :
  h !! self = Some (FrozenListObject fl) ->
  FrozenList.index depth self item h
  = (listobject.index (FrozenList.item_eq depth h) (_items fl) item, h).
Proof. intros Hself. unfold FrozenList.index. unfold_M. by rewrite Hself. Qed.

Lemma contains_instance (depth : nat) (h : heap) (self : addr) (fl : FrozenList)
    (item : value) :
  h !! self = Some (FrozenListObject fl) ->
  FrozenList.__contains__ depth self item h
  = (listobject.PySequence_Contains (FrozenList.item_eq depth h) (_items fl) item, h).
Proof. intros Hself. unfold FrozenList.__contains__. unfold_M. by rewrite Hself. Qed.

Lemma count_instance (depth : nat) (h : heap) (self : addr) (fl : FrozenList)
    (item : value) :
  h !! self = Some (FrozenListObject fl) ->
  FrozenList.count depth self item h
  = (listobject.PySequence_Count (FrozenList.item_eq depth h) (_items fl) item, h).
Proof. intros Hself. unfold FrozenList.count. unfold_M. by rewrite Hself. Qed.

(** X7.  When [index(item)] returns [i], then [i] is a
    position of the list, the item there is equal to [item], and no item
    before it is. *)
Theorem index_is_first_match (depth : nat) (h : heap) (self : addr) (fl : FrozenList)
    (item : value) (i : Z) :
  h !! self = Some (FrozenListObject fl) ->
  (FrozenList.index depth self item h).1 = Ok i ->
  0 <= i < Z.of_nat (length (_items fl))
  /\ (exists w, FrozenList.__getitem__ self (Index i) h = (Ok w, h)
        /\ FrozenList.item_eq depth h w item = Ok true)
  /\ (forall j u, 0 <= j < i ->
        FrozenList.__getitem__ self (Index j) h = (Ok u, h) ->
        FrozenList.item_eq depth h u item = Ok false).
Proof.
  intros Hself. rewrite (index_instance _ _ _ _ _ Hself). simpl.
  unfold listobject.index.
  destruct (listobject.find _ (_items fl) item 0) as [[k|]| |] eqn:Hfind; simpl; try done.
  intros [= <-].
  destruct (find_Some _ _ _ _ _ Hfind) as (_ & (w & Hw & Heq) & Hbefore).
  rewrite Nat.sub_0_r in *.
  pose proof (lookup_lt_Some _ _ _ Hw) as Hk.
  split; [lia|]. split.
  - exists w. split; [|done].
    rewrite (getitem_instance _ _ _ _ Hself), valid_index_mod by lia.
    rewrite Z.mod_small by lia. by rewrite Nat2Z.id, Hw.
  - intros j u Hj. rewrite (getitem_instance _ _ _ _ Hself), valid_index_mod by lia.
    rewrite Z.mod_small by lia.
    destruct (_items fl !! Z.to_nat j) as [u'|] eqn:Hu; [|done].
    intros [= <-]. apply (Hbefore (Z.to_nat j)); [lia|done].
Qed.

Lemma index_is_first_match_witness :
  let h := [FrozenListObject {| _frozen := true; _items := [VInt 5; VNone; VInt 7; VNone] |}] in
  (FrozenList.index 0 0 VNone h).1 = Ok 1
  /\ FrozenList.__getitem__ 0 (Index 1) h = (Ok VNone, h)
  /\ FrozenList.item_eq 0 h (VInt 5) VNone = Ok false.
Proof.
  intros h.
  destruct (index_is_first_match 0 h 0 _ VNone 1 eq_refl eq_refl)
    as (_ & (w & Hw & _) & Hbefore).
  split; [reflexivity|]. split; [reflexivity|].
  apply (Hbefore 0); [lia|reflexivity].
Defined.

(** X8.  [item in x], [x.index(item)] and [x.count(item)]
    agree.  [in] is true exactly when [index] returns a position, and
    false exactly when [index] raises [ValueError]; and whenever [count]
    returns [n], [n] lies between 0 and [len(x)] and [in] answers
    whether [n > 0]. *)
Theorem contains_index_count (depth : nat) (h : heap) (self : addr) (fl : FrozenList)
    (item : value) :
  h !! self = Some (FrozenListObject fl) ->
  let found := (FrozenList.__contains__ depth self item h).1 in
  let position := (FrozenList.index depth self item h).1 in
  (found = Ok true <-> exists i, position = Ok i)
  /\ (found = Ok false <-> position = Raise ValueError)
  /\ (forall n, (FrozenList.count depth self item h).1 = Ok n ->
        0 <= n <= Z.of_nat (length (_items fl)) /\ found = Ok (0 <? n)).
Proof.
  intros Hself found position. unfold found, position.
  rewrite (contains_instance _ _ _ _ _ Hself), (index_instance _ _ _ _ _ Hself),
    (count_instance _ _ _ _ _ Hself). simpl.
  unfold listobject.PySequence_Contains, listobject.index.
  pose proof (find_not_ValueError depth h (_items fl) item 0) as Herr.
  split; [|split].
  - destruct (listobject.find _ (_items fl) item 0) as [[k|]| |]; simpl;
      (split; [intros Hfound|intros [i Hi]]); try done. by eexists.
  - destruct (listobject.find _ (_items fl) item 0) as [[k|]|e|]; simpl;
      (split; [intros Hfound|intros Hpos]); try done.
    injection Hpos as ->. by destruct Herr.
  - intros n Hn. destruct (count_find _ _ _ _ Hn) as (Hbound & r & Hr & Hiff).
    split; [done|]. rewrite Hr. simpl. f_equal.
    destruct (0 <? n) eqn:Hpos.
    + apply bool_decide_eq_true_2, Hiff. by apply Z.ltb_lt.
    + apply bool_decide_eq_false_2. rewrite Hiff. apply Z.ltb_ge in Hpos. lia.
Qed.

Lemma contains_index_count_witness :
  let h := [FrozenListObject {| _frozen := true; _items := [VInt 5; VNone; VInt 5] |}] in
  (FrozenList.__contains__ 0 0 (VInt 5) h).1 = Ok true
  /\ (FrozenList.index 0 0 (VInt 6) h).1 = Raise ValueError
  /\ (FrozenList.count 0 0 (VInt 5) h).1 = Ok 2.
Proof.
  intros h.
  destruct (contains_index_count 0 h 0 _ (VInt 5) eq_refl) as (Hin & _ & _).
  destruct (contains_index_count 0 h 0 _ (VInt 6) eq_refl) as (_ & Hout & _).
  split; [apply Hin; by exists 0|]. split; [by apply Hout|reflexivity].
Defined.

Section search_decided.
Variable item_eq : value -> value -> outcome bool.

Lemma find_decided (items : list value) (v : value) (k : nat) :
  Forall (fun u => item_eq u v = Ok (bool_decide (u = v))) items ->
  ((v ∉ items) /\ listobject.find item_eq items v k = Ok None)
  \/ (exists i, listobject.find item_eq items v k = Ok (Some (k + i)%nat)
        /\ items !! i = Some v /\ forall j, (j < i)%nat -> items !! j <> Some v).
Proof.
  intros Hall. revert k. induction Hall as [|x rest Hx Hrest IH]; intros k; simpl.
  - left. split; [apply not_elem_of_nil|done].
  - rewrite Hx. case_bool_decide as Hxv; simpl.
    + right. exists 0%nat. rewrite Nat.add_0_r. subst x.
      split; [done|]. split; [done|]. intros j Hj. lia.
    + destruct (IH (S k)) as [[Hout Hfind]|(i & Hfind & Hi & Hbefore)].
      * left. split; [|done]. rewrite not_elem_of_cons. split; [congruence|done].
      * right. exists (S i). rewrite Hfind.
        split; [do 2 f_equal; lia|]. split; [done|].
        intros [|j] Hj; simpl; [congruence|]. apply Hbefore. lia.
Qed.

Lemma count_decided (items : list value) (v : value) :
  Forall (fun u => item_eq u v = Ok (bool_decide (u = v))) items ->
  listobject.PySequence_Count item_eq items v
  = Ok (Z.of_nat (length (filter (fun u => u = v) items))).
Proof.
  intros Hall. induction Hall as [|x rest Hx Hrest IH]; simpl; [done|].
  rewrite Hx, IH. simpl. rewrite filter_cons. f_equal.
  case_bool_decide as Hxv.
  - rewrite decide_True by done. simpl. lia.
  - by rewrite decide_False by done.
Qed.
End search_decided.

(** X9.  In a list of integers and [None], searched for an
    integer or for [None]: [in] tells whether the item is among the
    items; [count] is the number of items that are it; [index] raises
    [ValueError] when it is not there, and otherwise returns the first
    position that holds it.  No comparison fails, however little room
    the stack has. *)
Theorem search_among_atoms (depth : nat) (h : heap) (self : addr) (fl : FrozenList)
    (item : value) :
  h !! self = Some (FrozenListObject fl) ->
  atom item = true -> Forall (fun u => atom u = true) (_items fl) ->
  FrozenList.__contains__ depth self item h = (Ok (bool_decide (item ∈ _items fl)), h)
  /\ FrozenList.count depth self item h
     = (Ok (Z.of_nat (length (filter (fun u => u = item) (_items fl)))), h)
  /\ (item ∉ _items fl -> FrozenList.index depth self item h = (Raise ValueError, h))
  /\ (item ∈ _items fl ->
      exists i : nat, FrozenList.index depth self item h = (Ok (Z.of_nat i), h)
        /\ _items fl !! i = Some item
        /\ forall j, (j < i)%nat -> _items fl !! j <> Some item).
Proof.
  intros Hself Hitem Hatoms.
  assert (Hall : Forall (fun u => FrozenList.item_eq depth h u item
                                  = Ok (bool_decide (u = item))) (_items fl)).
  { eapply Forall_impl; [done|]. intros u Hu. by apply item_eq_atoms. }
  rewrite (contains_instance _ _ _ _ _ Hself), (index_instance _ _ _ _ _ Hself),
    (count_instance _ _ _ _ _ Hself).
  unfold listobject.PySequence_Contains, listobject.index.
  rewrite (count_decided _ _ _ Hall).
  destruct (find_decided _ _ _ 0 Hall) as [[Hout ->]|(i & -> & Hi & Hbefore)]; simpl.
  - split; [|split; [done|split; [done|]]].
    + do 2 f_equal. symmetry. by apply bool_decide_eq_false_2.
    + intros Hin. by destruct Hout.
  - assert (Hin : item ∈ _items fl) by (by eapply list_elem_of_lookup_2).
    split; [|split; [done|split]].
    + do 2 f_equal. symmetry. by apply bool_decide_eq_true_2.
    + intros Hout. by destruct Hout.
    + intros _. by exists i.
Qed.

Lemma search_among_atoms_witness :
  let h := [FrozenListObject {| _frozen := false; _items := [VInt 5; VNone; VInt 5] |}] in
  FrozenList.__contains__ 0 0 VNone h = (Ok true, h)
  /\ FrozenList.count 0 0 (VInt 5) h = (Ok 2, h)
  /\ FrozenList.index 0 0 (VInt 6) h = (Raise ValueError, h).
Proof.
  intros h.
  assert (Hatoms : Forall (fun u => atom u = true) [VInt 5; VNone; VInt 5])
    by (repeat constructor).
  split; [|split].
  - apply (proj1 (search_among_atoms 0 h 0 _ VNone eq_refl eq_refl Hatoms)).
  - apply (proj1 (proj2 (search_among_atoms 0 h 0 _ (VInt 5) eq_refl eq_refl Hatoms))).
  - apply (proj1 (proj2 (proj2 (search_among_atoms 0 h 0 _ (VInt 6) eq_refl eq_refl Hatoms)))).
    vm_compute. intros Hin. repeat (apply elem_of_cons in Hin as [Hin|Hin]; [done|]).
    by apply elem_of_nil in Hin.
Defined.

(** ** [remove] *)

Lemma remove_instance (depth : nat) (h : heap) (self : addr) (fl : FrozenList)
    (item : value) :
  h !! self = Some (FrozenListObject fl) -> _frozen fl = false ->
  FrozenList.remove depth self item h
  = match listobject.remove (FrozenList.item_eq depth h) (_items fl) item with
    | Ok items => (Ok tt, <[self := FrozenListObject (FrozenList.set_items items fl)]> h)
    | Raise e => (Raise e, h)
    | Diverge => (Diverge, h)
    end.
Proof.
  intros Hself Hfr. unfold FrozenList.remove.
  rewrite (guarded_unfrozen _ _ _ _ Hself Hfr), (on_items_instance _ _ _ _ Hself).
  by destruct (listobject.remove _ _ _).
Qed.

(** X10.  On a list that is not frozen,
    [remove(item)] is [del x[x.index(item)]]: the first item equal to
    [item] is taken out; and where [index] raises, [remove] raises the
    same and changes nothing. *)
Theorem remove_is_delitem_at_index (depth : nat) (h : heap) (self : addr)
    (fl : FrozenList) (item : value) :
  h !! self = Some (FrozenListObject fl) -> _frozen fl = false ->
  FrozenList.remove depth self item h
  = (i ← FrozenList.index depth self item; FrozenList.__delitem__ self (Index i)) h.
Proof.
  intros Hself Hfr. rewrite (remove_instance _ _ _ _ _ Hself Hfr).
  unfold mbind at 1. unfold M_bind. rewrite (index_instance _ _ _ _ _ Hself).
  unfold listobject.remove, listobject.index.
  destruct (listobject.find _ (_items fl) item 0) as [[i|]| |] eqn:Hfind; simpl; try done.
  destruct (find_Some _ _ _ _ _ Hfind) as (_ & (w & Hw & _) & _).
  rewrite Nat.sub_0_r in Hw. apply lookup_lt_Some in Hw.
  rewrite (delitem_instance _ _ _ _ Hself Hfr), valid_index_mod by lia.
  rewrite Z.mod_small by lia. by rewrite Nat2Z.id.
Qed.

Lemma remove_is_delitem_at_index_witness :
  let h := [FrozenListObject {| _frozen := false; _items := [VInt 5; VNone; VInt 5] |}] in
  FrozenList.remove 0 0 VNone h
  = (Ok tt, [FrozenListObject {| _frozen := false; _items := [VInt 5; VInt 5] |}])
  /\ (i ← FrozenList.index 0 0 (VInt 6); FrozenList.__delitem__ 0 (Index i)) h
     = (Raise ValueError, h).
Proof.
  intros h. split; [reflexivity|].
  by rewrite <- (remove_is_delitem_at_index 0 h 0 _ (VInt 6) eq_refl eq_refl).
Defined.

(** ** [reverse] and the two iterators *)

Lemma reverse_instance (h : heap) (self : addr) (fl : FrozenList) :
  h !! self = Some (FrozenListObject fl) -> _frozen fl = false ->
  FrozenList.reverse self h
  = (Ok tt, <[self := FrozenListObject (FrozenList.set_items (reverse (_items fl)) fl)]> h).
Proof.
  intros Hself Hfr. unfold FrozenList.reverse.
  by rewrite (guarded_unfrozen _ _ _ _ Hself Hfr), (on_items_instance _ _ _ _ Hself).
Qed.

(** X11.  On a list that is not frozen, [reverse()] twice gives
    back the heap as it was.  After one [reverse()], iterating the list
    yields what [reversed(x)] yielded before, and [reversed(x)] yields
    what iterating yielded before. *)
Theorem reverse_twice (h : heap) (self : addr) (fl : FrozenList) :
  h !! self = Some (FrozenListObject fl) -> _frozen fl = false ->
  (FrozenList.reverse self;; FrozenList.reverse self) h = (Ok tt, h)
  /\ ((FrozenList.reverse self;; FrozenList.__iter__ self) h).1
     = (FrozenList.__reversed__ self h).1
  /\ ((FrozenList.reverse self;; FrozenList.__reversed__ self) h).1
     = (FrozenList.__iter__ self h).1.
Proof.
  intros Hself Hfr.
  pose proof (lookup_set_items h self fl (reverse (_items fl)) Hself) as Hself'.
  split; [|split].
  - unfold mbind at 1. unfold M_bind. rewrite (reverse_instance _ _ _ Hself Hfr).
    rewrite (reverse_instance _ _ _ Hself' Hfr). simpl. rewrite reverse_involutive.
    f_equal. by apply restore_items.
  - unfold mbind at 1. unfold M_bind. rewrite (reverse_instance _ _ _ Hself Hfr).
    unfold FrozenList.__iter__, FrozenList.__reversed__. unfold_M.
    by rewrite Hself', Hself.
  - unfold mbind at 1. unfold M_bind. rewrite (reverse_instance _ _ _ Hself Hfr).
    unfold FrozenList.__iter__, FrozenList.__reversed__. unfold_M.
    rewrite Hself', Hself. simpl. by rewrite reverse_involutive.
Qed.

Lemma reverse_twice_witness :
  (FrozenList.reverse 0;; FrozenList.reverse 0) unfrozen_12 = (Ok tt, unfrozen_12)
  /\ ((FrozenList.reverse 0;; FrozenList.__iter__ 0) unfrozen_12).1 = Ok [VInt 2; VInt 1].
Proof.
  destruct (reverse_twice unfrozen_12 0 _ eq_refl eq_refl) as (Htwice & Hiter & _).
  split; [exact Htwice|]. rewrite Hiter. reflexivity.
Defined.

(** ** Slices *)

Lemma omap_Forall2_Some {A B} (f : A -> option B) (l : list A) (l' : list B) :
  Forall2 (fun x y => f x = Some y) l l' -> omap f l = l'.
Proof.
  induction 1 as [|x y l l' Hxy _ IH]; simpl; [done|]. rewrite Hxy. f_equal. exact IH.
Qed.

Lemma omap_None {A B} (f : A -> option B) (l : list A) :
  Forall (fun x => f x = None) l -> omap f l = [].
Proof. induction 1 as [|x l Hx _ IH]; simpl; [done|]. rewrite Hx. exact IH. Qed.

Lemma positions_length (start step : Z) (n : nat) :
  length (listobject.positions start step n) = n.
Proof. unfold listobject.positions. by rewrite length_fmap, length_seq. Qed.

Lemma positions_lookup (start step : Z) (n k : nat) :
  (k < n)%nat ->
  listobject.positions start step n !! k = Some (Z.to_nat (start + Z.of_nat k * step)).
Proof.
  intros Hk. unfold listobject.positions.
  by rewrite list_lookup_fmap, lookup_seq_lt.
Qed.

Lemma positions_forward (n : nat) : listobject.positions 0 1 n = seq 0 n.
Proof.
  unfold listobject.positions. rewrite <- (list_fmap_id (seq 0 n)) at 2.
  apply list_fmap_ext. intros _ k _. simpl. lia.
Qed.

(** The items at every position, front to back and back to front. *)
Lemma items_forward (items : list value) :
  omap (items !!.) (listobject.positions 0 1 (length items)) = items.
Proof.
  apply omap_Forall2_Some, Forall2_same_length_lookup_2.
  - by rewrite positions_length.
  - intros k j v Hj Hv. pose proof (lookup_lt_Some _ _ _ Hv) as Hk.
    rewrite positions_lookup in Hj by done. injection Hj as <-.
    by replace (Z.to_nat (0 + Z.of_nat k * 1)) with k by lia.
Qed.

Lemma items_backward (items : list value) :
  omap (items !!.)
    (listobject.positions (Z.of_nat (length items) - 1) (-1) (length items))
  = reverse items.
Proof.
  apply omap_Forall2_Some, Forall2_same_length_lookup_2.
  - by rewrite positions_length, length_reverse.
  - intros k j v Hj Hv.
    pose proof (lookup_lt_Some _ _ _ Hv) as Hk. rewrite length_reverse in Hk.
    rewrite positions_lookup in Hj by done. injection Hj as <-.
    rewrite reverse_lookup in Hv by done. rewrite <- Hv. f_equal. lia.
Qed.

Lemma items_between (items : list value) (a b : nat) :
  (a <= b <= length items)%nat ->
  omap (items !!.) (listobject.positions (Z.of_nat a) 1 (b - a))
  = take (b - a) (drop a items).
Proof.
  intros Hab. apply omap_Forall2_Some, Forall2_same_length_lookup_2.
  - rewrite positions_length, length_take, length_drop. lia.
  - intros k j v Hj Hv. pose proof (lookup_lt_Some _ _ _ Hv) as Hk.
    rewrite length_take in Hk.
    rewrite positions_lookup in Hj by lia. injection Hj as <-.
    rewrite lookup_take_lt, lookup_drop in Hv by lia.
    rewrite <- Hv. f_equal. lia.
Qed.

Lemma adjust_indices_between (n a b : nat) :
  (a <= b <= n)%nat ->
  listobject.adjust_indices (Z.of_nat n) (Some (Z.of_nat a)) (Some (Z.of_nat b)) 1
  = (Z.of_nat a, Z.of_nat b, (b - a)%nat).
Proof.
  intros Hab. unfold listobject.adjust_indices. simpl.
  assert (Hclip : forall c : nat, (c <= n)%nat ->
            (if Z.of_nat c <? 0
             then (if Z.of_nat c + Z.of_nat n <? 0 then 0 else Z.of_nat c + Z.of_nat n)
             else if Z.of_nat n <=? Z.of_nat c then Z.of_nat n else Z.of_nat c)
            = Z.of_nat c).
  { intros c Hc. assert ((Z.of_nat c <? 0) = false) as -> by (apply Z.ltb_ge; lia).
    destruct (Z.of_nat n <=? Z.of_nat c) eqn:Hn; [|done]. apply Z.leb_le in Hn. lia. }
  rewrite !Hclip by lia.
  destruct (Z.of_nat a <? Z.of_nat b) eqn:Hlt.
  - apply Z.ltb_lt in Hlt. do 2 f_equal. rewrite Z.div_1_r. lia.
  - apply Z.ltb_ge in Hlt. do 2 f_equal. lia.
Qed.

Lemma adjust_indices_forward (n : nat) :
  listobject.adjust_indices (Z.of_nat n) None None 1 = (0, Z.of_nat n, n).
Proof.
  unfold listobject.adjust_indices. simpl.
  destruct (0 <? Z.of_nat n) eqn:Hn.
  - apply Z.ltb_lt in Hn. do 2 f_equal. rewrite Z.div_1_r. lia.
  - apply Z.ltb_ge in Hn. do 2 f_equal. lia.
Qed.

Lemma adjust_indices_backward (n : nat) :
  listobject.adjust_indices (Z.of_nat n) None None (-1) = (Z.of_nat n - 1, -1, n).
Proof.
  unfold listobject.adjust_indices. simpl.
  destruct (-1 <? Z.of_nat n - 1) eqn:Hn.
  - apply Z.ltb_lt in Hn. do 2 f_equal. rewrite Z.div_1_r. lia.
  - apply Z.ltb_ge in Hn. do 2 f_equal. lia.
Qed.

Lemma list_subscript_slice (items : list value) (start stop step : option Z) (s : Z) :
  listobject.slice_step step = Ok s ->
  listobject.list_subscript items (Slice start stop step)
  = Ok (inr (omap (items !!.)
               (listobject.positions
                  (listobject.adjust_indices (Z.of_nat (length items)) start stop s).1.1 s
                  (listobject.adjust_indices (Z.of_nat (length items)) start stop s).2))).
Proof.
  intros Hs. unfold listobject.list_subscript. rewrite Hs.
  unfold mbind, outcome_bind.
  by destruct (listobject.adjust_indices (Z.of_nat (length items)) start stop s) as [[? ?] ?].
Qed.

Lemma getitem_slice_instance (h : heap) (self : addr) (fl : FrozenList)
    (start stop step : option Z) :
  h !! self = Some (FrozenListObject fl) ->
  FrozenList.__getitem__ self (Slice start stop step) h
  = match listobject.list_subscript (_items fl) (Slice start stop step) with
    | Ok (inr vs) => (Ok (VRef (length h)), h ++ [ListObject vs])
    | Ok (inl v) => (Ok v, h)
    | Raise e => (Raise e, h)
    | Diverge => (Diverge, h)
    end.
Proof.
  intros Hself. unfold FrozenList.__getitem__. unfold_M. rewrite Hself.
  by destruct (listobject.list_subscript (_items fl) (Slice start stop step)) as [[?|?]| |].
Qed.

(** X12.  A slice of a [FrozenList], frozen or not, is
    a new plain list, not a [FrozenList], whose items are items of the
    list; the objects that were in the heap are as they were.  [x[:]]
    holds all the items in their order, [x[a:b]] for
    [0 <= a <= b <= len(x)] the items from position [a] up to [b], and
    [x[::-1]] all the items in reverse.  A step of zero raises
    [ValueError]. *)
Theorem slice_is_a_new_plain_list (h : heap) (self : addr) (fl : FrozenList) :
  h !! self = Some (FrozenListObject fl) ->
  (forall start stop step, step <> Some 0 ->
     exists vs, FrozenList.__getitem__ self (Slice start stop step) h
                = (Ok (VRef (length h)), h ++ [ListObject vs])
       /\ forall v, v ∈ vs -> v ∈ _items fl)
  /\ FrozenList.__getitem__ self (Slice None None None) h
     = (Ok (VRef (length h)), h ++ [ListObject (_items fl)])
  /\ (forall a b : nat, (a <= b <= length (_items fl))%nat ->
        FrozenList.__getitem__ self (Slice (Some (Z.of_nat a)) (Some (Z.of_nat b)) None) h
        = (Ok (VRef (length h)), h ++ [ListObject (take (b - a) (drop a (_items fl)))]))
  /\ FrozenList.__getitem__ self (Slice None None (Some (-1))) h
     = (Ok (VRef (length h)), h ++ [ListObject (reverse (_items fl))])
  /\ (forall start stop,
        FrozenList.__getitem__ self (Slice start stop (Some 0)) h = (Raise ValueError, h)).
Proof.
  intros Hself. split; [|split; [|split; [|split]]].
  - intros start stop step Hstep.
    assert (Hs : exists s, listobject.slice_step step = Ok s).
    { destruct step as [[|?|?]|]; try done; by eexists. }
    destruct Hs as [s Hs].
    rewrite (getitem_slice_instance _ _ _ _ _ _ Hself), (list_subscript_slice _ _ _ _ _ Hs).
    eexists. split; [done|].
    intros v (j & _ & Hj)%list_elem_of_omap. by eapply list_elem_of_lookup_2.
  - rewrite (getitem_slice_instance _ _ _ _ _ _ Hself).
    rewrite (list_subscript_slice _ _ _ _ 1) by done.
    rewrite adjust_indices_forward. simpl. by rewrite items_forward.
  - intros a b Hab. rewrite (getitem_slice_instance _ _ _ _ _ _ Hself).
    rewrite (list_subscript_slice _ _ _ _ 1) by done.
    rewrite adjust_indices_between by done. simpl. by rewrite items_between.
  - rewrite (getitem_slice_instance _ _ _ _ _ _ Hself).
    rewrite (list_subscript_slice _ _ _ _ (-1)) by done.
    rewrite adjust_indices_backward. simpl. by rewrite items_backward.
  - intros start stop. by rewrite (getitem_slice_instance _ _ _ _ _ _ Hself).
Qed.

Lemma slice_is_a_new_plain_list_witness :
  FrozenList.__getitem__ 0 (Slice None None None) frozen_123
  = (Ok (VRef 1), frozen_123 ++ [ListObject [VInt 1; VInt 2; VInt 3]])
  /\ FrozenList.__getitem__ 0 (Slice None None (Some (-1))) frozen_123
     = (Ok (VRef 1), frozen_123 ++ [ListObject [VInt 3; VInt 2; VInt 1]])
  /\ FrozenList.__getitem__ 0 (Slice (Some 1) None (Some 0)) frozen_123
     = (Raise ValueError, frozen_123).
Proof.
  destruct (slice_is_a_new_plain_list frozen_123 0 _ eq_refl)
    as (_ & Hall & _ & Hback & Hzero).
  split; [exact Hall|]. split; [exact Hback|]. apply Hzero.
Defined.

(** ** [clear] and the deletion of a slice *)

Lemma on_items_ext {A} (self : addr)
    (f g : heap -> list value -> outcome (A * list value)) (h : heap) :
  (forall items, f h items = g h items) ->
  FrozenList.on_items self f h = FrozenList.on_items self g h.
Proof.
  intros Hfg. destruct (h !! self) as [[?|fl]|] eqn:Hself.
  - unfold FrozenList.on_items. unfold_M. by rewrite Hself.
  - by rewrite !(on_items_instance _ _ _ _ Hself), Hfg.
  - unfold FrozenList.on_items. unfold_M. by rewrite Hself.
Qed.

Lemma guarded_ext {A} (self : addr) (k k' : M A) (h : heap) :
  k h = k' h ->
  (FrozenList._check_frozen self;; k) h = (FrozenList._check_frozen self;; k') h.
Proof.
  intros Hk. unfold mbind, M_bind.
  assert (Hsame : (FrozenList._check_frozen self h).2 = h).
  { unfold FrozenList._check_frozen. unfold_M.
    destruct (h !! self) as [[?|fl]|]; try done. by destruct (_frozen fl). }
  destruct (FrozenList._check_frozen self h) as [[[]|e|] h']; simpl in Hsame;
    by subst.
Qed.

Lemma list_del_subscript_all (items : list value) :
  listobject.list_del_subscript items (Slice None None None) = Ok [].
Proof.
  unfold listobject.list_del_subscript, listobject.slice_step.
  unfold mbind, outcome_bind. rewrite adjust_indices_forward, positions_forward.
  f_equal. apply omap_None, Forall_forall. intros j Hj.
  by rewrite bool_decide_eq_true_2.
Qed.

(** X13.  [del x[:]] is [clear()], on any object and in any
    state.  On a list that is not frozen [clear()] leaves an empty list:
    [len(x)] is 0, [pop()] raises [IndexError], and a second [clear()]
    changes nothing more. *)
Theorem delitem_all_is_clear (h : heap) (self : addr) :
  FrozenList.__delitem__ self (Slice None None None) h = FrozenList.clear self h
  /\ (forall fl, h !! self = Some (FrozenListObject fl) -> _frozen fl = false ->
        (FrozenList.clear self;; FrozenList.__len__ self) h
          = (Ok 0, (FrozenList.clear self h).2)
        /\ ((FrozenList.clear self;; FrozenList.pop_default self) h).1 = Raise IndexError
        /\ (FrozenList.clear self;; FrozenList.clear self) h = FrozenList.clear self h).
Proof.
  split.
  - unfold FrozenList.__delitem__, FrozenList.clear.
    apply guarded_ext, on_items_ext. intros items.
    by rewrite list_del_subscript_all.
  - intros fl Hself Hfr.
    pose proof (lookup_set_items h self fl [] Hself) as Hself'.
    assert (Hclear : FrozenList.clear self h
              = (Ok tt, <[self := FrozenListObject (FrozenList.set_items [] fl)]> h)).
    { unfold FrozenList.clear.
      by rewrite (guarded_unfrozen _ _ _ _ Hself Hfr), (on_items_instance _ _ _ _ Hself). }
    split; [|split].
    + unfold mbind at 1. unfold M_bind. rewrite Hclear.
      by rewrite (len_instance _ _ _ Hself').
    + unfold mbind at 1. unfold M_bind. rewrite Hclear.
      unfold FrozenList.pop_default, FrozenList.pop.
      by rewrite (guarded_unfrozen _ _ _ _ Hself' Hfr), (on_items_instance _ _ _ _ Hself').
    + unfold mbind at 1. unfold M_bind. rewrite Hclear.
      unfold FrozenList.clear.
      rewrite (guarded_unfrozen _ _ _ _ Hself' Hfr), (on_items_instance _ _ _ _ Hself').
      simpl. by rewrite list_insert_insert_eq.
Qed.

Lemma delitem_all_is_clear_witness :
  FrozenList.__delitem__ 0 (Slice None None None) unfrozen_12 = (Ok tt, unfrozen_empty)
  /\ (FrozenList.clear 0;; FrozenList.__len__ 0) unfrozen_12 = (Ok 0, unfrozen_empty).
Proof.
  destruct (delitem_all_is_clear unfrozen_12 0) as (Hdel & Hlater).
  split; [by rewrite Hdel|].
  by rewrite (proj1 (Hlater _ eq_refl eq_refl)).
Defined.

(** ** [extend], [+=] and the assignment of a slice *)

Lemma iterate_object (h : heap) (y : addr) (o : object) :
  h !! y = Some o -> iterate h (VRef y) = Ok (object_items o).
Proof. intros Hy. unfold iterate. by rewrite Hy. Qed.

Lemma iterate_atom (h : heap) (v : value) : atom v = true -> iterate h v = Raise TypeError.
Proof. by destruct v. Qed.

Lemma extend_other (h : heap) (self y : addr) (o : object) (items : list value) :
  h !! y = Some o -> y <> self ->
  listobject.extend h self items (VRef y) = Ok (items ++ object_items o).
Proof.
  intros Hy Hne. unfold listobject.extend. rewrite Hy.
  destruct o as [vs|fly]; [done|]. by rewrite bool_decide_eq_false_2.
Qed.

Lemma extend_atom (h : heap) (self : addr) (items : list value) (v : value) :
  atom v = true -> listobject.extend h self items v = Raise TypeError.
Proof. by destruct v. Qed.

(** X14.  On a list [x] that is not frozen, [x.extend(y)] for
    another list or [FrozenList] [y] appends the items of [y] to those
    of [x]; [x += y] does the same and returns [x].  [y] is left as it
    was, and [len(x)] grows by [len(y)].  Extending by [None] or by an
    integer raises [TypeError] and changes nothing. *)
Theorem extend_appends (h : heap) (self y : addr) (fl : FrozenList) (o : object) :
  h !! self = Some (FrozenListObject fl) -> _frozen fl = false ->
  h !! y = Some o -> y <> self ->
  let h' := <[self := FrozenListObject
                        (FrozenList.set_items (_items fl ++ object_items o) fl)]> h in
  FrozenList.extend self (VRef y) h = (Ok tt, h')
  /\ FrozenList.__iadd__ self (VRef y) h = (Ok self, h')
  /\ h' !! y = Some o
  /\ FrozenList.__len__ self h'
     = (Ok (Z.of_nat (length (_items fl)) + Z.of_nat (length (object_items o))), h')
  /\ (forall v, atom v = true ->
        FrozenList.extend self v h = (Raise TypeError, h)
        /\ FrozenList.__iadd__ self v h = (Raise TypeError, h)).
Proof.
  intros Hself Hfr Hy Hne h'.
  pose proof (lookup_set_items h self fl (_items fl ++ object_items o) Hself) as Hself'.
  fold h' in Hself'.
  split; [|split; [|split; [|split]]].
  - unfold FrozenList.extend.
    rewrite (guarded_unfrozen _ _ _ _ Hself Hfr), (on_items_instance _ _ _ _ Hself).
    by rewrite (extend_other _ _ _ _ _ Hy Hne).
  - unfold FrozenList.__iadd__.
    rewrite (guarded_unfrozen _ _ _ _ Hself Hfr). unfold mbind at 1. unfold M_bind.
    rewrite (on_items_instance _ _ _ _ Hself).
    by rewrite (extend_other _ _ _ _ _ Hy Hne).
  - unfold h'. by rewrite list_lookup_insert_ne.
  - rewrite (len_instance _ _ _ Hself'). simpl. rewrite length_app.
    do 2 f_equal. lia.
  - intros v Hv. split.
    + unfold FrozenList.extend.
      rewrite (guarded_unfrozen _ _ _ _ Hself Hfr), (on_items_instance _ _ _ _ Hself).
      by rewrite (extend_atom _ _ _ _ Hv).
    + unfold FrozenList.__iadd__.
      rewrite (guarded_unfrozen _ _ _ _ Hself Hfr). unfold mbind at 1. unfold M_bind.
      rewrite (on_items_instance _ _ _ _ Hself).
      by rewrite (extend_atom _ _ _ _ Hv).
Qed.

Lemma extend_appends_witness :
  let h := [FrozenListObject {| _frozen := false; _items := [VInt 1] |};
            FrozenListObject {| _frozen := true; _items := [VInt 2; VInt 3] |}] in
  let h' := [FrozenListObject {| _frozen := false; _items := [VInt 1; VInt 2; VInt 3] |};
             FrozenListObject {| _frozen := true; _items := [VInt 2; VInt 3] |}] in
  FrozenList.extend 0 (VRef 1) h = (Ok tt, h')
  /\ FrozenList.__iadd__ 0 (VRef 1) h = (Ok 0%nat, h')
  /\ FrozenList.extend 0 VNone h = (Raise TypeError, h).
Proof.
  intros h h'.
  destruct (extend_appends h 0 1 _ _ eq_refl eq_refl eq_refl ltac:(done))
    as (Hextend & Hiadd & _ & _ & Hatom).
  split; [exact Hextend|]. split; [exact Hiadd|]. by apply Hatom.
Defined.

#[local] Arguments listobject.adjust_indices : simpl never.

Lemma setitem_slice_instance (h : heap) (self : addr) (fl : FrozenList)
    (start stop : option Z) (v : value) :
  h !! self = Some (FrozenListObject fl) -> _frozen fl = false ->
  FrozenList.__setitem__ self (Slice start stop None) v h
  = match iterate h v with
    | Ok vs =>
        let bounds :=
          listobject.adjust_indices (Z.of_nat (length (_items fl))) start stop 1 in
        (Ok tt,
         <[self := FrozenListObject
                     (FrozenList.set_items
                        (take (Z.to_nat bounds.1.1) (_items fl) ++ vs
                         ++ drop (Z.to_nat (Z.max bounds.1.1 bounds.1.2)) (_items fl)) fl)]> h)
    | Raise e => (Raise e, h)
    | Diverge => (Diverge, h)
    end.
Proof.
  intros Hself Hfr. unfold FrozenList.__setitem__.
  rewrite (guarded_unfrozen _ _ _ _ Hself Hfr), (on_items_instance _ _ _ _ Hself).
  unfold listobject.list_ass_subscript, listobject.slice_step. simpl.
  destruct (listobject.adjust_indices (Z.of_nat (length (_items fl))) start stop 1)
    as [[start' stop'] n].
  by destruct (iterate h v) as [vs| |].
Qed.

(** The one position that [x[i:i]] stands for is the position at which
    [insert(i, v)] inserts. *)
Lemma adjust_indices_point (n i : Z) :
  0 <= n ->
  (listobject.adjust_indices n (Some i) (Some i) 1).1
  = (if i <? 0 then Z.max 0 (i + n) else Z.min i n,
     if i <? 0 then Z.max 0 (i + n) else Z.min i n).
Proof.
  intros Hn. unfold listobject.adjust_indices. simpl.
  destruct (i <? 0) eqn:Hneg.
  - destruct (i + n <? 0) eqn:Hlow.
    + apply Z.ltb_lt in Hlow. by rewrite Z.max_l by lia.
    + apply Z.ltb_ge in Hlow. by rewrite Z.max_r by lia.
  - apply Z.ltb_ge in Hneg. destruct (n <=? i) eqn:Hhigh.
    + apply Z.leb_le in Hhigh. by rewrite Z.min_r by lia.
    + apply Z.leb_gt in Hhigh. by rewrite Z.min_l by lia.
Qed.

(** X15.  Assignment to a slice of a list [x] that is not frozen,
    from a list or [FrozenList] [y], which may be [x] itself.
    [x[:] = y] gives [x] the items of [y], after which [x == y].
    [x[len(x):] = y] appends the items of [y] to those of [x]: for [y]
    other than [x] that is [x.extend(y)]; for [y] the list [x] itself,
    not empty, it doubles the list, where [x.extend(x)] does not come
    back.  [x[i:i] = [v]] is [x.insert(i, v)] for every [i] that fits
    the C type of indexes.  Assigning [None] or an integer to a slice
    raises [TypeError] and changes nothing. *)
Theorem setitem_slice (depth : nat) (h : heap) (self y : addr) (fl : FrozenList)
    (o : object) :
  h !! self = Some (FrozenListObject fl) -> _frozen fl = false -> h !! y = Some o ->
  let n := Z.of_nat (length (_items fl)) in
  (let h' := <[self := FrozenListObject (FrozenList.set_items (object_items o) fl)]> h in
   FrozenList.__setitem__ self (Slice None None None) (VRef y) h = (Ok tt, h')
   /\ FrozenList.richcmp depth self (VRef y) Py_EQ h' = (Ok true, h'))
  /\ FrozenList.__setitem__ self (Slice (Some n) None None) (VRef y) h
     = (Ok tt, <[self := FrozenListObject
                           (FrozenList.set_items (_items fl ++ object_items o) fl)]> h)
  /\ (y <> self ->
      FrozenList.extend self (VRef y) h
      = FrozenList.__setitem__ self (Slice (Some n) None None) (VRef y) h)
  /\ (y = self -> _items fl <> [] ->
      FrozenList.extend self (VRef y) h = (Diverge, h))
  /\ (forall i v, o = ListObject [v] ->
        - PY_SSIZE_T_MAX - 1 <= i <= PY_SSIZE_T_MAX ->
        FrozenList.__setitem__ self (Slice (Some i) (Some i) None) (VRef y) h
        = FrozenList.insert self i v h)
  /\ (forall start stop v, atom v = true ->
        FrozenList.__setitem__ self (Slice start stop None) v h = (Raise TypeError, h)).
Proof.
  intros Hself Hfr Hy n.
  assert (Hend : FrozenList.__setitem__ self (Slice (Some n) None None) (VRef y) h
            = (Ok tt, <[self := FrozenListObject
                                  (FrozenList.set_items (_items fl ++ object_items o) fl)]> h)).
  { rewrite (setitem_slice_instance _ _ _ _ _ _ Hself Hfr), (iterate_object _ _ _ Hy).
    unfold listobject.adjust_indices. fold n. simpl.
    assert ((n <? 0) = false) as -> by (apply Z.ltb_ge; lia).
    rewrite Z.leb_refl. rewrite Z.max_id. unfold n.
    by rewrite Nat2Z.id, firstn_all, drop_all, app_nil_r. }
  split; [|split; [|split; [|split; [|split]]]].
  - intros h'.
    assert (Hset : FrozenList.__setitem__ self (Slice None None None) (VRef y) h = (Ok tt, h')).
    { rewrite (setitem_slice_instance _ _ _ _ _ _ Hself Hfr), (iterate_object _ _ _ Hy).
      rewrite adjust_indices_forward. simpl.
      rewrite Z.max_r by lia. rewrite Nat2Z.id, drop_all. by rewrite app_nil_r. }
    split; [done|].
    pose proof (lookup_set_items h self fl (object_items o) Hself) as Hself'.
    fold h' in Hself'.
    assert (Hy' : exists o', h' !! y = Some o' /\ object_items o' = object_items o).
    { destruct (decide (y = self)) as [->|Hne].
      - eexists. split; [exact Hself'|done].
      - exists o. split; [|done]. unfold h'. by rewrite list_lookup_insert_ne. }
    destruct Hy' as (o' & Hy' & Hitems).
    rewrite (richcmp_instance _ _ _ _ _ _ _ Hself' Hy'). simpl.
    by rewrite Hitems, list_richcompare_same.
  - exact Hend.
  - intros Hne. rewrite Hend. unfold FrozenList.extend.
    rewrite (guarded_unfrozen _ _ _ _ Hself Hfr), (on_items_instance _ _ _ _ Hself).
    by rewrite (extend_other _ _ _ _ _ Hy Hne).
  - intros -> Hitems. unfold FrozenList.extend.
    rewrite (guarded_unfrozen _ _ _ _ Hself Hfr), (on_items_instance _ _ _ _ Hself).
    unfold listobject.extend. rewrite Hself.
    rewrite bool_decide_eq_true_2 by done. by rewrite bool_decide_eq_false_2.
  - intros i v -> Hi.
    rewrite (setitem_slice_instance _ _ _ _ _ _ Hself Hfr), (iterate_object _ _ _ Hy).
    rewrite (insert_instance _ _ _ _ _ Hself Hfr Hi).
    cbv zeta. fold n. rewrite adjust_indices_point by lia. simpl.
    rewrite Z.max_id. unfold listobject.PyList_Insert. by fold n.
  - intros start stop v Hv.
    by rewrite (setitem_slice_instance _ _ _ _ _ _ Hself Hfr), (iterate_atom _ _ Hv).
Qed.

Lemma setitem_slice_witness :
  let h := [FrozenListObject {| _frozen := false; _items := [VInt 1; VInt 2] |};
            ListObject [VInt 7]] in
  let h' := [FrozenListObject {| _frozen := false; _items := [VInt 7] |};
             ListObject [VInt 7]] in
  FrozenList.__setitem__ 0 (Slice None None None) (VRef 1) h = (Ok tt, h')
  /\ FrozenList.richcmp 0 0 (VRef 1) Py_EQ h' = (Ok true, h')
  /\ FrozenList.__setitem__ 0 (Slice (Some (-5)) (Some (-5)) None) (VRef 1) h
     = FrozenList.insert 0 (-5) (VInt 7) h
  /\ FrozenList.extend 0 (VRef 1) h
     = FrozenList.__setitem__ 0 (Slice (Some 2) None None) (VRef 1) h
  /\ FrozenList.__setitem__ 0 (Slice (Some 2) None None) (VRef 0) h
     = (Ok tt, [FrozenListObject
                  {| _frozen := false; _items := [VInt 1; VInt 2; VInt 1; VInt 2] |};
                ListObject [VInt 7]])
  /\ FrozenList.extend 0 (VRef 0) h = (Diverge, h).
Proof.
  intros h h'.
  destruct (setitem_slice 0 h 0 1 _ _ eq_refl eq_refl eq_refl)
    as ((Hset & Heq) & _ & Hextend & _ & Hinsert & _).
  destruct (setitem_slice 0 h 0 0 _ _ eq_refl eq_refl eq_refl)
    as (_ & Hdouble & _ & Hself & _).
  split; [exact Hset|]. split; [exact Heq|].
  split; [apply Hinsert; [done|unfold PY_SSIZE_T_MAX; lia]|].
  split; [by apply Hextend|].
  split; [exact Hdouble|]. by apply Hself.
Defined.

(** ** Construction without items *)

(** X16.  [FrozenList()], which is [FrozenList(None)], is a
    new list that is empty and not frozen.  [FrozenList(v)] for an
    integer [v] raises [TypeError].  Either way every object that was in
    the heap is as it was. *)
Theorem new_without_items (h : heap) :
  let x := length h in
  let h' := h ++ [FrozenListObject FrozenList.blank] in
  FrozenList.new VNone h = (Ok x, h')
  /\ FrozenList.frozen x h' = (Ok false, h')
  /\ FrozenList.__len__ x h' = (Ok 0, h')
  /\ (forall v, atom v = true -> v <> VNone -> FrozenList.new v h = (Raise TypeError, h')).
Proof.
  intros x h'.
  assert (Hx : h' !! x = Some (FrozenListObject FrozenList.blank))
    by (by apply list_lookup_middle).
  assert (Hid : <[x := FrozenListObject FrozenList.blank]> h' = h')
    by (by apply list_insert_id).
  split; [|split; [|split]].
  - unfold FrozenList.new, FrozenList.__init__. unfold_M. fold x h'.
    rewrite Hx. simpl.
    change (FrozenList.set_frozen false FrozenList.blank) with FrozenList.blank.
    rewrite Hid, Hx.
    change (FrozenList.set_items [] FrozenList.blank) with FrozenList.blank.
    by rewrite Hid.
  - unfold FrozenList.frozen. unfold_M. by rewrite Hx.
  - by rewrite (len_instance _ _ _ Hx).
  - intros v Hv Hnone.
    unfold FrozenList.new, FrozenList.__init__, FrozenList.PySequence_List. unfold_M.
    fold x h'. rewrite Hx. simpl.
    change (FrozenList.set_frozen false FrozenList.blank) with FrozenList.blank.
    rewrite Hid.
    rewrite bool_decide_eq_true_2 by done. by rewrite (iterate_atom _ _ Hv).
Qed.

Lemma new_without_items_witness :
  FrozenList.new VNone [] = (Ok 0%nat, unfrozen_empty)
  /\ FrozenList.new (VInt 5) [] = (Raise TypeError, unfrozen_empty).
Proof.
  destruct (new_without_items []) as (Hnew & _ & _ & Hatom).
  split; [exact Hnew|]. by apply Hatom.
Defined.

(** ** More on comparison *)

Lemma list_richcompare_identical (item_cmp : value -> value -> cmp_op -> outcome bool)
    (vs : list value) (op : cmp_op) :
  list_richcompare item_cmp vs vs op = Ok (op_holds op Eq).
Proof.
  unfold list_richcompare.
  rewrite bool_decide_eq_false_2 by (intros Hne; by apply Hne). simpl.
  rewrite first_difference_same. simpl.
  rewrite lookup_ge_None_2 by lia.
  by rewrite Z_richcompare_holds, Z.compare_refl.
Qed.

(** X17.  A [FrozenList] compares equal to itself, and to
    every list or [FrozenList] that holds the very same items in the same
    order: [==], [<=] and [>=] are true, [!=], [<] and [>] are false.
    No item is compared for this, so it holds also of a list that
    contains itself, and however little room the stack has. *)
Theorem richcmp_same_items (depth : nat) (h : heap) (x y : addr) (fl : FrozenList)
    (o : object) (op : cmp_op) :
  h !! x = Some (FrozenListObject fl) ->
  (FrozenList.richcmp depth x (VRef x) op h = (Ok (op_holds op Eq), h))
  /\ (h !! y = Some o -> object_items o = _items fl ->
      FrozenList.richcmp depth x (VRef y) op h = (Ok (op_holds op Eq), h)).
Proof.
  intros Hx. split.
  - rewrite (richcmp_instance _ _ _ _ _ _ _ Hx Hx). simpl.
    by rewrite list_richcompare_identical.
  - intros Hy Hitems. rewrite (richcmp_instance _ _ _ _ _ _ _ Hx Hy).
    by rewrite Hitems, list_richcompare_identical.
Qed.

Lemma richcmp_same_items_witness :
  FrozenList.richcmp 0 0 (VRef 0) Py_EQ knot = (Ok true, knot)
  /\ FrozenList.richcmp 0 0 (VRef 0) Py_LT knot = (Ok false, knot)
  /\ FrozenList.richcmp 0 0 (VRef 2) Py_LE two_lists = (Ok true, two_lists).
Proof.
  split; [|split].
  - apply (proj1 (richcmp_same_items 0 knot 0 0 _ (ListObject []) Py_EQ eq_refl)).
  - apply (proj1 (richcmp_same_items 0 knot 0 0 _ (ListObject []) Py_LT eq_refl)).
  - apply (proj2 (richcmp_same_items 0 two_lists 0 2 _ _ Py_LE eq_refl) eq_refl eq_refl).
Defined.

(** X18.  Compared with [None] or with an integer, a
    [FrozenList] is not equal ([==] is false and [!=] is true), and each
    of the four orderings raises [TypeError]. *)
Theorem richcmp_with_atom (depth : nat) (h : heap) (x : addr) (fl : FrozenList)
    (v : value) (op : cmp_op) :
  h !! x = Some (FrozenListObject fl) -> atom v = true ->
  FrozenList.richcmp depth x v op h
  = (match op with
     | Py_EQ => Ok false
     | Py_NE => Ok true
     | _ => Raise TypeError
     end, h).
Proof.
  intros Hx Hv. unfold FrozenList.richcmp. unfold_M. rewrite Hx.
  rewrite richcmp_list_compare_to. unfold list_compare_to.
  destruct v; try done; by destruct op.
Qed.

Lemma richcmp_with_atom_witness :
  FrozenList.richcmp 0 0 VNone Py_EQ frozen_123 = (Ok false, frozen_123)
  /\ FrozenList.richcmp 0 0 (VInt 3) Py_LT frozen_123 = (Raise TypeError, frozen_123).
Proof.
  split.
  - apply (richcmp_with_atom 0 frozen_123 0 _ VNone Py_EQ eq_refl eq_refl).
  - apply (richcmp_with_atom 0 frozen_123 0 _ (VInt 3) Py_LT eq_refl eq_refl).
Defined.

(** X19.  For two [FrozenList]s, [x op y] is [y op' x], where
    [op'] is [op] read from the other side ([>] for [<], [>=] for [<=],
    [==] and [!=] for themselves): the same result, or the same
    exception. *)
Theorem richcmp_converse (depth : nat) (h : heap) (x y : addr) (flx fly : FrozenList)
    (op : cmp_op) :
  h !! x = Some (FrozenListObject flx) -> h !! y = Some (FrozenListObject fly) ->
  FrozenList.richcmp depth x (VRef y) op h
  = FrozenList.richcmp depth y (VRef x) (swapped_op op) h.
Proof.
  intros Hx Hy.
  rewrite (richcmp_instance _ _ _ _ _ _ _ Hx Hy), (richcmp_instance _ _ _ _ _ _ _ Hy Hx).
  simpl. f_equal. symmetry.
  apply list_richcompare_swapped. intros v w op'. apply PyObject_RichCompare_swapped.
Qed.

Lemma richcmp_converse_witness :
  FrozenList.richcmp 0 0 (VRef 2) Py_GT comparands = (Ok true, comparands)
  /\ FrozenList.richcmp 0 2 (VRef 0) Py_LT comparands = (Ok true, comparands).
Proof.
  split; [reflexivity|].
  by rewrite (richcmp_converse 0 comparands 2 0 _ _ Py_LT eq_refl eq_refl).
Defined.

(** ** Reading a list, frozen or not *)

Section search_ext.
Variables item_eq item_eq' : value -> value -> outcome bool.
Hypothesis item_eq_ext : forall u v, item_eq u v = item_eq' u v.


End search_ext.






(** X21.  [freeze()] changes the flag of its list
    and nothing else: the items of every list, and every object but the
    list itself, are what they were. *)
Theorem freeze_changes_only_the_flag (h : heap) (x : addr) :
  erase_flags (FrozenList.freeze x h).2 = erase_flags h
  /\ (forall a, contents (FrozenList.freeze x h).2 a = contents h a)
  /\ (forall a, a <> x -> (FrozenList.freeze x h).2 !! a = h !! a).
Proof.
  destruct (h !! x) as [[?|fl]|] eqn:Hx.
  - unfold FrozenList.freeze. unfold_M. by rewrite Hx.
  - rewrite (freeze_instance _ _ _ Hx). simpl. split; [|split].
    + unfold erase_flags. rewrite list_fmap_insert. apply list_insert_id.
      rewrite list_lookup_fmap, Hx. done.
    + intros a. unfold contents. destruct (decide (a = x)) as [->|Hne].
      * rewrite list_lookup_insert_eq by (by eapply lookup_lt_Some). by rewrite Hx.
      * by rewrite list_lookup_insert_ne.
    + intros a Hne. by rewrite list_lookup_insert_ne.
  - unfold FrozenList.freeze. unfold_M. by rewrite Hx.
Qed.

Lemma freeze_changes_only_the_flag_witness :
  erase_flags (FrozenList.freeze 0 unfrozen_12).2 = erase_flags unfrozen_12
  /\ contents (FrozenList.freeze 0 unfrozen_12).2 0 = Some [VInt 1; VInt 2].
Proof.
  destruct (freeze_changes_only_the_flag unfrozen_12 0) as (Hflags & Hitems & _).
  split; [exact Hflags|]. by rewrite Hitems.
Defined.

(** ** [repr] *)

(** X22.  The representation shows the flag: two [FrozenList]s
    with the same [repr] are both frozen, or neither is. *)
Theorem repr_tells_frozen (repr_list repr_list' : heap -> list value -> outcome string)
    (h h' : heap) (x y : addr) (flx fly : FrozenList) (s : string) :
  h !! x = Some (FrozenListObject flx) -> h' !! y = Some (FrozenListObject fly) ->
  FrozenList.__repr__ repr_list x h = (Ok s, h) ->
  FrozenList.__repr__ repr_list' y h' = (Ok s, h') ->
  _frozen flx = _frozen fly.
Proof.
  intros Hx Hy. unfold FrozenList.__repr__. unfold_M. rewrite Hx, Hy.
  destruct (repr_list h (_items flx)) as [r| |]; try done.
  destruct (repr_list' h' (_items fly)) as [r'| |]; try done.
  intros [= <-] [= Hs].
  destruct (_frozen flx), (_frozen fly); try done; simpl in Hs; discriminate.
Qed.

Lemma repr_tells_frozen_witness :
  FrozenList.__repr__ constant_repr 0 two_lists = (Ok "<FrozenList(frozen=True, [...])>", two_lists)
  /\ _frozen {| _frozen := true; _items := [VInt 1; VInt 2] |}
     = _frozen {| _frozen := true; _items := [VInt 1; VInt 2] |}.
Proof.
  split; [reflexivity|].
  apply (repr_tells_frozen constant_repr constant_repr two_lists two_lists 0 1 _ _
           "<FrozenList(frozen=True, [...])>" eq_refl eq_refl eq_refl eq_refl).
Defined.

(** ** What a call changes *)

Lemma untouched_refl (n : nat) (h : heap) : (n <= length h)%nat -> untouched n h h.
Proof. by split. Qed.

Lemma untouched_trans (n : nat) (h1 h2 h3 : heap) :
  untouched n h1 h2 -> untouched n h2 h3 -> untouched n h1 h3.
Proof.
  intros [_ H12] [Hlen H23]. split; [done|]. intros a Ha. by rewrite H23, H12.
Qed.

Lemma untouched_app (n : nat) (h new : heap) :
  (n <= length h)%nat -> untouched n h (h ++ new).
Proof.
  intros Hn. split; [rewrite length_app; lia|].
  intros a Ha. apply lookup_app_l. lia.
Qed.

Lemma untouched_insert (n : nat) (h : heap) (y : addr) (o : object) :
  (n <= length h)%nat -> (n <= y)%nat -> untouched n h (<[y := o]> h).
Proof.
  intros Hn Hy. split; [by rewrite length_insert|].
  intros a Ha. apply list_lookup_insert_ne. lia.
Qed.

Lemma writes_above_ret {A} (n : nat) (a : A) (P : A -> Prop) :
  P a -> writes_above n (mret a) P.
Proof.
  intros Ha h Hn. split; [by apply untouched_refl|]. by intros a' [= <-].
Qed.

Lemma writes_above_raise {A} (n : nat) (e : exn) (P : A -> Prop) :
  writes_above n (raise e) P.
Proof. intros h Hn. split; [by apply untouched_refl|done]. Qed.

Lemma writes_above_get_heap (n : nat) : writes_above n get_heap (fun _ => True).
Proof. intros h Hn. split; [by apply untouched_refl|done]. Qed.

Lemma writes_above_load (n : nat) (self : addr) :
  writes_above n (load self) (fun _ => True).
Proof.
  intros h Hn. unfold load. destruct (h !! self) as [[?|?]|]; simpl;
    (split; [by apply untouched_refl|done]).
Qed.

Lemma writes_above_alloc (n : nat) (o : object) :
  writes_above n (alloc o) (fun y => (n <= y)%nat).
Proof.
  intros h Hn. split; [by apply untouched_app|]. by intros a [= <-].
Qed.

Lemma writes_above_store (n : nat) (y : addr) (fl : FrozenList) :
  (n <= y)%nat -> writes_above n (store y fl) (fun _ => True).
Proof. intros Hy h Hn. split; [by apply untouched_insert|done]. Qed.

Lemma writes_above_bind {A B} (n : nat) (m : M A) (k : A -> M B)
    (P : A -> Prop) (Q : B -> Prop) :
  writes_above n m P -> (forall a, P a -> writes_above n (k a) Q) ->
  writes_above n (m ≫= k) Q.
Proof.
  intros Hm Hk h Hn. unfold mbind, M_bind.
  destruct (Hm h Hn) as [Hun HP].
  destruct (m h) as [[a|e|] h'] eqn:Hrun; simpl in *; [|done..].
  destruct (Hk a (HP a eq_refl) h' (proj1 Hun)) as [Hun' HQ].
  split; [by eapply untouched_trans|done].
Qed.

Lemma writes_above_freeze (n : nat) (y : addr) :
  (n <= y)%nat -> writes_above n (FrozenList.freeze y) (fun _ => True).
Proof.
  intros Hy. unfold FrozenList.freeze.
  eapply writes_above_bind; [apply writes_above_load|].
  intros fl _. by apply writes_above_store.
Qed.

Lemma writes_above_on_items {A} (n : nat) (y : addr)
    (method : heap -> list value -> outcome (A * list value)) :
  (n <= y)%nat -> writes_above n (FrozenList.on_items y method) (fun _ => True).
Proof.
  intros Hy h Hn. destruct (h !! y) as [[?|fl]|] eqn:Hself.
  - unfold FrozenList.on_items. unfold_M. rewrite Hself.
    split; [by apply untouched_refl|done].
  - rewrite (on_items_instance _ _ _ _ Hself).
    destruct (method h (_items fl)) as [[r items]| |]; simpl;
      (split; [|done]); first [by apply untouched_insert|by apply untouched_refl].
  - unfold FrozenList.on_items. unfold_M. rewrite Hself.
    split; [by apply untouched_refl|done].
Qed.

Lemma writes_above_list_append (n : nat) (y : addr) (v : value) :
  (n <= y)%nat -> writes_above n (FrozenList.list_append y v) (fun _ => True).
Proof.
  intros Hy h Hn. unfold FrozenList.list_append.
  destruct (h !! y) as [[?|?]|]; simpl;
    (split; [|done]); first [by apply untouched_insert|by apply untouched_refl].
Qed.

Lemma writes_above___init__ (n : nat) (self : addr) (items : value) :
  (n <= self)%nat -> writes_above n (FrozenList.__init__ self items) (fun _ => True).
Proof.
  intros Hself. unfold FrozenList.__init__.
  eapply writes_above_bind; [apply writes_above_load|]. intros fl _.
  eapply writes_above_bind; [by apply writes_above_store|]. intros _ _.
  eapply (writes_above_bind _ _ _ (fun _ => True)).
  - case_bool_decide; [|by apply writes_above_ret].
    unfold FrozenList.PySequence_List.
    eapply writes_above_bind; [apply writes_above_get_heap|]. intros h _.
    intros h' Hn. split; [by apply untouched_refl|done].
  - intros vs _. eapply writes_above_bind; [apply writes_above_load|].
    intros fl' _. by apply writes_above_store.
Qed.

Lemma writes_above_new (n : nat) (items : value) :
  writes_above n (FrozenList.new items) (fun y => (n <= y)%nat).
Proof.
  unfold FrozenList.new.
  eapply writes_above_bind; [apply writes_above_alloc|]. intros self Hself.
  eapply writes_above_bind; [by apply writes_above___init__|]. intros _ _.
  by apply writes_above_ret.
Qed.

Section writes_above_deep_copy.
Variable n : nat.
Variable deepcopy : value -> FrozenList.memo -> M (value * FrozenList.memo).
Hypothesis writes_above_deepcopy : forall x m, writes_above n (deepcopy x m) (fun _ => True).

Lemma writes_above_deepcopy_items (items : list value) (m : FrozenList.memo) :
  writes_above n (FrozenList.deepcopy_items deepcopy items m) (fun _ => True).
Proof using writes_above_deepcopy.
  revert m. induction items as [|item rest IH]; intros m; simpl.
  - by apply writes_above_ret.
  - eapply writes_above_bind; [apply writes_above_deepcopy|]. intros [v m'] _.
    eapply writes_above_bind; [apply IH|]. intros [vs m''] _.
    by apply writes_above_ret.
Qed.

Lemma writes_above_deepcopy_into (y : addr) (items : list value) (m : FrozenList.memo) :
  (n <= y)%nat ->
  writes_above n (FrozenList.deepcopy_into deepcopy y items m) (fun _ => True).
Proof using writes_above_deepcopy.
  intros Hy. revert m. induction items as [|item rest IH]; intros m; simpl.
  - by apply writes_above_ret.
  - eapply writes_above_bind; [apply writes_above_deepcopy|]. intros [v m'] _.
    eapply writes_above_bind; [by apply writes_above_list_append|]. intros _ _.
    apply IH.
Qed.

Lemma writes_above__deepcopy_list (x : addr) (items : list value) (m : FrozenList.memo) :
  writes_above n (FrozenList._deepcopy_list deepcopy x items m) (fun _ => True).
Proof using writes_above_deepcopy.
  unfold FrozenList._deepcopy_list.
  eapply writes_above_bind; [apply writes_above_alloc|]. intros y Hy.
  eapply writes_above_bind; [by apply writes_above_deepcopy_into|]. intros m' _.
  by apply writes_above_ret.
Qed.

Lemma writes_above___deepcopy__ (self : addr) (m : FrozenList.memo) :
  writes_above n (FrozenList.__deepcopy__ deepcopy self m) (fun _ => True).
Proof using writes_above_deepcopy.
  unfold FrozenList.__deepcopy__.
  eapply writes_above_bind; [apply writes_above_load|]. intros _ _.
  destruct (m !! self); [by apply writes_above_ret|].
  eapply writes_above_bind; [apply writes_above_alloc|]. intros arg _.
  eapply writes_above_bind; [apply writes_above_new|]. intros new_list Hnew.
  eapply writes_above_bind; [apply writes_above_load|]. intros fl _.
  eapply writes_above_bind; [apply writes_above_deepcopy_items|]. intros [copies m'] _.
  eapply writes_above_bind; [by apply writes_above_on_items|]. intros _ _.
  eapply writes_above_bind; [apply writes_above_load|]. intros fl' _.
  eapply (writes_above_bind _ _ _ (fun _ => True)).
  - destruct (_frozen fl'); [by apply writes_above_freeze|by apply writes_above_ret].
  - intros _ _. by apply writes_above_ret.
Qed.
End writes_above_deep_copy.

(** A deep copy writes only to the objects that it makes. *)
Lemma writes_above_deepcopy (n depth : nat) (x : value) (m : FrozenList.memo) :
  writes_above n (FrozenList.deepcopy depth x m) (fun _ => True).
Proof.
  revert x m. induction depth as [|depth IH]; intros x m;
    destruct x as [|z|d|t]; simpl; try (by apply writes_above_ret).
  - destruct (m !! d); [by apply writes_above_ret|apply writes_above_raise].
  - destruct (m !! d); [by apply writes_above_ret|].
    eapply writes_above_bind; [apply writes_above_get_heap|]. intros h _.
    eapply (writes_above_bind _ _ _ (fun _ => True)).
    + destruct (h !! d) as [[items|fl]|].
      * by apply writes_above__deepcopy_list.
      * by apply writes_above___deepcopy__.
      * apply writes_above_raise.
    + intros [y m'] _. by apply writes_above_ret.
Qed.









(** ** The memo of a deep copy *)

Section memo_grows.
Variable deepcopy : value -> FrozenList.memo -> M (value * FrozenList.memo).
Hypothesis deepcopy_grows : forall x m h v m' h',
  deepcopy x m h = (Ok (v, m'), h') -> m ⊆ m'.

Lemma deepcopy_items_grows (items : list value) (m : FrozenList.memo) (h : heap)
    (vs : list value) (m' : FrozenList.memo) (h' : heap) :
  FrozenList.deepcopy_items deepcopy items m h = (Ok (vs, m'), h') -> m ⊆ m'.
Proof using deepcopy_grows.
  revert m h vs. induction items as [|item rest IH]; intros m h vs Hrun; simpl in Hrun.
  - by injection Hrun as _ <- _.
  - unfold mbind at 1 in Hrun. unfold M_bind in Hrun.
    destruct (deepcopy item m h) as [[[v m1]|?|] h1] eqn:H1; try done.
    unfold mbind at 1 in Hrun. unfold M_bind in Hrun.
    destruct (FrozenList.deepcopy_items deepcopy rest m1 h1) as [[[vs' m2]|?|] h2] eqn:H2;
      try done.
    injection Hrun as _ <- <-. trans m1; [by eapply deepcopy_grows|by eapply IH].
Qed.

Lemma deepcopy_into_grows (y : addr) (items : list value) (m : FrozenList.memo) (h : heap)
    (m' : FrozenList.memo) (h' : heap) :
  FrozenList.deepcopy_into deepcopy y items m h = (Ok m', h') -> m ⊆ m'.
Proof using deepcopy_grows.
  revert m h. induction items as [|item rest IH]; intros m h Hrun; simpl in Hrun.
  - by injection Hrun as <- _.
  - unfold mbind at 1 in Hrun. unfold M_bind in Hrun.
    destruct (deepcopy item m h) as [[[v m1]|?|] h1] eqn:H1; try done.
    unfold mbind at 1 in Hrun. unfold M_bind in Hrun.
    destruct (FrozenList.list_append y v h1) as [[[]|?|] h2] eqn:H2; try done.
    trans m1; [by eapply deepcopy_grows|by eapply IH].
Qed.

Lemma _deepcopy_list_grows (x : addr) (items : list value) (m : FrozenList.memo) (h : heap)
    (v : value) (m' : FrozenList.memo) (h' : heap) :
  FrozenList._deepcopy_list deepcopy x items m h = (Ok (v, m'), h') ->
  <[x := v]> m ⊆ m'.
Proof using deepcopy_grows.
  unfold FrozenList._deepcopy_list. intros Hrun.
  unfold mbind at 1 in Hrun. unfold M_bind, alloc in Hrun.
  unfold mbind at 1 in Hrun. unfold M_bind in Hrun.
  destruct (FrozenList.deepcopy_into _ _ _ _ _) as [[m1|?|] h1] eqn:H1; try done.
  injection Hrun as <- <- _. by eapply deepcopy_into_grows.
Qed.

Lemma __deepcopy___grows (self : addr) (m : FrozenList.memo) (h : heap)
    (v : value) (m' : FrozenList.memo) (h' : heap) :
  FrozenList.__deepcopy__ deepcopy self m h = (Ok (v, m'), h') ->
  match m !! self with
  | Some y => v = y /\ m' = m
  | None => <[self := v]> m ⊆ m'
  end.
Proof using deepcopy_grows.
  unfold FrozenList.__deepcopy__. intros Hrun.
  unfold mbind at 1 in Hrun. unfold M_bind in Hrun.
  destruct (load self h) as [[fl|?|] h0] eqn:H0; try done.
  cbv zeta in Hrun. destruct (m !! self) as [y|]; [by injection Hrun as <- <- _|].
  unfold mbind at 1 in Hrun. unfold M_bind, alloc in Hrun.
  unfold mbind at 1 in Hrun. unfold M_bind in Hrun.
  destruct (FrozenList.new _ _) as [[new_list|?|] h1] eqn:H1; try done.
  unfold mbind at 1 in Hrun. unfold M_bind in Hrun.
  destruct (load self h1) as [[fl1|?|] h2] eqn:H2; try done.
  unfold mbind at 1 in Hrun. unfold M_bind in Hrun.
  destruct (FrozenList.deepcopy_items _ _ _ _) as [[[copies m1]|?|] h3] eqn:H3; try done.
  unfold mbind at 1 in Hrun. unfold M_bind in Hrun.
  destruct (FrozenList.on_items _ _ _) as [[[]|?|] h4] eqn:H4; try done.
  unfold mbind at 1 in Hrun. unfold M_bind in Hrun.
  destruct (load self h4) as [[fl4|?|] h5] eqn:H5; try done.
  unfold mbind at 1 in Hrun. unfold M_bind in Hrun.
  destruct ((if _frozen fl4 then FrozenList.freeze new_list else mret tt) h5)
    as [[[]|?|] h6] eqn:H6; try done.
  injection Hrun as <- <- _. by eapply deepcopy_items_grows.
Qed.
End memo_grows.

(** A deep copy that returns has entered the copy in the memo, and has
    taken nothing out of it. *)
Lemma deepcopy_memo (depth : nat) (x : value) (m : FrozenList.memo) (h : heap)
    (v : value) (m' : FrozenList.memo) (h' : heap) :
  FrozenList.deepcopy depth x m h = (Ok (v, m'), h') ->
  m ⊆ m' /\ match x with VRef d => m' !! d = Some v | _ => v = x end.
Proof.
  revert x m h v m' h'. induction depth as [|depth IH]; intros x m h v m' h' Hrun;
    destruct x as [|z|d|t]; simpl in Hrun; try (by injection Hrun as <- <- _).
  - destruct (m !! d) as [y|] eqn:Hm; [|done]. by injection Hrun as <- <- _.
  - destruct (m !! d) as [y|] eqn:Hm; [by injection Hrun as <- <- _|].
    unfold mbind at 1 in Hrun. unfold M_bind, get_heap in Hrun.
    assert (Hinner : forall run : M (value * FrozenList.memo),
              (forall y m1 h1, run h = (Ok (y, m1), h1) -> <[d := y]> m ⊆ m1) ->
              ('(y, m1) ← run;
               mret (y, if bool_decide (y = VRef d) then m1 else <[d := y]> m1)) h
              = (Ok (v, m'), h') ->
              m ⊆ m' /\ m' !! d = Some v).
    { intros run Hgrows Hresult. unfold mbind, M_bind in Hresult.
      destruct (run h) as [[[y m1]|?|] h1] eqn:Hrun1; try done.
      specialize (Hgrows _ _ _ eq_refl).
      assert (Hd : m1 !! d = Some y).
      { apply (lookup_weaken (<[d := y]> m) m1); [apply lookup_insert_eq|done]. }
      assert (Hsub : m ⊆ m1) by (trans (<[d := y]> m); [by apply insert_subseteq|done]).
      injection Hresult as <- <- _. case_bool_decide; [done|].
      by rewrite insert_id. }
    destruct (h !! d) as [[items|fl]|].
    + apply (Hinner (FrozenList._deepcopy_list (FrozenList.deepcopy depth) d items m));
        [|exact Hrun].
      intros y m1 h1. apply _deepcopy_list_grows. intros ? ? ? ? ? ? Hsub.
      by destruct (IH _ _ _ _ _ _ Hsub).
    + apply (Hinner (FrozenList.__deepcopy__ (FrozenList.deepcopy depth) d m));
        [|exact Hrun].
      intros y m1 h1 Hcall.
      eapply __deepcopy___grows in Hcall; [by rewrite Hm in Hcall|].
      intros ? ? ? ? ? ? Hsub. by destruct (IH _ _ _ _ _ _ Hsub).
    + done.
Qed.

(** X24.  When [copy.deepcopy(x, memo)] has returned, the memo
    has lost no entry, and copying [x] again with the memo as it is now
    returns the same copy and leaves the memo and the heap alone,
    whatever the heap holds by then and however little room the stack
    has.  So does [x.__deepcopy__(memo)], called on a [FrozenList]
    directly. *)
Theorem deepcopy_again (depth depth' : nat) (x : value) (m m' : FrozenList.memo)
    (h h' h'' : heap) (v : value) :
  FrozenList.deepcopy depth x m h = (Ok (v, m'), h') ->
  m ⊆ m'
  /\ FrozenList.deepcopy depth' x m' h'' = (Ok (v, m'), h'')
  /\ (forall d fl, x = VRef d -> h'' !! d = Some (FrozenListObject fl) ->
        FrozenList.__deepcopy__ (FrozenList.deepcopy depth') d m' h'' = (Ok (v, m'), h'')).
Proof.
  intros Hrun. destruct (deepcopy_memo _ _ _ _ _ _ _ Hrun) as [Hsub Hx].
  split; [done|]. split.
  - destruct x as [|z|d|t].
    + subst v. by destruct depth'.
    + subst v. by destruct depth'.
    + destruct depth'; simpl; by rewrite Hx.
    + subst v. by destruct depth'.
  - intros d fl -> Hd. unfold FrozenList.__deepcopy__.
    unfold mbind at 1. unfold M_bind. rewrite (load_instance _ _ _ Hd).
    cbv zeta. by rewrite Hx.
Qed.

Lemma deepcopy_again_witness :
  exists v m' h',
    FrozenList.deepcopy 2 (VRef 1) ∅ knot = (Ok (v, m'), h')
    /\ FrozenList.deepcopy 0 (VRef 1) m' h' = (Ok (v, m'), h')
    /\ FrozenList.deepcopy 0 (VRef 0) m' h' = (Ok (VRef 4, m'), h').
Proof.
  destruct (FrozenList.deepcopy 2 (VRef 1) ∅ knot) as [[[v m']|e|] h'] eqn:Hrun;
    [|vm_compute in Hrun; discriminate Hrun..].
  exists v, m', h'. split; [done|].
  split; [apply (proj1 (proj2 (deepcopy_again 2 0 _ _ _ knot _ h' _ Hrun)))|].
  vm_compute in Hrun. injection Hrun as <- <- <-. reflexivity.
Defined.

(** ** The copy of a list of integers *)

Lemma deepcopy_atom (depth : nat) (v : value) (m : FrozenList.memo) :
  atom v = true -> FrozenList.deepcopy depth v m = mret (v, m).
Proof. by destruct depth, v. Qed.

Lemma deepcopy_items_atoms (depth : nat) (items : list value) (m : FrozenList.memo)
    (h : heap) :
  Forall (fun u => atom u = true) items ->
  FrozenList.deepcopy_items (FrozenList.deepcopy depth) items m h = (Ok (items, m), h).
Proof.
  induction 1 as [|v rest Hv _ IH]; simpl; [done|].
  unfold mbind at 1. unfold M_bind. rewrite (deepcopy_atom _ _ _ Hv).
  unfold mret at 1. unfold M_ret.
  unfold mbind at 1. unfold M_bind. by rewrite IH.
Qed.

(** X25.  The deep copy of a [FrozenList] of integers and
    [None] is a new [FrozenList] with the same items and the same flag;
    the memo sends the original to the copy, the original is as it was,
    and the copy compares equal to it. *)
Theorem deepcopy_of_atoms (depth : nat) (h : heap) (x : addr) (fl : FrozenList) :
  h !! x = Some (FrozenListObject fl) ->
  Forall (fun u => atom u = true) (_items fl) ->
  let x' := S (length h) in
  let h' := h ++ [ListObject []; FrozenListObject fl] in
  FrozenList.deepcopy (S depth) (VRef x) ∅ h = (Ok (VRef x', {[x := VRef x']}), h')
  /\ x' <> x
  /\ h' !! x = Some (FrozenListObject fl)
  /\ h' !! x' = Some (FrozenListObject fl)
  /\ FrozenList.richcmp depth x' (VRef x) Py_EQ h' = (Ok true, h').
Proof.
  intros Hx Hatoms x' h'.
  pose proof (lookup_lt_Some _ _ _ Hx) as Hlt.
  set (h1 := h ++ [ListObject []]).
  set (h2 := h1 ++ [FrozenListObject {| _frozen := false; _items := [] |}]).
  assert (Hlen1 : length h1 = S (length h))
    by (unfold h1; rewrite length_app; simpl; lia).
  assert (Harg : h1 !! length h = Some (ListObject [])) by (by apply list_lookup_middle).
  assert (Hnew : FrozenList.new (VRef (length h)) h1 = (Ok x', h2)).
  { rewrite (new_of_object _ _ _ Harg). by rewrite Hlen1. }
  assert (Hx2 : h2 !! x = Some (FrozenListObject fl)).
  { unfold h2, h1. by do 2 apply lookup_app_l_Some. }
  assert (Hx'2 : h2 !! x' = Some (FrozenListObject {| _frozen := false; _items := [] |})).
  { unfold h2, x'. rewrite <- Hlen1. by apply list_lookup_middle. }
  assert (Hh' : forall o, <[x' := o]> h2 = h ++ [ListObject []; o]).
  { intros o. unfold h2, x'. rewrite <- Hlen1.
    rewrite insert_app_r_alt by lia. rewrite Nat.sub_diag. simpl.
    unfold h1. by rewrite <- app_assoc. }
  assert (Hx' : h' !! x' = Some (FrozenListObject fl)).
  { unfold h'. rewrite <- (Hh' (FrozenListObject fl)).
    apply list_lookup_insert_eq. by eapply lookup_lt_Some. }
  assert (Hxh' : h' !! x = Some (FrozenListObject fl)) by (by apply lookup_app_l_Some).
  split; [|split; [unfold x'; lia|split; [done|split; [done|]]]].
  - simpl. rewrite lookup_empty.
    unfold mbind at 1. unfold M_bind, get_heap. rewrite Hx.
    unfold mbind at 1. unfold M_bind.
    assert (Hcall : FrozenList.__deepcopy__ (FrozenList.deepcopy depth) x ∅ h
                    = (Ok (VRef x', {[x := VRef x']}), h')).
    { unfold FrozenList.__deepcopy__.
      unfold mbind at 1. unfold M_bind. rewrite (load_instance _ _ _ Hx).
      cbv zeta. rewrite lookup_empty.
      unfold mbind at 1. unfold M_bind, alloc. fold h1.
      unfold mbind at 1. unfold M_bind. rewrite Hnew.
      unfold mbind at 1. unfold M_bind. rewrite (load_instance _ _ _ Hx2).
      unfold mbind at 1. unfold M_bind. rewrite (deepcopy_items_atoms _ _ _ _ Hatoms).
      unfold mbind at 1. unfold M_bind. rewrite (on_items_instance _ _ _ _ Hx'2).
      simpl. rewrite app_nil_r.
      set (h3 := <[x' := _]> h2).
      assert (Hx3 : h3 !! x = Some (FrozenListObject fl)).
      { unfold h3. rewrite list_lookup_insert_ne by (unfold x'; lia). done. }
      assert (Hx'3 : h3 !! x'
                = Some (FrozenListObject {| _frozen := false; _items := _items fl |})).
      { apply list_lookup_insert_eq. by eapply lookup_lt_Some. }
      unfold mbind at 1. unfold M_bind. rewrite (load_instance _ _ _ Hx3).
      unfold mbind at 1. unfold M_bind.
      destruct (_frozen fl) eqn:Hfr.
      - rewrite (freeze_instance _ _ _ Hx'3). unfold mret, M_ret. f_equal.
        unfold h3. rewrite list_insert_insert_eq, Hh'. unfold h'.
        do 3 f_equal. destruct fl; simpl in *; by subst.
      - unfold mret, M_ret. f_equal. unfold h3. rewrite Hh'. unfold h'.
        do 3 f_equal. destruct fl; simpl in *; by subst. }
    rewrite Hcall. unfold mret, M_ret. f_equal. f_equal. f_equal.
    rewrite bool_decide_eq_false_2 by (intros [= Heq]; unfold x' in Heq; lia).
    apply insert_id, lookup_singleton_eq.
  - rewrite (richcmp_instance _ _ _ _ _ _ _ Hx' Hxh'). simpl.
    by rewrite list_richcompare_identical.
Qed.

Lemma deepcopy_of_atoms_witness :
  FrozenList.deepcopy 1 (VRef 0) ∅ frozen_123
  = (Ok (VRef 2, {[0%nat := VRef 2]}),
     frozen_123 ++ [ListObject []; FrozenListObject {| _frozen := true; _items := [VInt 1; VInt 2; VInt 3] |}]).
Proof.
  apply (deepcopy_of_atoms 0 frozen_123 0 _ eq_refl). repeat constructor.
Defined.
